(** * docker_swarm: the reconciliation core of the Swarm module

    A shallow embedding of [plugins/modules/docker_swarm.py]: the
    [TaskParameters] class (construction from the module parameters,
    backfill from the inspected swarm, comparison) and the [SwarmManager]
    class (inspect, create-or-update, join, leave, remove), followed by the
    properties of the reconciliation engine. *)

From Stdlib Require Import String Ascii List ZArith Bool Arith Lia.
Import ListNotations.
Local Open Scope string_scope.
Local Open Scope list_scope.

(* Comparing with a variable string stays folded under [simpl]. *)
Arguments String.eqb : simpl nomatch.

(** ** Python values *)

(** The values the module handles are those of its parameters and of the
    JSON document [inspect_swarm] returns after the [json.dumps] /
    [json.loads] round trip: [None], booleans, integers, strings, lists and
    dictionaries with string keys. A dictionary keeps its insertion order. *)
Unset Elimination Schemes.
Inductive value : Type :=
| VNone
| VBool (b : bool)
| VInt (z : Z)
| VStr (s : string)
| VList (l : list value)
| VDict (d : list (string * value)).
Set Elimination Schemes.

Module Dict.

(** Insertion-ordered dictionaries with string keys. *)
Definition t (A : Type) : Type := list (string * A).

Fixpoint get {A} (d : t A) (k : string) : option A :=
  match d with
  | [] => None
  | (k', v) :: d' => if String.eqb k' k then Some v else get d' k
  end.

(** [d[k] = v]: an existing key keeps its position. *)
Fixpoint set {A} (d : t A) (k : string) (v : A) : t A :=
  match d with
  | [] => [(k, v)]
  | (k', v') :: d' =>
      if String.eqb k' k then (k', v) :: d' else (k', v') :: set d' k v
  end.

Definition keys {A} (d : t A) : list string := map fst d.

Definition mem {A} (d : t A) (k : string) : bool :=
  match get d k with Some _ => true | None => false end.

(** [d.update(other)] *)
Definition update {A} (d other : t A) : t A :=
  fold_left (fun acc kv => set acc (fst kv) (snd kv)) other d.

End Dict.

Definition odict : Type := Dict.t value.

Fixpoint str_mem (k : string) (l : list string) : bool :=
  match l with
  | [] => false
  | x :: l' => String.eqb x k || str_mem k l'
  end.

Fixpoint str_nodup (l : list string) : bool :=
  match l with
  | [] => true
  | x :: l' => negb (str_mem x l') && str_nodup l'
  end.

(** [a == b]. Booleans compare as the integers 0 and 1; two dictionaries are
    equal when they have the same number of entries and every key of the
    first is bound to an equal value in the second. *)
Fixpoint py_eq (a b : value) {struct a} : bool :=
  match a, b with
  | VNone, VNone => true
  | VBool x, VBool y => Bool.eqb x y
  | VBool x, VInt y => Z.eqb (Z.b2z x) y
  | VInt x, VBool y => Z.eqb x (Z.b2z y)
  | VInt x, VInt y => Z.eqb x y
  | VStr x, VStr y => String.eqb x y
  | VList xs, VList ys =>
      (fix go (xs ys : list value) : bool :=
         match xs, ys with
         | [], [] => true
         | x :: xs', y :: ys' => py_eq x y && go xs' ys'
         | _, _ => false
         end) xs ys
  | VDict d1, VDict d2 =>
      Nat.eqb (length d1) (length d2) &&
      (fix go (d : list (string * value)) : bool :=
         match d with
         | [] => true
         | (k, v) :: d' =>
             match Dict.get d2 k with
             | Some w => py_eq v w
             | None => false
             end && go d'
         end) d1
  | _, _ => false
  end.

(** [bool(v)] *)
Definition py_truthy (v : value) : bool :=
  match v with
  | VNone => false
  | VBool b => b
  | VInt z => negb (Z.eqb z 0)
  | VStr s => negb (String.eqb s "")
  | VList l => match l with [] => false | _ => true end
  | VDict d => match d with [] => false | _ => true end
  end.

(** [v is None] *)
Definition is_None (v : value) : bool :=
  match v with VNone => true | _ => false end.

(** [a or b] *)
Definition py_or (a b : value) : value := if py_truthy a then a else b.

(** A JSON document is well formed when no dictionary in it binds a key
    twice. *)
Fixpoint wf_value (v : value) : bool :=
  match v with
  | VList l => forallb wf_value l
  | VDict d =>
      str_nodup (map fst d) &&
      (fix go (d : list (string * value)) : bool :=
         match d with
         | [] => true
         | (_, v) :: d' => wf_value v && go d'
         end) d
  | _ => true
  end.

(** The induction principle of [value], with the hypotheses for the
    elements of a list and the entries of a dictionary. *)
Section ValueInduction.

Variable P : value -> Prop.
Hypothesis HNone : P VNone.
Hypothesis HBool : forall b, P (VBool b).
Hypothesis HInt : forall z, P (VInt z).
Hypothesis HStr : forall s, P (VStr s).
Hypothesis HList : forall l, Forall P l -> P (VList l).
Hypothesis HDict : forall d, Forall (fun kv => P (snd kv)) d -> P (VDict d).

Fixpoint value_ind (v : value) : P v :=
  match v with
  | VNone => HNone
  | VBool b => HBool b
  | VInt z => HInt z
  | VStr s => HStr s
  | VList l =>
      HList l ((fix go (l : list value) : Forall P l :=
                match l with
                | [] => Forall_nil _
                | x :: l' => Forall_cons _ (value_ind x) (go l')
                end) l)
  | VDict d =>
      HDict d ((fix go (d : list (string * value))
                : Forall (fun kv => P (snd kv)) d :=
                match d with
                | [] => Forall_nil _
                | kv :: d' => Forall_cons _ (value_ind (snd kv)) (go d')
                end) d)
  end.

End ValueInduction.

(** ** Exceptions *)

Inductive exn : Type :=
| APIError (msg : string)        (* docker.errors.APIError *)
| KeyError (k : string)          (* d[k] on a missing key *)
| AttributeError (a : string)    (* a missing attribute or method *)
| TypeError (msg : string)
| Fail (msg : string).           (* client.fail(msg): fail_json and exit *)

Inductive result (A : Type) : Type :=
| Ok (a : A)
| Raise (e : exn).
Arguments Ok {A} a.
Arguments Raise {A} e.

Definition rbind {A B} (r : result A) (f : A -> result B) : result B :=
  match r with
  | Ok a => f a
  | Raise e => Raise e
  end.

Declare Scope result_scope.
Delimit Scope result_scope with result.
Notation "'let?' x ':=' r 'in' k" := (rbind r (fun x => k))
  (at level 10, x name, r at level 100, k at level 200) : result_scope.
Local Open Scope result_scope.

(** [v[k]] for a string key [k]. *)
Definition py_getitem (v : value) (k : string) : result value :=
  match v with
  | VDict d =>
      match Dict.get d k with
      | Some x => Ok x
      | None => Raise (KeyError k)
      end
  | _ => Raise (TypeError "object is not subscriptable by a string key")
  end.

(** [v.get(k)] *)
Definition py_get (v : value) (k : string) : result value :=
  match v with
  | VDict d =>
      match Dict.get d k with
      | Some x => Ok x
      | None => Ok VNone
      end
  | _ => Raise (AttributeError "get")
  end.

Fixpoint is_prefix (p s : string) : bool :=
  match p, s with
  | EmptyString, _ => true
  | String a p', String b s' => Ascii.eqb a b && is_prefix p' s'
  | String _ _, EmptyString => false
  end.

Fixpoint is_substring (p s : string) : bool :=
  is_prefix p s ||
  match s with
  | EmptyString => false
  | String _ s' => is_substring p s'
  end.

(** [k in v] for a string [k]: key membership for a dictionary, element
    membership for a list, substring test for a string. *)
Definition py_contains (k : string) (v : value) : result bool :=
  match v with
  | VDict d => Ok (Dict.mem d k)
  | VList l => Ok (existsb (py_eq (VStr k)) l)
  | VStr s => Ok (is_substring k s)
  | _ => Raise (TypeError "argument is not iterable")
  end.

(** ** The capability gate *)

(** A version as [LooseVersion] parses it: its numeric components, compared
    lexicographically. *)
Definition version : Type := list nat.

Fixpoint version_le (a b : version) : bool :=
  match a, b with
  | [], _ => true
  | _ :: _, [] => false
  | x :: a', y :: b' =>
      if Nat.ltb x y then true
      else if Nat.ltb y x then false
      else version_le a' b'
  end.

Record requirement : Type := {
  docker_py_version : option version;
  docker_api_version : option version
}.

(** The table [main] hands to the client. *)
Definition option_minimal_versions : Dict.t requirement := [
  ("labels", {| docker_py_version := Some [2; 6; 0]; docker_api_version := Some [1; 32] |});
  ("signing_ca_cert", {| docker_py_version := Some [2; 6; 0]; docker_api_version := Some [1; 30] |});
  ("signing_ca_key", {| docker_py_version := Some [2; 6; 0]; docker_api_version := Some [1; 30] |});
  ("ca_force_rotate", {| docker_py_version := Some [2; 6; 0]; docker_api_version := Some [1; 30] |});
  ("autolock_managers", {| docker_py_version := Some [2; 6; 0]; docker_api_version := None |});
  ("log_driver", {| docker_py_version := Some [2; 6; 0]; docker_api_version := None |});
  ("remove_operation", {| docker_py_version := Some [2; 4; 0]; docker_api_version := None |});
  ("default_addr_pool", {| docker_py_version := Some [4; 0; 0]; docker_api_version := Some [1; 39] |});
  ("subnet_size", {| docker_py_version := Some [4; 0; 0]; docker_api_version := Some [1; 39] |});
  ("data_path_addr", {| docker_py_version := Some [4; 0; 0]; docker_api_version := Some [1; 30] |});
  ("data_path_port", {| docker_py_version := Some [6; 0; 0]; docker_api_version := Some [1; 40] |})
].

(** ** The transport *)

(** The requests the module sends through the client, with their
    arguments. The log of an invocation lists them oldest first. *)
Inductive call : Type :=
| InspectSwarm
| CheckIfSwarmManager
| CheckIfSwarmNode
| InitSwarm (init_arguments : odict)
| UpdateSwarm (version swarm_spec rotate_worker_token rotate_manager_token : value)
| GetUnlockKey
| NodeStatus (node_id : value)
| RemoveNode (node_id force : value)
| JoinSwarm (join_arguments : odict)
| LeaveSwarm (force : value).

(** The cluster behind the client. Every answer may depend on all the
    requests sent so far, the current one included (it is the last of the
    log); [inl msg] and [Some msg] stand for an [APIError]. *)
Record Transport : Type := {
  api_inspect_swarm : list call -> string + odict;
  api_check_if_swarm_manager : list call -> bool;
  api_check_if_swarm_node : list call -> bool;
  api_init_swarm : list call -> option string;
  api_update_swarm : list call -> option string;
  api_get_unlock_key : list call -> string + option odict;
  api_node_is_down : list call -> string + bool;
  api_remove_node : list call -> option string;
  api_join_swarm : list call -> option string;
  api_leave_swarm : list call -> option string
}.

(** What the module reads of [AnsibleDockerSwarmClient]. *)
Record AnsibleDockerSwarmClient : Type := {
  module_params : odict;            (* client.module.params *)
  check_mode : bool;                (* client.check_mode *)
  module_diff : bool;               (* client.module._diff *)
  client_docker_py_version : version;
  client_docker_api_version : version;
  transport : Transport
}.

(** Modelled from the spec: [client.option_minimal_versions[k]['supported']]
    is filled in by the client's base class, which is not among the sources.
    Following section 4.1 it is "computed from the negotiated client/server
    capability versions for the connected cluster plus a static per-field
    minimum-version table": an option is supported when the client's SDK and
    API versions reach the minimal versions the table lists for it; an
    option the table does not constrain is supported. *)
Definition supported (client : AnsibleDockerSwarmClient) (k : string) : bool :=
  match Dict.get option_minimal_versions k with
  | None => true
  | Some data =>
      match docker_py_version data with
      | None => true
      | Some v => version_le v (client_docker_py_version client)
      end &&
      match docker_api_version data with
      | None => true
      | Some v => version_le v (client_docker_api_version client)
      end
  end.

(** Modelled from the spec: [create_swarm_spec] is a method of the Docker
    SDK, which is not among the sources. The "nested specification
    sub-object" (section 4.2) is represented by the keyword arguments it is
    assembled from. *)
Definition create_swarm_spec (params : odict) : value := VDict params.

(** ** The difference tracker *)

Record difference : Type := {
  name : string;
  parameter : value;
  active : value
}.

(** Modelled from the spec: [DifferenceTracker] lives in [module_utils/util],
    which is not among the sources. Section 4.4: [add] "appends
    unconditionally"; [has_difference_for], the emptiness check and the
    before/after snapshot ("field -> observed value, field -> desired
    value") read the accumulated triples. *)
Definition DifferenceTracker : Type := list difference.

Definition DifferenceTracker_add (self : DifferenceTracker) (k : string)
    (p a : value) : DifferenceTracker :=
  self ++ [{| name := k; parameter := p; active := a |}].

Definition DifferenceTracker_empty (self : DifferenceTracker) : bool :=
  Nat.eqb (length self) 0.

Definition has_difference_for (self : DifferenceTracker) (k : string) : bool :=
  existsb (fun d => String.eqb (name d) k) self.

Definition get_before_after (self : DifferenceTracker) : odict * odict :=
  fold_left
    (fun ba item =>
       (Dict.set (fst ba) (name item) (active item),
        Dict.set (snd ba) (name item) (parameter item)))
    self ([], []).

(** ** TaskParameters *)

(** An instance is its [__dict__]: the attributes in the order they were
    first assigned. *)
Definition TaskParameters : Type := odict.

Definition getattr (self : TaskParameters) (a : string) : result value :=
  match Dict.get self a with
  | Some v => Ok v
  | None => Raise (AttributeError a)
  end.

Definition setattr (self : TaskParameters) (a : string) (v : value)
  : TaskParameters := Dict.set self a v.

Arguments getattr : simpl never.
Arguments setattr : simpl never.

(** Modelled from the spec: [DockerBaseClass] is not among the sources. Its
    constructor, which [TaskParameters.__init__] calls first, sets the one
    attribute [debug] ("a debug flag", section 4.6, read by [__call__] as
    [self.parameters.debug]) to [False]. *)
Definition DockerBaseClass_init : TaskParameters := [("debug", VBool false)].

(** [TaskParameters.__init__] *)
Definition TaskParameters_init : TaskParameters :=
  DockerBaseClass_init ++ [
    ("advertise_addr", VNone);
    ("listen_addr", VNone);
    ("remote_addrs", VNone);
    ("join_token", VNone);
    ("data_path_addr", VNone);
    ("data_path_port", VNone);
    ("snapshot_interval", VNone);
    ("task_history_retention_limit", VNone);
    ("keep_old_snapshots", VNone);
    ("log_entries_for_slow_followers", VNone);
    ("heartbeat_tick", VNone);
    ("election_tick", VNone);
    ("dispatcher_heartbeat_period", VNone);
    ("node_cert_expiry", VNone);
    ("name", VNone);
    ("labels", VNone);
    ("log_driver", VNone);
    ("signing_ca_cert", VNone);
    ("signing_ca_key", VNone);
    ("ca_force_rotate", VNone);
    ("autolock_managers", VNone);
    ("rotate_worker_token", VNone);
    ("rotate_manager_token", VNone);
    ("default_addr_pool", VNone);
    ("subnet_size", VNone)
  ].

(** The [assign] table of [update_parameters]: destination keyword and
    source attribute. *)
Definition assign : list (string * string) := [
  ("snapshot_interval", "snapshot_interval");
  ("task_history_retention_limit", "task_history_retention_limit");
  ("keep_old_snapshots", "keep_old_snapshots");
  ("log_entries_for_slow_followers", "log_entries_for_slow_followers");
  ("heartbeat_tick", "heartbeat_tick");
  ("election_tick", "election_tick");
  ("dispatcher_heartbeat_period", "dispatcher_heartbeat_period");
  ("node_cert_expiry", "node_cert_expiry");
  ("name", "name");
  ("labels", "labels");
  ("signing_ca_cert", "signing_ca_cert");
  ("signing_ca_key", "signing_ca_key");
  ("ca_force_rotate", "ca_force_rotate");
  ("autolock_managers", "autolock_managers");
  ("log_driver", "log_driver")
].

(** The loop of [update_parameters] that collects the keyword arguments. *)
Fixpoint collect_params (self : TaskParameters)
    (client : AnsibleDockerSwarmClient) (items : list (string * string))
    (params : odict) : result odict :=
  match items with
  | [] => Ok params
  | (dest, source) :: rest =>
      if negb (supported client source) then
        collect_params self client rest params
      else
        let? v := getattr self source in
        if negb (is_None v) then
          collect_params self client rest (Dict.set params dest v)
        else collect_params self client rest params
  end.

Definition update_parameters (self : TaskParameters)
    (client : AnsibleDockerSwarmClient) : result TaskParameters :=
  let? params := collect_params self client assign [] in
  Ok (setattr self "spec" (create_swarm_spec params)).

(** The loop of [from_ansible_params] over [client.module.params.items()]. *)
Definition copy_params (params : odict) (result : TaskParameters)
  : TaskParameters :=
  fold_left
    (fun r kv => if Dict.mem r (fst kv) then setattr r (fst kv) (snd kv) else r)
    params result.

Definition from_ansible_params (client : AnsibleDockerSwarmClient)
  : result TaskParameters :=
  update_parameters (copy_params (module_params client) TaskParameters_init)
    client.

(** [if self.<attr> is None: self.<attr> = <rhs>]; the right-hand side is
    only evaluated when the attribute is [None]. *)
Definition fill_if_None (self : TaskParameters) (a : string)
    (rhs : result value) : result TaskParameters :=
  let? cur := getattr self a in
  if is_None cur then
    let? v := rhs in Ok (setattr self a v)
  else Ok self.

(** [spec.get(section) or dict()] *)
Definition section (spec : value) (k : string) : result value :=
  let? s := py_get spec k in Ok (py_or s (VDict [])).

Definition update_from_swarm_info (self : TaskParameters) (swarm_info : odict)
  : result TaskParameters :=
  let? spec := py_getitem (VDict swarm_info) "Spec" in

  let? ca_config := section spec "CAConfig" in
  let? self := fill_if_None self "node_cert_expiry"
                 (py_get ca_config "NodeCertExpiry") in
  let? self := fill_if_None self "ca_force_rotate"
                 (py_get ca_config "ForceRotate") in

  let? dispatcher := section spec "Dispatcher" in
  let? self := fill_if_None self "dispatcher_heartbeat_period"
                 (py_get dispatcher "HeartbeatPeriod") in

  let? raft := section spec "Raft" in
  let? self := fill_if_None self "snapshot_interval"
                 (py_get raft "SnapshotInterval") in
  let? self := fill_if_None self "keep_old_snapshots"
                 (py_get raft "KeepOldSnapshots") in
  let? self := fill_if_None self "heartbeat_tick"
                 (py_get raft "HeartbeatTick") in
  let? self := fill_if_None self "log_entries_for_slow_followers"
                 (py_get raft "LogEntriesForSlowFollowers") in
  let? self := fill_if_None self "election_tick"
                 (py_get raft "ElectionTick") in

  let? orchestration := section spec "Orchestration" in
  let? self := fill_if_None self "task_history_retention_limit"
                 (py_get orchestration "TaskHistoryRetentionLimit") in

  let? encryption_config := section spec "EncryptionConfig" in
  let? self := fill_if_None self "autolock_managers"
                 (py_get encryption_config "AutoLockManagers") in

  let? self := fill_if_None self "name" (py_getitem spec "Name") in

  let? self := fill_if_None self "labels" (section spec "Labels") in

  let? task_defaults := py_getitem spec "TaskDefaults" in
  let? has_log_driver := py_contains "LogDriver" task_defaults in
  if has_log_driver then
    let? log_driver := py_getitem task_defaults "LogDriver" in
    Ok (setattr self "log_driver" log_driver)
  else Ok self.

(** The attributes [compare_to_active] skips. *)
Definition not_compared : list string := [
  "advertise_addr"; "listen_addr"; "remote_addrs"; "join_token";
  "rotate_worker_token"; "rotate_manager_token"; "spec";
  "default_addr_pool"; "subnet_size"; "data_path_addr"; "data_path_port"
].

(** The loop [for k in self.__dict__] of [compare_to_active]. *)
Fixpoint compare_attributes (ks : list string) (self other : TaskParameters)
    (client : AnsibleDockerSwarmClient) (differences : DifferenceTracker)
  : result DifferenceTracker :=
  match ks with
  | [] => Ok differences
  | k :: ks' =>
      if str_mem k not_compared then
        compare_attributes ks' self other client differences
      else if negb (supported client k) then
        compare_attributes ks' self other client differences
      else
        let? v := getattr self k in
        if is_None v then
          compare_attributes ks' self other client differences
        else
          let? other_value := getattr other k in
          if negb (py_eq v other_value) then
            compare_attributes ks' self other client
              (DifferenceTracker_add differences k v other_value)
          else compare_attributes ks' self other client differences
  end.

Definition compare_to_active (self other : TaskParameters)
    (client : AnsibleDockerSwarmClient) (differences : DifferenceTracker)
  : result DifferenceTracker :=
  let? differences :=
    compare_attributes (Dict.keys self) self other client differences in
  let? rotate_worker_token := getattr self "rotate_worker_token" in
  let differences :=
    if py_truthy rotate_worker_token then
      DifferenceTracker_add differences "rotate_worker_token"
        (VBool true) (VBool false)
    else differences in
  let? rotate_manager_token := getattr self "rotate_manager_token" in
  let differences :=
    if py_truthy rotate_manager_token then
      DifferenceTracker_add differences "rotate_manager_token"
        (VBool true) (VBool false)
    else differences in
  Ok differences.

(** ** SwarmManager *)

(** [results['swarm_facts']] is either the very dictionary [self.swarm_info]
    refers to (what [inspect_swarm] stores: updating [self.swarm_info] in
    place is seen through it) or a dictionary of its own. *)
Inductive facts : Type :=
| FactsSwarmInfo
| FactsDict (d : odict).

(** The [results] dictionary [main] creates and [exit_json] returns. *)
Record Results : Type := {
  changed : bool;
  actions : list string;
  swarm_facts : option facts;
  diff : option (odict * odict)
}.

Record SwarmManager : Type := {
  results : Results;
  swarm_info : odict;
  state : value;
  force : value;
  node_id : value;
  differences : DifferenceTracker;
  parameters : TaskParameters;
  created : bool;
  calls : list call                 (* the requests sent so far *)
}.

Definition set_results (f : Results -> Results) (s : SwarmManager)
  : SwarmManager :=
  {| results := f (results s); swarm_info := swarm_info s; state := state s;
     force := force s; node_id := node_id s; differences := differences s;
     parameters := parameters s; created := created s; calls := calls s |}.

Definition set_swarm_info (d : odict) (s : SwarmManager) : SwarmManager :=
  {| results := results s; swarm_info := d; state := state s;
     force := force s; node_id := node_id s; differences := differences s;
     parameters := parameters s; created := created s; calls := calls s |}.

Definition set_differences (d : DifferenceTracker) (s : SwarmManager)
  : SwarmManager :=
  {| results := results s; swarm_info := swarm_info s; state := state s;
     force := force s; node_id := node_id s; differences := d;
     parameters := parameters s; created := created s; calls := calls s |}.

Definition set_parameters (p : TaskParameters) (s : SwarmManager)
  : SwarmManager :=
  {| results := results s; swarm_info := swarm_info s; state := state s;
     force := force s; node_id := node_id s; differences := differences s;
     parameters := p; created := created s; calls := calls s |}.

Definition set_created (b : bool) (s : SwarmManager) : SwarmManager :=
  {| results := results s; swarm_info := swarm_info s; state := state s;
     force := force s; node_id := node_id s; differences := differences s;
     parameters := parameters s; created := b; calls := calls s |}.

Definition set_calls (l : list call) (s : SwarmManager) : SwarmManager :=
  {| results := results s; swarm_info := swarm_info s; state := state s;
     force := force s; node_id := node_id s; differences := differences s;
     parameters := parameters s; created := created s; calls := l |}.

Definition set_changed (b : bool) (r : Results) : Results :=
  {| changed := b; actions := actions r; swarm_facts := swarm_facts r;
     diff := diff r |}.

Definition append_action (a : string) (r : Results) : Results :=
  {| changed := changed r; actions := actions r ++ [a];
     swarm_facts := swarm_facts r; diff := diff r |}.

Definition set_swarm_facts (f : facts) (r : Results) : Results :=
  {| changed := changed r; actions := actions r; swarm_facts := Some f;
     diff := diff r |}.

Definition set_diff (d : odict * odict) (r : Results) : Results :=
  {| changed := changed r; actions := actions r;
     swarm_facts := swarm_facts r; diff := Some d |}.

(** What [results['swarm_facts']] holds when the invocation ends. *)
Definition read_swarm_facts (s : SwarmManager) : option odict :=
  match swarm_facts (results s) with
  | None => None
  | Some FactsSwarmInfo => Some (swarm_info s)
  | Some (FactsDict d) => Some d
  end.

(** *** Methods as state transformers that may raise *)

Definition M (A : Type) : Type := SwarmManager -> result A * SwarmManager.

Definition ret {A} (a : A) : M A := fun s => (Ok a, s).

Definition bind {A B} (m : M A) (f : A -> M B) : M B :=
  fun s =>
    match m s with
    | (Ok a, s') => f a s'
    | (Raise e, s') => (Raise e, s')
    end.

Definition raise {A} (e : exn) : M A := fun s => (Raise e, s).

Definition lift {A} (r : result A) : M A := fun s => (r, s).

Definition gets {A} (f : SwarmManager -> A) : M A := fun s => (Ok (f s), s).

Definition modify (f : SwarmManager -> SwarmManager) : M unit :=
  fun s => (Ok tt, f s).

(** [try: m  except APIError as exc: handler(exc)] *)
Definition try_APIError {A} (m : M A) (handler : string -> M A) : M A :=
  fun s =>
    match m s with
    | (Raise (APIError msg), s') => handler msg s'
    | r => r
    end.

Declare Scope manager_scope.
Delimit Scope manager_scope with manager.
Notation "x <- m ;; k" := (bind m (fun x => k))
  (at level 100, m at next level, right associativity) : manager_scope.
Notation "m ;; k" := (bind m (fun _ => k))
  (at level 100, right associativity) : manager_scope.
Local Open Scope manager_scope.

(** [self.client.fail(msg)] *)
Definition client_fail {A} (msg : string) : M A := raise (Fail msg).

(** Sending a request appends it to the log; the transport answers from the
    log. *)
Definition request (c : call) : M (list call) :=
  fun s => let log := calls s ++ [c] in (Ok log, set_calls log s).

Definition answer_unit (r : option string) : M unit :=
  match r with
  | Some msg => raise (APIError msg)
  | None => ret tt
  end.

Definition answer {A} (r : string + A) : M A :=
  match r with
  | inl msg => raise (APIError msg)
  | inr a => ret a
  end.

Definition client_inspect_swarm (client : AnsibleDockerSwarmClient) : M odict :=
  log <- request InspectSwarm ;;
  answer (api_inspect_swarm (transport client) log).

Definition client_check_if_swarm_manager (client : AnsibleDockerSwarmClient)
  : M bool :=
  log <- request CheckIfSwarmManager ;;
  ret (api_check_if_swarm_manager (transport client) log).

Definition client_check_if_swarm_node (client : AnsibleDockerSwarmClient)
  : M bool :=
  log <- request CheckIfSwarmNode ;;
  ret (api_check_if_swarm_node (transport client) log).

Definition client_init_swarm (client : AnsibleDockerSwarmClient)
    (init_arguments : odict) : M unit :=
  log <- request (InitSwarm init_arguments) ;;
  answer_unit (api_init_swarm (transport client) log).

Definition client_update_swarm (client : AnsibleDockerSwarmClient)
    (version swarm_spec rotate_worker_token rotate_manager_token : value)
  : M unit :=
  log <- request (UpdateSwarm version swarm_spec rotate_worker_token
                    rotate_manager_token) ;;
  answer_unit (api_update_swarm (transport client) log).

Definition client_get_unlock_key (client : AnsibleDockerSwarmClient)
  : M (option odict) :=
  log <- request GetUnlockKey ;;
  answer (api_get_unlock_key (transport client) log).

Definition client_remove_node (client : AnsibleDockerSwarmClient)
    (node_id force : value) : M unit :=
  log <- request (RemoveNode node_id force) ;;
  answer_unit (api_remove_node (transport client) log).

Definition client_join_swarm (client : AnsibleDockerSwarmClient)
    (join_arguments : odict) : M unit :=
  log <- request (JoinSwarm join_arguments) ;;
  answer_unit (api_join_swarm (transport client) log).

Definition client_leave_swarm (client : AnsibleDockerSwarmClient)
    (force : value) : M unit :=
  log <- request (LeaveSwarm force) ;;
  answer_unit (api_leave_swarm (transport client) log).

(** Modelled from the spec: [check_if_swarm_node_is_down] is a method of
    [AnsibleDockerSwarmClient], which is not among the sources. Sections 4.5
    and 5: "poll node status up to a bounded retry count waiting for the
    target node to reach a down state", "a polling loop simply exhausts its
    retry budget and reports failure"; each status check is one request
    ([node_status_is_down(node_id) -> bool], section 6). *)
Fixpoint check_if_swarm_node_is_down (client : AnsibleDockerSwarmClient)
    (node_id : value) (repeat_check : nat) : M bool :=
  match repeat_check with
  | O => ret false
  | S n =>
      log <- request (NodeStatus node_id) ;;
      down <- answer (api_node_is_down (transport client) log) ;;
      if down then ret true
      else check_if_swarm_node_is_down client node_id n
  end.

Section Methods.

(** Python's [repr] of a list, a dictionary or an integer, as the
    interpreter prints it. *)
Variable py_repr : value -> string.

(** ["%s" % (v)] *)
Definition py_format (v : value) : string :=
  match v with
  | VNone => "None"
  | VBool true => "True"
  | VBool false => "False"
  | VStr s => s
  | _ => py_repr v
  end.

Variable client : AnsibleDockerSwarmClient.

(** [SwarmManager.__init__] *)
Definition SwarmManager_init (res : Results) : result SwarmManager :=
  let? state := py_getitem (VDict (module_params client)) "state" in
  let? force := py_getitem (VDict (module_params client)) "force" in
  let? node_id := py_getitem (VDict (module_params client)) "node_id" in
  let? parameters := from_ansible_params client in
  Ok {| results := res; swarm_info := []; state := state; force := force;
        node_id := node_id; differences := []; parameters := parameters;
        created := false; calls := [] |}.

(** The truth value of [has_swarm_lock_changed()]. *)
Definition has_swarm_lock_changed : M bool :=
  p <- gets parameters ;;
  autolock_managers <- lift (getattr p "autolock_managers") ;;
  created <- gets created ;;
  d <- gets differences ;;
  ret (py_truthy autolock_managers &&
       (created || has_difference_for d "autolock_managers")).

Definition get_unlock_key : M odict :=
  let default := [("UnlockKey", VNone)] in
  lock_changed <- has_swarm_lock_changed ;;
  if negb lock_changed then ret default
  else
    try_APIError
      (key <- client_get_unlock_key client ;;
       match key with
       | Some (kv :: d) => ret (kv :: d)
       | _ => ret default                  (* [... or default] *)
       end)
      (fun _ => ret default).

Definition inspect_swarm : M unit :=
  try_APIError
    (data <- client_inspect_swarm client ;;
     modify (set_swarm_info data) ;;
     modify (set_results (set_changed false)) ;;
     modify (set_results (set_swarm_facts FactsSwarmInfo)) ;;
     unlock_key <- get_unlock_key ;;
     modify (fun s => set_swarm_info (Dict.update (swarm_info s) unlock_key) s))
    (fun _ => ret tt).

(** [d.get(k)] on a dictionary *)
Definition dict_get_or_None (d : odict) (k : string) : value :=
  match Dict.get d k with
  | Some v => v
  | None => VNone
  end.

(** The [try] block of [__update_swarm]; it answers [true] when the method
    returns from inside it. *)
Definition update_swarm_try : M bool :=
  inspect_swarm ;;
  info <- gets swarm_info ;;
  version <- lift (let? v := py_getitem (VDict info) "Version" in
                   py_getitem v "Index") ;;
  p <- gets parameters ;;
  p <- lift (update_from_swarm_info p info) ;;
  modify (set_parameters p) ;;
  old_parameters <- lift (update_from_swarm_info TaskParameters_init info) ;;
  d <- gets differences ;;
  d <- lift (compare_to_active p old_parameters client d) ;;
  modify (set_differences d) ;;
  if DifferenceTracker_empty d then
    modify (set_results (append_action "No modification")) ;;
    modify (set_results (set_changed false)) ;;
    ret true
  else
    update_parameters_ <- lift (from_ansible_params client) ;;
    update_parameters_ <- lift (update_parameters update_parameters_ client) ;;
    (if negb (check_mode client) then
       swarm_spec <- lift (getattr update_parameters_ "spec") ;;
       rotate_worker_token <- lift (getattr p "rotate_worker_token") ;;
       rotate_manager_token <- lift (getattr p "rotate_manager_token") ;;
       client_update_swarm client version swarm_spec rotate_worker_token
         rotate_manager_token
     else ret tt) ;;
    ret false.

Definition __update_swarm : M unit :=
  returned <-
    try_APIError update_swarm_try
      (fun exc => client_fail ("Can not update a Swarm Cluster: " ++ exc)) ;;
  if returned : bool then ret tt
  else
    inspect_swarm ;;
    modify (set_results (append_action "Swarm cluster updated")) ;;
    modify (set_results (set_changed true)).

(** [init_arguments[k] = self.parameters.k] when the attribute is set. *)
Definition add_if_not_None (p : TaskParameters) (k : string) (args : odict)
  : result odict :=
  let? v := getattr p k in
  Ok (if negb (is_None v) then Dict.set args k v else args).

Definition init_swarm : M unit :=
  force <- gets force ;;
  is_manager <- (if negb (py_truthy force)
                 then client_check_if_swarm_manager client
                 else ret false) ;;
  if is_manager : bool then __update_swarm
  else
    (if negb (check_mode client) then
       p <- gets parameters ;;
       advertise_addr <- lift (getattr p "advertise_addr") ;;
       listen_addr <- lift (getattr p "listen_addr") ;;
       swarm_spec <- lift (getattr p "spec") ;;
       let init_arguments := [
         ("advertise_addr", advertise_addr);
         ("listen_addr", listen_addr);
         ("force_new_cluster", force);
         ("swarm_spec", swarm_spec)
       ] in
       init_arguments <- lift (add_if_not_None p "default_addr_pool" init_arguments) ;;
       init_arguments <- lift (add_if_not_None p "subnet_size" init_arguments) ;;
       init_arguments <- lift (add_if_not_None p "data_path_addr" init_arguments) ;;
       init_arguments <- lift (add_if_not_None p "data_path_port" init_arguments) ;;
       try_APIError (client_init_swarm client init_arguments)
         (fun exc => client_fail ("Can not create a new Swarm Cluster: " ++ exc))
     else ret tt) ;;
    is_manager <- client_check_if_swarm_manager client ;;
    (if negb is_manager then
       if negb (check_mode client)
       then client_fail "Swarm not created or other error!"
       else ret tt
     else ret tt) ;;
    modify (set_created true) ;;
    inspect_swarm ;;
    info <- gets swarm_info ;;
    modify (set_results (append_action
      ("New Swarm cluster created: " ++ py_format (dict_get_or_None info "ID")))) ;;
    modify (fun s => set_differences
      (DifferenceTracker_add (differences s) "state" (VStr "present")
         (VStr "absent")) s) ;;
    modify (set_results (set_changed true)) ;;
    modify (set_results (set_swarm_facts (FactsDict [
      ("JoinTokens", dict_get_or_None info "JoinTokens");
      ("UnlockKey", dict_get_or_None info "UnlockKey")
    ]))).

Definition join : M unit :=
  is_node <- client_check_if_swarm_node client ;;
  if is_node : bool then
    modify (set_results (append_action "This node is already part of a swarm."))
  else
    (if negb (check_mode client) then
       p <- gets parameters ;;
       remote_addrs <- lift (getattr p "remote_addrs") ;;
       join_token <- lift (getattr p "join_token") ;;
       listen_addr <- lift (getattr p "listen_addr") ;;
       advertise_addr <- lift (getattr p "advertise_addr") ;;
       let join_arguments := [
         ("remote_addrs", remote_addrs);
         ("join_token", join_token);
         ("listen_addr", listen_addr);
         ("advertise_addr", advertise_addr)
       ] in
       join_arguments <- lift (add_if_not_None p "data_path_addr" join_arguments) ;;
       try_APIError (client_join_swarm client join_arguments)
         (fun exc => client_fail ("Can not join the Swarm Cluster: " ++ exc))
     else ret tt) ;;
    modify (set_results (append_action "New node is added to swarm cluster")) ;;
    modify (fun s => set_differences
      (DifferenceTracker_add (differences s) "joined" (VBool true)
         (VBool false)) s) ;;
    modify (set_results (set_changed true)).

Definition leave : M unit :=
  is_node <- client_check_if_swarm_node client ;;
  if negb is_node then
    modify (set_results (append_action "This node is not part of a swarm."))
  else
    (if negb (check_mode client) then
       force <- gets force ;;
       try_APIError (client_leave_swarm client force)
         (fun exc =>
            client_fail ("This node can not leave the Swarm Cluster: " ++ exc))
     else ret tt) ;;
    modify (set_results (append_action "Node has left the swarm cluster")) ;;
    modify (fun s => set_differences
      (DifferenceTracker_add (differences s) "joined" (VStr "absent")
         (VStr "present")) s) ;;
    modify (set_results (set_changed true)).

Definition remove : M unit :=
  is_manager <- client_check_if_swarm_manager client ;;
  (if negb is_manager then client_fail "This node is not a manager."
   else ret tt) ;;
  node_id <- gets node_id ;;
  status <-
    try_APIError
      (status_down <- check_if_swarm_node_is_down client node_id 5 ;;
       ret (Some status_down))
      (fun _ => ret None) ;;
  match status with
  | None => ret tt                      (* [except APIError: return] *)
  | Some status_down =>
      (if negb status_down then
         client_fail
           "Can not remove the node. The status node is ready and not down."
       else ret tt) ;;
      (if negb (check_mode client) then
         force <- gets force ;;
         try_APIError (client_remove_node client node_id force)
           (fun exc =>
              client_fail
                ("Can not remove the node from the Swarm Cluster: " ++ exc))
       else ret tt) ;;
      modify (set_results (append_action "Node is removed from swarm cluster.")) ;;
      modify (fun s => set_differences
        (DifferenceTracker_add (differences s) "joined" (VBool false)
           (VBool true)) s) ;;
      modify (set_results (set_changed true))
  end.

(** [SwarmManager.__call__] *)
Definition __call__ : M unit :=
  state <- gets state ;;
  (if py_eq state (VStr "present") then init_swarm
   else if py_eq state (VStr "join") then join
   else if py_eq state (VStr "absent") then leave
   else if py_eq state (VStr "remove") then remove
   else raise (TypeError "'NoneType' object is not callable")) ;;
  p <- gets parameters ;;
  debug <- (if module_diff client then ret (VBool true)
            else lift (getattr p "debug")) ;;
  if py_truthy debug then
    modify (fun s => set_results (set_diff (get_before_after (differences s))) s)
  else ret tt.

(** The body of [main] up to [exit_json]: the final results, or the
    exception that ended the invocation. *)
Definition run : result unit * option SwarmManager :=
  match SwarmManager_init
          {| changed := false; actions := []; swarm_facts := None;
             diff := None |} with
  | Ok self => let (r, s) := __call__ self in (r, Some s)
  | Raise e => (Raise e, None)
  end.

End Methods.

(** ** The observed value of a field

    Section 4.3 of the specification, in its words: "for every field still
    unset in desired, copy the observed value from the corresponding nested
    section of the raw document (raft section -> tick/heartbeat/retention
    fields; certificate-authority section -> expiry/force-rotate; dispatcher
    section -> heartbeat period; orchestration section -> task-history
    retention; encryption section -> autolock flag; top level -> name and
    label mapping)". *)

(** Field, section of the specification, key in the section. *)
Definition observed_in_section : Dict.t (string * string) := [
  ("snapshot_interval", ("Raft", "SnapshotInterval"));
  ("keep_old_snapshots", ("Raft", "KeepOldSnapshots"));
  ("heartbeat_tick", ("Raft", "HeartbeatTick"));
  ("log_entries_for_slow_followers", ("Raft", "LogEntriesForSlowFollowers"));
  ("election_tick", ("Raft", "ElectionTick"));
  ("node_cert_expiry", ("CAConfig", "NodeCertExpiry"));
  ("ca_force_rotate", ("CAConfig", "ForceRotate"));
  ("dispatcher_heartbeat_period", ("Dispatcher", "HeartbeatPeriod"));
  ("task_history_retention_limit", ("Orchestration", "TaskHistoryRetentionLimit"));
  ("autolock_managers", ("EncryptionConfig", "AutoLockManagers"))
].

(** The observed value of a backfilled field; [None] for the attributes the
    backfill does not read from the document this way. *)
Definition observed_value (spec : value) (k : string) : option (result value) :=
  match Dict.get observed_in_section k with
  | Some (sec, key) => Some (let? s := section spec sec in py_get s key)
  | None =>
      if String.eqb "name" k then Some (py_getitem spec "Name")
      else if String.eqb "labels" k then Some (section spec "Labels")
      else None
  end.

(** The fields claim C2 lists. *)
Definition backfilled_fields : list string :=
  Dict.keys observed_in_section ++ ["name"; "labels"].

(** The value of an attribute after [if self.a is None: self.a = rhs]. *)
Definition backfilled (self : TaskParameters) (rhs : result value) (k : string)
  : result value :=
  match getattr self k with
  | Ok VNone => rhs
  | x => x
  end.

(** The [LogDriver] entry of the task defaults, when there is one. *)
Definition observed_log_driver (spec : value) : result (option value) :=
  let? task_defaults := py_getitem spec "TaskDefaults" in
  let? has_log_driver := py_contains "LogDriver" task_defaults in
  if has_log_driver then
    let? log_driver := py_getitem task_defaults "LogDriver" in
    Ok (Some log_driver)
  else Ok None.

(** ** Example invocations *)

(** A swarm as [inspect_swarm] reports it. *)
Definition example_swarm : odict := [
  ("ID", VStr "7fbcrstl2zqq");
  ("Version", VDict [("Index", VInt 11)]);
  ("Spec", VDict [
     ("Name", VStr "default");
     ("Labels", VDict []);
     ("Orchestration", VDict [("TaskHistoryRetentionLimit", VInt 5)]);
     ("Raft", VDict [
        ("SnapshotInterval", VInt 10000);
        ("KeepOldSnapshots", VInt 0);
        ("LogEntriesForSlowFollowers", VInt 500);
        ("ElectionTick", VInt 10);
        ("HeartbeatTick", VInt 1)]);
     ("Dispatcher", VDict [("HeartbeatPeriod", VInt 5000000000)]);
     ("CAConfig", VDict [("NodeCertExpiry", VInt 7776000000000000)]);
     ("TaskDefaults", VDict []);
     ("EncryptionConfig", VDict [("AutoLockManagers", VBool false)])]);
  ("JoinTokens", VDict [
     ("Worker", VStr "SWMTKN-1-worker");
     ("Manager", VStr "SWMTKN-1-manager")])
].

(** The module parameters when the playbook sets nothing: the defaults of
    the argument specification. *)
Definition default_params : odict := [
  ("debug", VBool false);
  ("advertise_addr", VNone);
  ("data_path_addr", VNone);
  ("data_path_port", VNone);
  ("state", VStr "present");
  ("force", VBool false);
  ("listen_addr", VStr "0.0.0.0:2377");
  ("remote_addrs", VNone);
  ("join_token", VNone);
  ("snapshot_interval", VNone);
  ("task_history_retention_limit", VNone);
  ("keep_old_snapshots", VNone);
  ("log_entries_for_slow_followers", VNone);
  ("heartbeat_tick", VNone);
  ("election_tick", VNone);
  ("dispatcher_heartbeat_period", VNone);
  ("node_cert_expiry", VNone);
  ("name", VNone);
  ("labels", VNone);
  ("signing_ca_cert", VNone);
  ("signing_ca_key", VNone);
  ("ca_force_rotate", VNone);
  ("autolock_managers", VNone);
  ("node_id", VNone);
  ("rotate_worker_token", VBool false);
  ("rotate_manager_token", VBool false);
  ("default_addr_pool", VNone);
  ("subnet_size", VNone)
].

(** A manager of [example_swarm] that accepts every request; the node asked
    about is up. *)
Definition manager_transport : Transport := {|
  api_inspect_swarm := fun _ => inr example_swarm;
  api_check_if_swarm_manager := fun _ => true;
  api_check_if_swarm_node := fun _ => true;
  api_init_swarm := fun _ => None;
  api_update_swarm := fun _ => None;
  api_get_unlock_key := fun _ => inr (Some [("UnlockKey", VStr "SWMKEY-1-key")]);
  api_node_is_down := fun _ => inr false;
  api_remove_node := fun _ => None;
  api_join_swarm := fun _ => None;
  api_leave_swarm := fun _ => None
|}.

(** A node outside any swarm: it becomes the manager of [example_swarm] once
    an [InitSwarm] request was sent. *)
Definition fresh_node_transport : Transport := {|
  api_inspect_swarm := fun log =>
    if existsb (fun c => match c with InitSwarm _ => true | _ => false end) log
    then inr example_swarm
    else inl "This node is not a swarm manager.";
  api_check_if_swarm_manager := fun log =>
    existsb (fun c => match c with InitSwarm _ => true | _ => false end) log;
  api_check_if_swarm_node := fun log =>
    existsb (fun c => match c with InitSwarm _ => true | _ => false end) log;
  api_init_swarm := fun _ => None;
  api_update_swarm := fun _ => None;
  api_get_unlock_key := fun _ => inl "swarm is not locked";
  api_node_is_down := fun _ => inl "node not found";
  api_remove_node := fun _ => None;
  api_join_swarm := fun _ => None;
  api_leave_swarm := fun _ => None
|}.

(** A manager whose node inspection and unlock-key retrieval fail. *)
Definition failing_status_transport : Transport := {|
  api_inspect_swarm := fun _ => inr example_swarm;
  api_check_if_swarm_manager := fun _ => true;
  api_check_if_swarm_node := fun _ => true;
  api_init_swarm := fun _ => None;
  api_update_swarm := fun _ => None;
  api_get_unlock_key := fun _ => inl "swarm is not locked";
  api_node_is_down := fun _ => inl "node not found";
  api_remove_node := fun _ => None;
  api_join_swarm := fun _ => None;
  api_leave_swarm := fun _ => None
|}.

(** A client of a recent SDK and API, not in check mode, for the given
    playbook settings. *)
Definition example_client (settings : odict) (check : bool) (t : Transport)
  : AnsibleDockerSwarmClient := {|
  module_params := Dict.update default_params settings;
  check_mode := check;
  module_diff := false;
  client_docker_py_version := [7; 1; 0];
  client_docker_api_version := [1; 43];
  transport := t
|}.

(** A stand-in for Python's [repr] in the examples, where every swarm
    identifier is a string. *)
Definition example_repr (v : value) : string := "<repr>".

(** The manager [SwarmManager.__init__] builds for a client; an empty one
    when the construction raises. *)
Definition new_manager (client : AnsibleDockerSwarmClient) : SwarmManager :=
  match SwarmManager_init client
          {| changed := false; actions := []; swarm_facts := None;
             diff := None |} with
  | Ok self => self
  | Raise _ =>
      {| results := {| changed := false; actions := []; swarm_facts := None;
                       diff := None |};
         swarm_info := []; state := VNone; force := VNone; node_id := VNone;
         differences := []; parameters := []; created := false; calls := [] |}
  end.

(** The entry a rotate flag adds. *)
Definition rotate_entry (k : string) (flag : value) : list difference :=
  if py_truthy flag
  then [{| name := k; parameter := VBool true; active := VBool false |}]
  else [].

(** ** Excluded fields and submitted specifications *)

(** The connection-only fields of claim C4. *)
Definition connection_only : list string := [
  "advertise_addr"; "listen_addr"; "remote_addrs"; "join_token";
  "default_addr_pool"; "subnet_size"; "data_path_addr"; "data_path_port"
].

(** The specifications the requests of a log carry: the [swarm_spec] of
    every update and of every initialisation. *)
Definition submitted_specs (log : list call) : list value :=
  flat_map
    (fun c =>
       match c with
       | UpdateSwarm _ swarm_spec _ _ => [swarm_spec]
       | InitSwarm init_arguments =>
           match Dict.get init_arguments "swarm_spec" with
           | Some swarm_spec => [swarm_spec]
           | None => []
           end
       | _ => []
       end)
    log.

(** A specification that was assembled without the keyword [k]. *)
Definition spec_without (k : string) (swarm_spec : value) : Prop :=
  exists params,
    swarm_spec = create_swarm_spec params /\ Dict.mem params k = false.

(** The invariant behind claim C4, on the differences, the log and the
    parameters of a manager: no difference is named after a connection-only
    or unsupported field [k], and when [k] is unsupported neither the
    specifications already submitted nor the one the parameters hold
    mention it. *)
Definition gated (client : AnsibleDockerSwarmClient) (k : string)
    (d : DifferenceTracker) (log : list call) (p : TaskParameters) : Prop :=
  ((In k connection_only \/ supported client k = false) ->
   has_difference_for d k = false)
  /\ (supported client k = false ->
      (forall s, In s (submitted_specs log) -> spec_without k s)
      /\ (forall s, getattr p "spec" = Ok s -> spec_without k s)).

Definition gated_manager (client : AnsibleDockerSwarmClient) (k : string)
    (st : SwarmManager) : Prop :=
  gated client k (differences st) (calls st) (parameters st).

(** A client of an engine whose API predates label support (1.32). *)
Definition legacy_client (settings : odict) (t : Transport)
  : AnsibleDockerSwarmClient := {|
  module_params := Dict.update default_params settings;
  check_mode := false;
  module_diff := false;
  client_docker_py_version := [7; 1; 0];
  client_docker_api_version := [1; 30];
  transport := t
|}.

(** The update requests of a log. *)
Definition updates (log : list call) : list call :=
  filter (fun c => match c with UpdateSwarm _ _ _ _ => true | _ => false end)
    log.

(** The manager an invocation ends with; the initial one when the
    construction raises. *)
Definition final_manager (py_repr : value -> string)
    (client : AnsibleDockerSwarmClient) : SwarmManager :=
  match snd (run py_repr client) with
  | Some s => s
  | None => new_manager client
  end.

(** A node outside any swarm whose engine rejects every change. *)
Definition rejecting_node_transport : Transport := {|
  api_inspect_swarm := fun _ => inl "This node is not a swarm manager.";
  api_check_if_swarm_manager := fun _ => false;
  api_check_if_swarm_node := fun _ => false;
  api_init_swarm := fun _ => Some "permission denied";
  api_update_swarm := fun _ => Some "permission denied";
  api_get_unlock_key := fun _ => inl "swarm is not locked";
  api_node_is_down := fun _ => inl "node not found";
  api_remove_node := fun _ => Some "permission denied";
  api_join_swarm := fun _ => Some "permission denied";
  api_leave_swarm := fun _ => Some "permission denied"
|}.

(** A manager of [example_swarm] whose engine rejects every change; the node
    asked about is down. *)
Definition rejecting_manager_transport : Transport := {|
  api_inspect_swarm := fun _ => inr example_swarm;
  api_check_if_swarm_manager := fun _ => true;
  api_check_if_swarm_node := fun _ => true;
  api_init_swarm := fun _ => Some "permission denied";
  api_update_swarm := fun _ => Some "permission denied";
  api_get_unlock_key := fun _ => inr None;
  api_node_is_down := fun _ => inr true;
  api_remove_node := fun _ => Some "permission denied";
  api_join_swarm := fun _ => Some "permission denied";
  api_leave_swarm := fun _ => Some "permission denied"
|}.

(** A manager of [example_swarm] that accepts every request; the node asked
    about is reported down from the third status check on. *)
Definition down_node_transport : Transport := {|
  api_inspect_swarm := fun _ => inr example_swarm;
  api_check_if_swarm_manager := fun _ => true;
  api_check_if_swarm_node := fun _ => true;
  api_init_swarm := fun _ => None;
  api_update_swarm := fun _ => None;
  api_get_unlock_key := fun _ => inr None;
  api_node_is_down := fun log => inr (Nat.leb 4 (length log));
  api_remove_node := fun _ => None;
  api_join_swarm := fun _ => None;
  api_leave_swarm := fun _ => None
|}.

(** An optional keyword argument: present when its value is not [None]. *)
Definition optional (k : string) (v : value) : odict :=
  if is_None v then [] else [(k, v)].

(** A node outside any swarm whose engine accepts the initialisation but
    never reports the node as a manager. *)
Definition stuck_node_transport : Transport := {|
  api_inspect_swarm := fun _ => inl "This node is not a swarm manager.";
  api_check_if_swarm_manager := fun _ => false;
  api_check_if_swarm_node := fun _ => false;
  api_init_swarm := fun _ => None;
  api_update_swarm := fun _ => None;
  api_get_unlock_key := fun _ => inl "swarm is not locked";
  api_node_is_down := fun _ => inl "node not found";
  api_remove_node := fun _ => None;
  api_join_swarm := fun _ => None;
  api_leave_swarm := fun _ => None
|}.

(** The requests that only read the state of the engine. *)
Definition read_only (c : call) : bool :=
  match c with
  | InitSwarm _ | UpdateSwarm _ _ _ _ | JoinSwarm _ | LeaveSwarm _
  | RemoveNode _ _ => false
  | _ => true
  end.

(** * Properties *)

(** ** Dictionaries *)

Lemma get_set_same {A} (d : Dict.t A) k v :
  Dict.get (Dict.set d k v) k = Some v.
Proof.
  induction d as [|[k' v'] d IH]; simpl.
  - now rewrite String.eqb_refl.
  - destruct (String.eqb k' k) eqn:E; simpl; rewrite ?E; auto.
Qed.

Lemma get_set_other {A} (d : Dict.t A) k k' v :
  k <> k' -> Dict.get (Dict.set d k v) k' = Dict.get d k'.
Proof.
  intros Hk. induction d as [|[k0 v0] d IH]; simpl.
  - destruct (String.eqb_spec k k'); congruence.
  - destruct (String.eqb_spec k0 k) as [->|]; simpl.
    + destruct (String.eqb_spec k k'); congruence.
    + now rewrite IH.
Qed.

Lemma keys_set_mem {A} (d : Dict.t A) k v :
  Dict.mem d k = true -> Dict.keys (Dict.set d k v) = Dict.keys d.
Proof.
  unfold Dict.mem, Dict.keys.
  induction d as [|[k0 v0] d IH]; simpl; [discriminate|].
  destruct (String.eqb k0 k); simpl; intros H; [reflexivity|].
  now rewrite IH.
Qed.

Lemma mem_keys {A} (d : Dict.t A) k :
  Dict.mem d k = str_mem k (Dict.keys d).
Proof.
  unfold Dict.mem, Dict.keys.
  induction d as [|[k0 v0] d IH]; simpl; [reflexivity|].
  destruct (String.eqb k0 k); simpl; auto.
Qed.

Lemma str_mem_In k l : str_mem k l = true <-> In k l.
Proof.
  induction l as [|x l IH]; simpl; [split; [discriminate | tauto]|].
  rewrite orb_true_iff, IH. destruct (String.eqb_spec x k); intuition congruence.
Qed.

Lemma get_In {A} (d : Dict.t A) k v : Dict.get d k = Some v -> In (k, v) d.
Proof.
  induction d as [|[k0 v0] d IH]; simpl; [discriminate|].
  destruct (String.eqb_spec k0 k) as [->|]; intros H.
  - left. congruence.
  - right. auto.
Qed.

Lemma In_get_nodup {A} (d : Dict.t A) k v :
  str_nodup (map fst d) = true -> In (k, v) d -> Dict.get d k = Some v.
Proof.
  induction d as [|[k0 v0] d IH]; simpl; [tauto|].
  rewrite andb_true_iff, negb_true_iff. intros [Hn Hd] [Heq|Hin].
  - inversion Heq; subst. now rewrite String.eqb_refl.
  - destruct (String.eqb_spec k0 k) as [->|]; [|auto].
    assert (In k (map fst d)) as Hk by (apply (in_map fst _ _ Hin)).
    apply str_mem_In in Hk. congruence.
Qed.

(** ** Equality of values *)

(** On well-formed values [==] is reflexive (there is no NaN among them). *)
Lemma py_eq_refl v : wf_value v = true -> py_eq v v = true.
Proof.
  induction v as [| b | z | s | l IH | d IH] using value_ind; simpl; intros Hwf.
  - reflexivity.
  - apply Bool.eqb_reflx.
  - apply Z.eqb_refl.
  - apply String.eqb_refl.
  - induction IH as [|x l Hx _ IHl]; [reflexivity|].
    simpl in Hwf. apply andb_true_iff in Hwf as [Hw1 Hw2].
    rewrite Hx by assumption. simpl. auto.
  - rewrite Nat.eqb_refl. simpl.
    apply andb_true_iff in Hwf as [Hnd Hwf].
    revert Hwf.
    enough (forall d', incl d' d ->
      Forall (fun kv => wf_value (snd kv) = true -> py_eq (snd kv) (snd kv) = true) d' ->
      (fix go (d0 : list (string * value)) : bool :=
         match d0 with
         | [] => true
         | (_, v) :: d'0 => wf_value v && go d'0
         end) d' = true ->
      (fix go (d0 : list (string * value)) : bool :=
         match d0 with
         | [] => true
         | (k, v) :: d'0 =>
             match Dict.get d k with
             | Some w => py_eq v w
             | None => false
             end && go d'0
         end) d' = true) as H by (apply H; [apply incl_refl | exact IH]).
    induction d' as [|[k v] d' IHd']; intros Hincl Hall Hw; [reflexivity|].
    apply andb_true_iff in Hw as [Hw1 Hw2].
    inversion Hall as [|? ? Hkv Hall']; subst. simpl in Hkv.
    rewrite (In_get_nodup d k v Hnd) by (apply Hincl; now left).
    rewrite Hkv by assumption. simpl.
    apply IHd'; auto. intros x Hx. apply Hincl. now right.
Qed.

(** ** Attributes *)

Lemma getattr_setattr_same self a v : getattr (setattr self a v) a = Ok v.
Proof. unfold getattr, setattr. now rewrite get_set_same. Qed.

Lemma getattr_setattr_other self a k v :
  a <> k -> getattr (setattr self a v) k = getattr self k.
Proof. intros H. unfold getattr, setattr. now rewrite get_set_other. Qed.

Lemma getattr_setattr self a k v :
  getattr (setattr self a v) k = if String.eqb a k then Ok v else getattr self k.
Proof.
  destruct (String.eqb_spec a k) as [->|H].
  - apply getattr_setattr_same.
  - now apply getattr_setattr_other.
Qed.

Lemma fill_if_None_attr self a rhs self' :
  fill_if_None self a rhs = Ok self' ->
  forall k, getattr self' k =
            if String.eqb a k then backfilled self rhs a else getattr self k.
Proof.
  unfold fill_if_None, backfilled. intros H k.
  destruct (getattr self a) as [cur|e] eqn:Ea; simpl in H; [|discriminate].
  destruct (String.eqb_spec a k) as [<-|Hk].
  - destruct cur; simpl in H;
      try (injection H as <-; assumption).
    destruct rhs as [v|]; simpl in H; [|discriminate].
    injection H as <-. apply getattr_setattr_same.
  - destruct cur; simpl in H; try (injection H as <-; reflexivity).
    destruct rhs as [v|]; simpl in H; [|discriminate].
    injection H as <-. now apply getattr_setattr_other.
Qed.

Lemma fill_if_None_keys self a rhs self' :
  fill_if_None self a rhs = Ok self' -> Dict.keys self' = Dict.keys self.
Proof.
  unfold fill_if_None, getattr. intros H.
  destruct (Dict.get self a) as [cur|] eqn:Ea; simpl in H; [|discriminate].
  destruct (is_None cur); [|now injection H as <-].
  destruct rhs as [v|]; simpl in H; [|discriminate].
  injection H as <-. apply keys_set_mem. unfold Dict.mem. now rewrite Ea.
Qed.

(** ** Backfill *)

Lemma rbind_Ok {A B} (r : result A) (f : A -> result B) (b : B) :
  rbind r f = Ok b -> exists a, r = Ok a /\ f a = Ok b.
Proof. destruct r as [a|e]; simpl; [eauto | discriminate]. Qed.

Ltac step_rbind H x E :=
  match type of H with
  | rbind ?r _ = Ok _ =>
      apply rbind_Ok in H as (x & E & H); cbv beta in H
  end.

(** Every attribute after a successful backfill, from the attributes before
    and the [Spec] of the document. *)
Lemma update_from_swarm_info_attr self info self' :
  update_from_swarm_info self info = Ok self' ->
  exists spec log_driver,
    py_getitem (VDict info) "Spec" = Ok spec /\
    observed_log_driver spec = Ok log_driver /\
    forall k,
      getattr self' k =
      match observed_value spec k with
      | Some rhs => backfilled self rhs k
      | None =>
          match log_driver with
          | Some v => if String.eqb "log_driver" k then Ok v else getattr self k
          | None => getattr self k
          end
      end.
Proof.
  unfold update_from_swarm_info. intros H.
  step_rbind H spec Espec. exists spec.
  step_rbind H ca Eca.
  step_rbind H s1 F1. step_rbind H s2 F2.
  step_rbind H dispatcher Edisp.
  step_rbind H s3 F3.
  step_rbind H raft Eraft.
  step_rbind H s4 F4. step_rbind H s5 F5. step_rbind H s6 F6.
  step_rbind H s7 F7. step_rbind H s8 F8.
  step_rbind H orch Eorch.
  step_rbind H s9 F9.
  step_rbind H enc Eenc.
  step_rbind H s10 F10. step_rbind H s11 F11. step_rbind H s12 F12.
  step_rbind H td Etd. step_rbind H has Ehas.
  unfold observed_log_driver. rewrite Etd. simpl rbind. rewrite Ehas.
  simpl rbind.
  assert (exists ld, (if has then let? log_driver := py_getitem td "LogDriver" in
                        Ok (Some log_driver) else Ok None) = Ok ld /\
                     forall k, getattr self' k =
                       match ld with
                       | Some v => if String.eqb "log_driver" k then Ok v
                                   else getattr s12 k
                       | None => getattr s12 k
                       end) as (ld & Hld & Hself').
  { destruct has.
    - step_rbind H v Ev. injection H as <-. rewrite Ev. cbn [rbind].
      eexists; split; [reflexivity|].
      intros k. apply getattr_setattr.
    - injection H as <-. eexists; split; [reflexivity|]. reflexivity. }
  exists ld. split; [exact Espec|]. split; [exact Hld|].
  pose proof (fill_if_None_attr _ _ _ _ F12) as G12.
  pose proof (fill_if_None_attr _ _ _ _ F11) as G11.
  pose proof (fill_if_None_attr _ _ _ _ F10) as G10.
  pose proof (fill_if_None_attr _ _ _ _ F9) as G9.
  pose proof (fill_if_None_attr _ _ _ _ F8) as G8.
  pose proof (fill_if_None_attr _ _ _ _ F7) as G7.
  pose proof (fill_if_None_attr _ _ _ _ F6) as G6.
  pose proof (fill_if_None_attr _ _ _ _ F5) as G5.
  pose proof (fill_if_None_attr _ _ _ _ F4) as G4.
  pose proof (fill_if_None_attr _ _ _ _ F3) as G3.
  pose proof (fill_if_None_attr _ _ _ _ F2) as G2.
  pose proof (fill_if_None_attr _ _ _ _ F1) as G1.
  intros k. rewrite Hself'. unfold observed_value, backfilled in *.
  cbv beta iota delta [Dict.get observed_in_section].
  repeat match goal with
         | |- context [String.eqb ?a k] =>
             destruct (String.eqb_spec a k) as [<-|?]
         end;
    repeat (first [rewrite G12 | rewrite G11 | rewrite G10 | rewrite G9
                  | rewrite G8 | rewrite G7 | rewrite G6 | rewrite G5
                  | rewrite G4 | rewrite G3 | rewrite G2 | rewrite G1];
            repeat match goal with
                   | |- context [String.eqb ?a k] =>
                       rewrite (proj2 (String.eqb_neq a k)) by assumption
                   end;
            cbn [String.eqb Ascii.eqb Bool.eqb andb]);
    rewrite ?Eca, ?Edisp, ?Eraft, ?Eorch, ?Eenc; simpl rbind;
    try reflexivity; destruct ld; reflexivity.
Qed.

(** ** Removing a node *)

(** The log once the manager check and [n] status checks have been sent. *)
Lemma polls_snoc (log : list call) (id : value) (n : nat) :
  (log ++ CheckIfSwarmManager :: repeat (NodeStatus id) n) ++ [NodeStatus id]
  = log ++ CheckIfSwarmManager :: repeat (NodeStatus id) (S n).
Proof.
  rewrite <- app_assoc. f_equal. simpl. f_equal.
  change (NodeStatus id :: repeat (NodeStatus id) n)
    with (repeat (NodeStatus id) (S n)).
  now rewrite <- repeat_cons.
Qed.

Ltac run_manager :=
  cbv beta iota zeta delta
    [bind ret raise lift gets modify try_APIError client_fail request
     answer answer_unit client_check_if_swarm_manager
     client_check_if_swarm_node client_remove_node client_inspect_swarm
     client_get_unlock_key client_init_swarm client_update_swarm
     client_join_swarm client_leave_swarm].

(** C5. When the local node is a manager and none of the five status checks
    reports the target node down, [remove] fails with the message "Can not
    remove the node. The status node is ready and not down."; exactly the
    manager check and five status checks were sent, so no remove-node
    request, and the results and differences are untouched. *)
Theorem remove_fails_when_node_not_down client st :
  api_check_if_swarm_manager (transport client)
    (calls st ++ [CheckIfSwarmManager]) = true ->
  (forall n, 1 <= n <= 5 ->
     api_node_is_down (transport client)
       (calls st ++ CheckIfSwarmManager :: repeat (NodeStatus (node_id st)) n)
     = inr false) ->
  fst (remove client st) =
    Raise (Fail "Can not remove the node. The status node is ready and not down.")
  /\ calls (snd (remove client st)) =
       calls st ++ CheckIfSwarmManager :: repeat (NodeStatus (node_id st)) 5
  /\ (forall id f, ~ In (RemoveNode id f) (calls st) ->
                   ~ In (RemoveNode id f) (calls (snd (remove client st))))
  /\ results (snd (remove client st)) = results st
  /\ differences (snd (remove client st)) = differences st.
Proof.
  intros Hm Hdown.
  assert (remove client st =
          (Raise (Fail "Can not remove the node. The status node is ready and not down."),
           set_calls (calls st ++ CheckIfSwarmManager ::
                        repeat (NodeStatus (node_id st)) 5) st)) as ->.
  { unfold remove, check_if_swarm_node_is_down. run_manager.
    cbn [calls set_calls node_id]. rewrite Hm. cbn [negb calls set_calls node_id].
    change (calls st ++ [CheckIfSwarmManager])
      with (calls st ++ CheckIfSwarmManager :: repeat (NodeStatus (node_id st)) 0).
    do 5 (rewrite polls_snoc; rewrite Hdown by lia; cbn [calls set_calls node_id]).
    reflexivity. }
  cbn [fst snd calls set_calls results differences].
  repeat split.
  intros id f Hin Hin'. apply in_app_or in Hin' as [Hin'|Hin']; [tauto|].
  simpl in Hin'. intuition discriminate.
Qed.

Lemma remove_fails_when_node_not_down_witness :
  let client := example_client [("state", VStr "remove"); ("node_id", VStr "n1")]
                  false manager_transport in
  let st := new_manager client in
  fst (remove client st) =
    Raise (Fail "Can not remove the node. The status node is ready and not down.")
  /\ calls (snd (remove client st)) =
       CheckIfSwarmManager :: repeat (NodeStatus (VStr "n1")) 5.
Proof.
  intros client st.
  destruct (remove_fails_when_node_not_down client st) as (H1 & H2 & _).
  - reflexivity.
  - intros n Hn. reflexivity.
  - split; [exact H1 | exact H2].
Defined.

(** C10. When the local node is a manager and one of the status checks
    raises an [APIError] (the checks before it reporting the node up),
    [remove] returns normally: nothing is sent after the failed check, so no
    remove-node request, and the results (the [changed] flag [main] set to
    false, the actions) and the differences are untouched. *)
Theorem remove_returns_when_status_check_raises client st k msg :
  api_check_if_swarm_manager (transport client)
    (calls st ++ [CheckIfSwarmManager]) = true ->
  1 <= k <= 5 ->
  (forall n, 1 <= n < k ->
     api_node_is_down (transport client)
       (calls st ++ CheckIfSwarmManager :: repeat (NodeStatus (node_id st)) n)
     = inr false) ->
  api_node_is_down (transport client)
    (calls st ++ CheckIfSwarmManager :: repeat (NodeStatus (node_id st)) k)
  = inl msg ->
  fst (remove client st) = Ok tt
  /\ calls (snd (remove client st)) =
       calls st ++ CheckIfSwarmManager :: repeat (NodeStatus (node_id st)) k
  /\ results (snd (remove client st)) = results st
  /\ differences (snd (remove client st)) = differences st.
Proof.
  intros Hm Hk Hup Hraise.
  assert (remove client st =
          (Ok tt,
           set_calls (calls st ++ CheckIfSwarmManager ::
                        repeat (NodeStatus (node_id st)) k) st)) as ->.
  { unfold remove, check_if_swarm_node_is_down. run_manager.
    cbn [calls set_calls node_id]. rewrite Hm. cbn [negb calls set_calls node_id].
    change (calls st ++ [CheckIfSwarmManager])
      with (calls st ++ CheckIfSwarmManager :: repeat (NodeStatus (node_id st)) 0).
    assert (k = 1 \/ k = 2 \/ k = 3 \/ k = 4 \/ k = 5) as Hcases by lia.
    destruct Hcases as [-> | [-> | [-> | [-> | ->]]]];
      repeat (rewrite polls_snoc;
              first [ rewrite Hraise | rewrite Hup by lia ];
              cbn [calls set_calls node_id]);
      reflexivity. }
  cbn [fst snd calls set_calls results differences]. auto.
Qed.

Lemma remove_returns_when_status_check_raises_witness :
  let client := example_client [("state", VStr "remove"); ("node_id", VStr "n1")]
                  false failing_status_transport in
  let st := new_manager client in
  fst (remove client st) = Ok tt
  /\ calls (snd (remove client st)) = [CheckIfSwarmManager; NodeStatus (VStr "n1")]
  /\ changed (results (snd (remove client st))) = false
  /\ actions (results (snd (remove client st))) = [].
Proof.
  intros client st.
  destruct (remove_returns_when_status_check_raises client st
              1 "node not found") as (H1 & H2 & H3 & _).
  - reflexivity.
  - lia.
  - intros n Hn. lia.
  - reflexivity.
  - rewrite H3. split; [exact H1|]. split; [exact H2|]. split; reflexivity.
Defined.

(** ** Missing sections of the inspected specification *)

(** A specification without [TaskDefaults] makes the backfill raise,
    whatever the parameters are. *)
Lemma update_from_swarm_info_needs_task_defaults self info spec :
  Dict.get info "Spec" = Some (VDict spec) ->
  Dict.get spec "TaskDefaults" = None ->
  forall self', update_from_swarm_info self info <> Ok self'.
Proof.
  intros Hspec Htd self' H.
  destruct (update_from_swarm_info_attr _ _ _ H) as (spec' & ld & Hs & Hld & _).
  simpl in Hs. rewrite Hspec in Hs. injection Hs as <-.
  unfold observed_log_driver in Hld. simpl in Hld. now rewrite Htd in Hld.
Qed.

(** C8. The backfill does not treat every missing part of the specification
    as an empty mapping: on a document whose [Spec] has no [TaskDefaults] it
    raises [KeyError], and so it does on one without [Name] when the name was
    not set; without the sections [CAConfig], [Dispatcher], [Raft],
    [Orchestration], [EncryptionConfig] and [Labels] it completes, every
    field of a missing section staying [None] and the labels being empty. *)
Theorem update_from_swarm_info_missing_sections :
  update_from_swarm_info TaskParameters_init
    [("Spec", VDict [("Name", VStr "default")])]
  = Raise (KeyError "TaskDefaults")
  /\ update_from_swarm_info TaskParameters_init
       [("Spec", VDict [("TaskDefaults", VDict [])])]
     = Raise (KeyError "Name")
  /\ update_from_swarm_info TaskParameters_init
       [("Spec", VDict [("Name", VStr "default"); ("TaskDefaults", VDict [])])]
     = Ok (setattr (setattr TaskParameters_init "name" (VStr "default"))
             "labels" (VDict [])).
Proof. repeat split; reflexivity. Qed.

(** ** Inspecting the swarm *)

Ltac simpl_state :=
  cbn [calls swarm_info results state force node_id differences parameters
       created set_calls set_swarm_info set_results set_differences
       set_parameters set_created fst snd negb].

Ltac simpl_state_in H :=
  cbn [calls swarm_info results state force node_id differences parameters
       created set_calls set_swarm_info set_results set_differences
       set_parameters set_created fst snd negb] in H.

Ltac run_manager_in H :=
  cbv beta iota zeta delta
    [bind ret raise lift gets modify try_APIError client_fail request
     answer answer_unit client_check_if_swarm_manager
     client_check_if_swarm_node client_remove_node client_inspect_swarm
     client_get_unlock_key client_init_swarm client_update_swarm
     client_join_swarm client_leave_swarm] in H.

Ltac break_match_hyp H :=
  match type of H with
  | context [match ?x with _ => _ end] =>
      lazymatch x with
      | context [match _ with _ => _ end] => fail
      | _ => destruct x eqn:?
      end
  end.

Ltac break_match_goal :=
  match goal with
  | |- context [match ?x with _ => _ end] =>
      lazymatch x with
      | context [match _ with _ => _ end] => fail
      | _ => destruct x eqn:?
      end
  end.

(** [inspect_swarm] only touches the swarm information, the [changed] flag,
    the facts and the log. *)
Lemma inspect_swarm_frame client st :
  let st' := snd (inspect_swarm client st) in
  differences st' = differences st
  /\ parameters st' = parameters st
  /\ created st' = created st
  /\ state st' = state st /\ force st' = force st /\ node_id st' = node_id st
  /\ actions (results st') = actions (results st)
  /\ diff (results st') = diff (results st).
Proof.
  unfold inspect_swarm, get_unlock_key, has_swarm_lock_changed. run_manager.
  repeat break_match_goal; cbn; repeat split; reflexivity.
Qed.

(** C7. After a successful inspect, the unlock key is requested exactly when
    autolock is desired and the swarm was just created or [autolock_managers]
    is among the differences; [inspect_swarm] never raises then, and when the
    key is not requested, or the request raises an [APIError], the swarm
    information is the inspected document with a null [UnlockKey]. *)
Theorem unlock_key_fetched_iff_lock_changed client st data autolock :
  api_inspect_swarm (transport client) (calls st ++ [InspectSwarm]) = inr data ->
  getattr (parameters st) "autolock_managers" = Ok autolock ->
  let fetch := py_truthy autolock &&
               (created st ||
                has_difference_for (differences st) "autolock_managers") in
  let st' := snd (inspect_swarm client st) in
  fst (inspect_swarm client st) = Ok tt
  /\ calls st' =
       (calls st ++ [InspectSwarm]) ++ (if fetch then [GetUnlockKey] else [])
  /\ (fetch = false -> swarm_info st' = Dict.set data "UnlockKey" VNone)
  /\ (fetch = true ->
      forall msg,
        api_get_unlock_key (transport client)
          ((calls st ++ [InspectSwarm]) ++ [GetUnlockKey]) = inl msg ->
        swarm_info st' = Dict.set data "UnlockKey" VNone
        /\ Dict.get (swarm_info st') "UnlockKey" = Some VNone).
Proof.
  intros Hdata Hauto fetch st'. subst st'.
  unfold inspect_swarm, get_unlock_key, has_swarm_lock_changed. run_manager.
  rewrite Hdata. simpl_state. rewrite Hauto. fold fetch.
  destruct fetch; simpl_state.
  - destruct (api_get_unlock_key (transport client)
                ((calls st ++ [InspectSwarm]) ++ [GetUnlockKey]))
      as [msg|[[|kv d]|]] eqn:Hkey; simpl_state;
      (split; [reflexivity|]; split; [reflexivity|]);
      (split; [discriminate|]); intros _ msg' Hmsg; try discriminate.
    split; [reflexivity|]. apply get_set_same.
  - split; [reflexivity|]. split; [now rewrite app_nil_r|].
    split; [reflexivity|]. discriminate.
Qed.

Lemma unlock_key_fetched_iff_lock_changed_witness :
  let client := example_client [("autolock_managers", VBool true)] false
                  failing_status_transport in
  let st := set_created true (new_manager client) in
  fst (inspect_swarm client st) = Ok tt
  /\ calls (snd (inspect_swarm client st)) = [InspectSwarm; GetUnlockKey]
  /\ Dict.get (swarm_info (snd (inspect_swarm client st))) "UnlockKey"
     = Some VNone.
Proof.
  intros client st.
  destruct (unlock_key_fetched_iff_lock_changed client st
              example_swarm (VBool true))
    as (H1 & H2 & _ & H4).
  - reflexivity.
  - reflexivity.
  - split; [exact H1|]. split; [exact H2|].
    apply (H4 eq_refl "swarm is not locked"). reflexivity.
Defined.

(** ** Creating a swarm *)

(** C6. Whenever [init_swarm] takes the creation path (forced, or the node
    is not a manager) and completes, the result has [changed] set, exactly
    one action, "New Swarm cluster created: <id>", was appended, exactly one
    difference, [state] with desired "present" and observed "absent", was
    recorded, and the facts are a dictionary of its own with the two entries
    [JoinTokens] and [UnlockKey] of the swarm information. *)
Theorem init_swarm_creates py_repr client st st' :
  py_truthy (force st) = true \/
  api_check_if_swarm_manager (transport client)
    (calls st ++ [CheckIfSwarmManager]) = false ->
  init_swarm py_repr client st = (Ok tt, st') ->
  changed (results st') = true
  /\ actions (results st') =
       actions (results st) ++
       [("New Swarm cluster created: " ++
         py_format py_repr (dict_get_or_None (swarm_info st') "ID"))%string]
  /\ differences st' =
       differences st ++
       [{| name := "state"; parameter := VStr "present";
           active := VStr "absent" |}]
  /\ read_swarm_facts st' =
       Some [("JoinTokens", dict_get_or_None (swarm_info st') "JoinTokens");
             ("UnlockKey", dict_get_or_None (swarm_info st') "UnlockKey")]
  /\ created st' = true.
Proof.
  intros Hpath H.
  unfold init_swarm in H. run_manager_in H. simpl_state_in H.
  assert ((if negb (py_truthy (force st))
           then api_check_if_swarm_manager (transport client)
                  (calls st ++ [CheckIfSwarmManager])
           else false) = false) as Hnot.
  { destruct Hpath as [-> | ->]; [reflexivity | now destruct (negb _)]. }
  destruct (negb (py_truthy (force st))) eqn:Hf; simpl_state_in H;
    rewrite ?Hnot in H.
  all: repeat (break_match_hyp H; simpl_state_in H; try discriminate H).
  all: injection H as <-.
  all: match goal with
       | Hi : inspect_swarm ?c ?s = (_, ?s1) |- _ =>
           pose proof (inspect_swarm_frame c s) as Hfr;
           rewrite Hi in Hfr; simpl_state_in Hfr;
           destruct Hfr as (Hd & _ & Hc & _ & _ & _ & Ha & _)
       end.
  all: unfold read_swarm_facts, DifferenceTracker_add; simpl;
       rewrite ?Hd, ?Ha, ?Hc; repeat split; reflexivity.
Qed.

Lemma init_swarm_creates_witness :
  let client := example_client [] false fresh_node_transport in
  let st' := snd (init_swarm example_repr client (new_manager client)) in
  changed (results st') = true
  /\ actions (results st') = ["New Swarm cluster created: 7fbcrstl2zqq"]
  /\ differences st' =
       [{| name := "state"; parameter := VStr "present";
           active := VStr "absent" |}]
  /\ read_swarm_facts st' =
       Some [("JoinTokens",
              VDict [("Worker", VStr "SWMTKN-1-worker");
                     ("Manager", VStr "SWMTKN-1-manager")]);
             ("UnlockKey", VNone)]
  /\ created st' = true.
Proof.
  intros client st'.
  assert (py_truthy (force (new_manager client)) = true \/
          api_check_if_swarm_manager (transport client)
            (calls (new_manager client) ++ [CheckIfSwarmManager]) = false)
    as Hpath by (right; vm_compute; reflexivity).
  assert (init_swarm example_repr client (new_manager client) = (Ok tt, st'))
    as Hrun by (vm_compute; reflexivity).
  pose proof (init_swarm_creates _ _ _ _ Hpath Hrun) as H.
  vm_compute in H. vm_compute. exact H.
Defined.

(** ** Building the parameters *)

Lemma getattr_keys (self : TaskParameters) k :
  In k (Dict.keys self) -> exists v, getattr self k = Ok v.
Proof.
  unfold getattr, Dict.keys.
  induction self as [|[k0 v0] d IH]; simpl; [tauto|].
  intros [->|Hin].
  - rewrite String.eqb_refl. eauto.
  - destruct (String.eqb k0 k); eauto.
Qed.

Lemma getattr_In_keys (self : TaskParameters) k v :
  getattr self k = Ok v -> In k (Dict.keys self).
Proof.
  unfold getattr. destruct (Dict.get self k) eqn:E; [|discriminate].
  intros _. apply get_In in E. apply (in_map fst _ _ E).
Qed.

Lemma copy_params_keys params r :
  Dict.keys (copy_params params r) = Dict.keys r.
Proof.
  unfold copy_params. revert r.
  induction params as [|[k v] ps IH]; intros r; simpl; [reflexivity|].
  rewrite IH. destruct (Dict.mem r k) eqn:E; [|reflexivity].
  now apply keys_set_mem.
Qed.

(** A copied attribute holds a module parameter or its initial value. *)
Lemma copy_params_attr params r k v :
  getattr (copy_params params r) k = Ok v ->
  In (k, v) params \/ getattr r k = Ok v.
Proof.
  unfold copy_params. revert r.
  induction params as [|[k0 v0] ps IH]; intros r; simpl; [auto|].
  intros H. apply IH in H as [H|H]; [auto|].
  destruct (Dict.mem r k0); [|auto].
  rewrite getattr_setattr in H.
  destruct (String.eqb_spec k0 k) as [->|]; [|auto].
  injection H as ->. auto.
Qed.

(** The keyword arguments [update_parameters] collects: each is a supported
    source attribute that is not [None]. *)
Lemma collect_params_spec self client items params out :
  collect_params self client items params = Ok out ->
  forall k v, Dict.get out k = Some v ->
    Dict.get params k = Some v \/
    exists source, In (k, source) items /\ supported client source = true /\
                   getattr self source = Ok v /\ is_None v = false.
Proof.
  revert params.
  induction items as [|[dest source] rest IH]; intros params H k v Hk; simpl in H.
  - injection H as <-. auto.
  - destruct (supported client source) eqn:Hs; simpl in H.
    + destruct (getattr self source) as [x|] eqn:Hx; simpl in H; [|discriminate].
      destruct (is_None x) eqn:Hn; simpl in H.
      * destruct (IH _ H k v Hk) as [?|(s & ? & ?)]; [auto|].
        right. exists s. simpl. auto.
      * destruct (IH _ H k v Hk) as [Hp|(s & ? & ?)].
        -- destruct (String.eqb_spec dest k) as [->|Hne].
           ++ rewrite get_set_same in Hp. injection Hp as ->.
              right. exists source. simpl. auto.
           ++ rewrite get_set_other in Hp by assumption. auto.
        -- right. exists s. simpl. auto.
    + destruct (IH _ H k v Hk) as [?|(s & ? & ?)]; [auto|].
      right. exists s. simpl. auto.
Qed.

Lemma assign_same k source : In (k, source) assign -> source = k.
Proof.
  unfold assign. simpl.
  intros H. repeat (destruct H as [H|H]; [now inversion H|]). contradiction.
Qed.

Lemma keys_set_fresh {A} (d : Dict.t A) k v :
  Dict.mem d k = false -> Dict.keys (Dict.set d k v) = Dict.keys d ++ [k].
Proof.
  unfold Dict.mem, Dict.keys.
  induction d as [|[k0 v0] d IH]; simpl; [reflexivity|].
  destruct (String.eqb k0 k); simpl; [discriminate|].
  intros H. now rewrite IH.
Qed.

(** What [from_ansible_params] builds: the initial attributes, those the
    module parameters name overwritten, and the specification assembled from
    the supported, explicitly given parameters. *)
Lemma from_ansible_params_spec client P :
  from_ansible_params client = Ok P ->
  Dict.keys P = Dict.keys TaskParameters_init ++ ["spec"]
  /\ (forall k, k <> "spec" ->
        getattr P k = getattr (copy_params (module_params client)
                                 TaskParameters_init) k)
  /\ exists params,
       getattr P "spec" = Ok (create_swarm_spec params)
       /\ forall k v, Dict.get params k = Some v ->
            supported client k = true /\ is_None v = false /\
            In (k, v) (module_params client).
Proof.
  unfold from_ansible_params, update_parameters. intros H.
  destruct (collect_params _ client assign []) as [params|] eqn:Hc;
    simpl in H; [|discriminate].
  injection H as <-. split; [|split].
  - unfold setattr. rewrite keys_set_fresh.
    + now rewrite copy_params_keys.
    + rewrite mem_keys, copy_params_keys. reflexivity.
  - intros k Hk. apply getattr_setattr_other. congruence.
  - exists params. split; [apply getattr_setattr_same|].
    intros k v Hk.
    destruct (collect_params_spec _ _ _ _ _ Hc _ _ Hk) as [Hn|(s & Hin & Hs & Hv & Hnone)];
      [discriminate|].
    pose proof (assign_same _ _ Hin) as ->.
    split; [assumption|]. split; [assumption|].
    apply copy_params_attr in Hv as [Hv|Hv]; [assumption|].
    exfalso. unfold assign in Hin. simpl in Hin.
    repeat (destruct Hin as [Hin|Hin];
            [injection Hin as <-; cbv in Hv; injection Hv as <-;
             discriminate Hnone|]).
    contradiction.
Qed.

(** ** Comparison *)

(** What the loop of [compare_to_active] appends: one entry per compared,
    supported attribute that is set and differs from the other side. *)
Lemma compare_attributes_spec ks self other client d d' :
  compare_attributes ks self other client d = Ok d' ->
  exists added,
    d' = d ++ added /\
    forall x, In x added ->
      In (name x) ks /\ str_mem (name x) not_compared = false /\
      supported client (name x) = true /\
      getattr self (name x) = Ok (parameter x) /\
      is_None (parameter x) = false /\
      getattr other (name x) = Ok (active x) /\
      py_eq (parameter x) (active x) = false.
Proof.
  revert d.
  induction ks as [|k ks IH]; intros d H; cbn [compare_attributes] in H.
  - injection H as <-. exists []. split; [now rewrite app_nil_r | contradiction].
  - assert (forall d0, compare_attributes ks self other client d0 = Ok d' ->
              exists added, d' = d0 ++ added /\
                forall x, In x added ->
                  In (name x) (k :: ks) /\ str_mem (name x) not_compared = false /\
                  supported client (name x) = true /\
                  getattr self (name x) = Ok (parameter x) /\
                  is_None (parameter x) = false /\
                  getattr other (name x) = Ok (active x) /\
                  py_eq (parameter x) (active x) = false) as IH'.
    { intros d0 H0. destruct (IH _ H0) as (added & -> & Hadd).
      exists added. split; [reflexivity|].
      intros x Hx. destruct (Hadd x Hx) as (? & ?). split; [now right | assumption]. }
    destruct (str_mem k not_compared) eqn:Hskip; [auto|].
    destruct (supported client k) eqn:Hsup; cbn [negb rbind] in H; [|auto].
    destruct (getattr self k) as [v|] eqn:Hv; cbn [negb rbind] in H; [|discriminate H].
    destruct (is_None v) eqn:Hn; [auto|].
    destruct (getattr other k) as [w|] eqn:Hw; cbn [negb rbind] in H; [|discriminate H].
    destruct (py_eq v w) eqn:Heq; cbn [negb rbind] in H; [auto|].
    destruct (IH _ H) as (added & -> & Hadd).
    exists ({| name := k; parameter := v; active := w |} :: added).
    split; [unfold DifferenceTracker_add; now rewrite <- app_assoc|].
    intros x [<-|Hx]; simpl.
    + repeat split; auto.
    + destruct (Hadd x Hx) as (? & ?). split; [now right | assumption].
Qed.

(** The loop completes when every attribute it reads exists. *)
Lemma compare_attributes_total ks self other client d :
  (forall k, In k ks -> exists v, getattr self k = Ok v) ->
  (forall k, In k ks -> str_mem k not_compared = false ->
             exists w, getattr other k = Ok w) ->
  exists d', compare_attributes ks self other client d = Ok d'.
Proof.
  revert d.
  induction ks as [|k ks IH]; intros d Hself Hother; cbn [compare_attributes]; [eauto|].
  assert (forall d0, exists d', compare_attributes ks self other client d0 = Ok d')
    as IH'
      by (intros d0; apply IH;
          [ intros k0 Hk0; apply Hself; now right
          | intros k0 Hk0 Hs; apply Hother; [now right | assumption] ]).
  destruct (str_mem k not_compared) eqn:Hskip; [auto|].
  destruct (supported client k); cbn [negb]; [|auto].
  destruct (Hself k) as (v & ->); [now left|]. cbn [rbind].
  destruct (is_None v); [auto|].
  destruct (Hother k) as (w & ->); [now left | assumption|]. cbn [rbind].
  destruct (py_eq v w); cbn [negb]; auto.
Qed.

Lemma compare_to_active_spec self other client d d' :
  compare_to_active self other client d = Ok d' ->
  exists added rw rm,
    getattr self "rotate_worker_token" = Ok rw /\
    getattr self "rotate_manager_token" = Ok rm /\
    d' = d ++ added ++ rotate_entry "rotate_worker_token" rw
           ++ rotate_entry "rotate_manager_token" rm /\
    forall x, In x added ->
      In (name x) (Dict.keys self) /\ str_mem (name x) not_compared = false /\
      supported client (name x) = true /\
      getattr self (name x) = Ok (parameter x) /\
      is_None (parameter x) = false /\
      getattr other (name x) = Ok (active x) /\
      py_eq (parameter x) (active x) = false.
Proof.
  unfold compare_to_active. intros H.
  destruct (compare_attributes _ self other client d) as [d1|] eqn:Hc;
    simpl in H; [|discriminate H].
  destruct (getattr self "rotate_worker_token") as [rw|]; simpl in H;
    [|discriminate H].
  destruct (getattr self "rotate_manager_token") as [rm|]; simpl in H;
    [|discriminate H].
  destruct (compare_attributes_spec _ _ _ _ _ _ Hc) as (added & -> & Hadd).
  exists added, rw, rm. repeat split; try assumption; try apply Hadd; try assumption.
  injection H as <-. unfold rotate_entry, DifferenceTracker_add.
  destruct (py_truthy rw), (py_truthy rm);
    rewrite <- ?app_assoc; simpl; rewrite ?app_nil_r; reflexivity.
Qed.

(** ** Capability gating *)

Lemma has_difference_for_app d d' k :
  has_difference_for (d ++ d') k =
  has_difference_for d k || has_difference_for d' k.
Proof. apply existsb_app. Qed.

Lemma submitted_specs_app l l' :
  submitted_specs (l ++ l') = submitted_specs l ++ submitted_specs l'.
Proof. apply flat_map_app. Qed.

Lemma gated_log_app client k d log p l :
  submitted_specs l = [] ->
  gated client k d log p -> gated client k d (log ++ l) p.
Proof.
  intros Hl [Hd Hs]. split; [assumption|].
  intros Hk. destruct (Hs Hk) as [Hlog Hp]. split; [|assumption].
  intros s. rewrite submitted_specs_app, Hl, app_nil_r. apply Hlog.
Qed.

Lemma gated_log_submit client k d log p c :
  (supported client k = false ->
   forall s, In s (submitted_specs [c]) -> spec_without k s) ->
  gated client k d log p -> gated client k d (log ++ [c]) p.
Proof.
  intros Hc [Hd Hs]. split; [assumption|].
  intros Hk. destruct (Hs Hk) as [Hlog Hp]. split; [|assumption].
  intros s. rewrite submitted_specs_app. intros Hin.
  apply in_app_or in Hin as [Hin|Hin]; auto.
Qed.

Lemma gated_add client k d log p n v w :
  ((In k connection_only \/ supported client k = false) -> n <> k) ->
  gated client k d log p ->
  gated client k (DifferenceTracker_add d n v w) log p.
Proof.
  intros Hn [Hd Hs]. split; [|assumption].
  intros Hk. unfold DifferenceTracker_add.
  rewrite has_difference_for_app, (Hd Hk). simpl.
  rewrite orb_false_r. apply String.eqb_neq. auto.
Qed.

Lemma gated_parameters client k d log p p' :
  getattr p' "spec" = getattr p "spec" ->
  gated client k d log p -> gated client k d log p'.
Proof.
  intros Hp [Hd Hs]. split; [assumption|].
  intros Hk. destruct (Hs Hk) as [Hlog Hspec]. split; [assumption|].
  intros s. rewrite Hp. apply Hspec.
Qed.

(** A field the capability table does not list is always supported. *)
Lemma unlisted_supported client n :
  Dict.get option_minimal_versions n = None -> supported client n = true.
Proof. unfold supported. now intros ->. Qed.

(** The names of the synthetic differences are neither connection-only nor
    gated. *)
Lemma synthetic_name_not_excluded client k n :
  In n ["state"; "joined"; "rotate_worker_token"; "rotate_manager_token"] ->
  (In k connection_only \/ supported client k = false) -> n <> k.
Proof.
  intros Hn Hk <-.
  destruct Hk as [Hk|Hk].
  - simpl in Hn, Hk.
    repeat (destruct Hn as [Hn|Hn];
            [subst n; repeat (destruct Hk as [Hk|Hk]; [discriminate Hk|]);
             contradiction|]).
    contradiction.
  - simpl in Hn.
    repeat (destruct Hn as [Hn|Hn];
            [subst n; rewrite unlisted_supported in Hk by reflexivity;
             discriminate Hk|]).
    contradiction.
Qed.

Lemma inspect_swarm_calls client st :
  exists l, calls (snd (inspect_swarm client st)) = calls st ++ l
            /\ submitted_specs l = [].
Proof.
  unfold inspect_swarm, get_unlock_key, has_swarm_lock_changed. run_manager.
  repeat break_match_goal; simpl_state;
    first [ exists [InspectSwarm]; split; reflexivity
          | exists [InspectSwarm; GetUnlockKey];
            rewrite <- app_assoc; split; reflexivity ].
Qed.

Lemma inspect_swarm_gated client k st :
  gated_manager client k st ->
  gated_manager client k (snd (inspect_swarm client st)).
Proof.
  unfold gated_manager. intros H.
  destruct (inspect_swarm_frame client st) as (-> & -> & _).
  destruct (inspect_swarm_calls client st) as (l & -> & Hl).
  now apply gated_log_app.
Qed.

Lemma update_parameters_gated self client self' k :
  update_parameters self client = Ok self' ->
  supported client k = false ->
  forall s, getattr self' "spec" = Ok s -> spec_without k s.
Proof.
  unfold update_parameters. intros H Hk s Hs.
  destruct (collect_params self client assign []) as [params|] eqn:Hc;
    simpl in H; [|discriminate H].
  injection H as <-. rewrite getattr_setattr_same in Hs. injection Hs as <-.
  exists params. split; [reflexivity|].
  unfold Dict.mem. destruct (Dict.get params k) as [v|] eqn:Hv; [|reflexivity].
  destruct (collect_params_spec _ _ _ _ _ Hc _ _ Hv)
    as [Hn|(src & Hin & Hsup & _)]; [discriminate Hn|].
  apply assign_same in Hin as ->. congruence.
Qed.

Lemma update_from_swarm_info_keeps_spec self info self' :
  update_from_swarm_info self info = Ok self' ->
  getattr self' "spec" = getattr self "spec".
Proof.
  intros H.
  destruct (update_from_swarm_info_attr _ _ _ H) as (spec & ld & _ & _ & Hk).
  rewrite Hk. destruct ld; reflexivity.
Qed.

Lemma not_compared_connection_only k :
  In k connection_only -> str_mem k not_compared = true.
Proof.
  simpl. intros H.
  repeat (destruct H as [H|H]; [subst k; reflexivity|]). contradiction.
Qed.

Lemma compare_to_active_gated self other client k d d' log p :
  compare_to_active self other client d = Ok d' ->
  gated client k d log p -> gated client k d' log p.
Proof.
  intros H [Hd Hs]. split; [|assumption].
  intros Hk.
  destruct (compare_to_active_spec _ _ _ _ _ H)
    as (added & rw & rm & _ & _ & -> & Hadd).
  rewrite !has_difference_for_app, (Hd Hk). simpl.
  apply orb_false_iff. split; [|apply orb_false_iff; split].
  - unfold has_difference_for.
    destruct (existsb _ added) eqn:E; [|reflexivity].
    apply existsb_exists in E as (x & Hx & Hn).
    apply String.eqb_eq in Hn. subst k.
    destruct (Hadd x Hx) as (_ & Hcmp & Hsup & _).
    destruct Hk as [Hk|Hk].
    + apply not_compared_connection_only in Hk. congruence.
    + congruence.
  - unfold rotate_entry. destruct (py_truthy rw); [|reflexivity]. simpl.
    rewrite orb_false_r. apply String.eqb_neq.
    apply (synthetic_name_not_excluded client); simpl; auto.
  - unfold rotate_entry. destruct (py_truthy rm); [|reflexivity]. simpl.
    rewrite orb_false_r. apply String.eqb_neq.
    apply (synthetic_name_not_excluded client); simpl; auto.
Qed.

Ltac gated_step :=
  match goal with
  | |- gated _ _ _ (_ ++ [UpdateSwarm _ _ _ _]) _ => fail 1
  | |- gated _ _ _ (_ ++ [InitSwarm _]) _ => fail 1
  | |- gated _ _ _ (_ ++ _) _ => apply gated_log_app; [reflexivity|]
  | |- gated _ _ (DifferenceTracker_add _ _ _ _) _ _ =>
      apply gated_add;
      [apply synthetic_name_not_excluded; simpl; tauto|]
  end.

Lemma __update_swarm_gated client k st :
  gated_manager client k st ->
  gated_manager client k (snd (__update_swarm client st)).
Proof.
  unfold gated_manager. intros H.
  unfold __update_swarm, update_swarm_try. run_manager.
  pose proof (inspect_swarm_gated client k st H) as H1.
  unfold gated_manager in H1.
  destruct (inspect_swarm client st) as [r1 s1] eqn:Hi1. simpl_state_in H1.
  assert (forall s2, gated_manager client k s2 ->
            gated_manager client k (snd (inspect_swarm client s2))) as Hinsp
    by (intros; now apply inspect_swarm_gated).
  unfold gated_manager in Hinsp.
  repeat (break_match_goal; simpl_state; repeat gated_step; try assumption).
  all: try match goal with
       | Hi : inspect_swarm _ ?X = (_, ?s)
         |- gated _ _ (differences ?s) (calls ?s) (parameters ?s) =>
           let Hx := fresh in
           pose proof (Hinsp X) as Hx; rewrite Hi in Hx; simpl_state_in Hx;
           apply Hx; clear Hx
       end.
  all: try (apply gated_log_submit;
            [ intros Hk sp Hin; simpl in Hin; destruct Hin as [<-|[]];
              eapply update_parameters_gated; eassumption | ]).
  all: first
         [ exact H1
         | eapply gated_parameters;
           [ eapply update_from_swarm_info_keeps_spec; eassumption | ];
           first [ exact H1 | eapply compare_to_active_gated; eassumption ] ].
Qed.

Lemma add_if_not_None_get p k args args' k' :
  add_if_not_None p k args = Ok args' -> k <> k' ->
  Dict.get args' k' = Dict.get args k'.
Proof.
  unfold add_if_not_None. intros H Hk.
  destruct (getattr p k) as [v|]; simpl in H; [|discriminate H].
  injection H as <-. destruct (negb (is_None v)); [|reflexivity].
  now apply get_set_other.
Qed.

Ltac gated_through Hm :=
  match goal with
  | Hi : ?m ?X = (_, ?s)
    |- gated _ _ (differences ?s) (calls ?s) (parameters ?s) =>
      let Hx := fresh in
      pose proof (Hm X) as Hx; rewrite Hi in Hx; simpl_state_in Hx;
      apply Hx; clear Hx
  end.

Lemma init_swarm_gated py_repr client k st :
  gated_manager client k st ->
  gated_manager client k (snd (init_swarm py_repr client st)).
Proof.
  intros H.
  assert (forall s2, gated_manager client k s2 ->
            gated_manager client k (snd (inspect_swarm client s2))) as Hinsp
    by (intros; now apply inspect_swarm_gated).
  assert (forall s2, gated_manager client k s2 ->
            gated_manager client k (snd (__update_swarm client s2))) as Hupd
    by (intros; now apply __update_swarm_gated).
  unfold gated_manager in *.
  unfold init_swarm. run_manager.
  repeat (break_match_goal; simpl_state; repeat gated_step; try assumption).
  all: try gated_through Hinsp.
  all: try apply Hupd.
  all: simpl_state; repeat gated_step; try assumption.
  all: apply gated_log_submit; [|repeat gated_step; assumption].
  all: intros Hk sp Hin; simpl in Hin.
  all: repeat match goal with
         | Ha : add_if_not_None _ _ _ = Ok ?args
           |- context [Dict.get ?args "swarm_spec"] =>
             rewrite (add_if_not_None_get _ _ _ _ "swarm_spec" Ha)
               by discriminate
         | Ha : add_if_not_None _ _ _ = Ok ?args,
           Hin : context [Dict.get ?args "swarm_spec"] |- _ =>
             rewrite (add_if_not_None_get _ _ _ _ "swarm_spec" Ha) in Hin
               by discriminate
         end.
  all: simpl in Hin; destruct Hin as [<-|[]].
  all: destruct H as [_ Hs]; destruct (Hs Hk) as [_ Hp]; now apply Hp.
Qed.

Lemma join_gated client k st :
  gated_manager client k st -> gated_manager client k (snd (join client st)).
Proof.
  unfold gated_manager. intros H. unfold join. run_manager.
  repeat (break_match_goal; simpl_state; repeat gated_step; try assumption).
Qed.

Lemma leave_gated client k st :
  gated_manager client k st -> gated_manager client k (snd (leave client st)).
Proof.
  unfold gated_manager. intros H. unfold leave. run_manager.
  repeat (break_match_goal; simpl_state; repeat gated_step; try assumption).
Qed.

Lemma check_if_swarm_node_is_down_frame client id n st :
  let st' := snd (check_if_swarm_node_is_down client id n st) in
  differences st' = differences st /\ parameters st' = parameters st
  /\ results st' = results st
  /\ exists l, calls st' = calls st ++ l /\ submitted_specs l = [].
Proof.
  revert st. induction n as [|n IH]; intros st; simpl.
  - repeat split. exists []. now rewrite app_nil_r.
  - run_manager.
    destruct (api_node_is_down _ _) as [msg|[|]]; simpl_state.
    + repeat split. exists [NodeStatus id]. split; reflexivity.
    + repeat split. exists [NodeStatus id]. split; reflexivity.
    + specialize (IH (set_calls (calls st ++ [NodeStatus id]) st)).
      simpl_state_in IH. destruct IH as (-> & -> & -> & l & -> & Hl).
      repeat split. exists (NodeStatus id :: l).
      rewrite <- app_assoc. split; [reflexivity | exact Hl].
Qed.

Lemma remove_gated client k st :
  gated_manager client k st -> gated_manager client k (snd (remove client st)).
Proof.
  intros H.
  assert (forall id n s2, gated_manager client k s2 ->
            gated_manager client k
              (snd (check_if_swarm_node_is_down client id n s2))) as Hpoll.
  { intros id n s2 H2. unfold gated_manager in *.
    destruct (check_if_swarm_node_is_down_frame client id n s2)
      as (-> & -> & _ & l & -> & Hl).
    now apply gated_log_app. }
  unfold gated_manager in *.
  unfold remove. run_manager.
  repeat (break_match_goal; simpl_state; repeat gated_step; try assumption).
  all: match goal with
       | Hi : check_if_swarm_node_is_down _ ?id ?n ?X = (_, ?s) |- _ =>
           let Hx := fresh in
           pose proof (Hpoll id n X) as Hx; rewrite Hi in Hx;
           simpl_state_in Hx; apply Hx; clear Hx
       end.
  all: repeat gated_step; assumption.
Qed.

Lemma __call___gated py_repr client k st :
  gated_manager client k st ->
  gated_manager client k (snd (__call__ py_repr client st)).
Proof.
  intros H.
  pose proof (init_swarm_gated py_repr client k st H) as H1.
  pose proof (join_gated client k st H) as H2.
  pose proof (leave_gated client k st H) as H3.
  pose proof (remove_gated client k st H) as H4.
  unfold gated_manager in *.
  unfold __call__. run_manager. simpl_state.
  repeat (break_match_goal; simpl_state; try assumption).
  all: match goal with
       | Hi : ?m = (_, ?s) |- gated _ _ (differences ?s) _ _ =>
           first [ rewrite Hi in H1; exact H1 | rewrite Hi in H2; exact H2
                 | rewrite Hi in H3; exact H3 | rewrite Hi in H4; exact H4 ]
       end.
Qed.

Lemma SwarmManager_init_gated client res self k :
  SwarmManager_init client res = Ok self -> gated_manager client k self.
Proof.
  unfold SwarmManager_init. intros H.
  repeat step_rbind H ipattern:(?) ipattern:(?).
  injection H as <-. unfold gated_manager. simpl_state.
  split; [reflexivity|]. intros Hk. split; [contradiction|].
  match goal with
  | Hf : from_ansible_params _ = Ok _ |- _ =>
      destruct (from_ansible_params_spec _ _ Hf)
        as (_ & _ & params & Hspec & Hparams)
  end.
  intros s Hs. rewrite Hspec in Hs. injection Hs as <-.
  exists params. split; [reflexivity|].
  unfold Dict.mem. destruct (Dict.get params k) as [v|] eqn:Hv; [|reflexivity].
  destruct (Hparams _ _ Hv) as (Hsup & _). congruence.
Qed.

(** C4. In every invocation, the final differences have no entry named
    after a connection-only field or after a field the capability gate marks
    unsupported, and no specification submitted with an update or an
    initialisation was assembled with an unsupported field, whatever the
    module parameters are. *)
Theorem excluded_fields_never_reported_nor_submitted py_repr client r st' k :
  run py_repr client = (r, Some st') ->
  ((In k connection_only \/ supported client k = false) ->
   has_difference_for (differences st') k = false)
  /\ (supported client k = false ->
      forall s, In s (submitted_specs (calls st')) -> spec_without k s).
Proof.
  unfold run. intros H.
  destruct (SwarmManager_init client _) as [self|] eqn:Hinit; [|discriminate H].
  pose proof (__call___gated py_repr client k self
                (SwarmManager_init_gated _ _ _ k Hinit)) as Hg.
  destruct (__call__ py_repr client self) as [r0 s0].
  injection H as <- <-. simpl_state_in Hg.
  destruct Hg as [Hd Hs]. split; [exact Hd|].
  intros Hk. now destruct (Hs Hk).
Qed.

Lemma excluded_fields_never_reported_nor_submitted_witness :
  let client := legacy_client [("labels", VDict [("tier", VStr "db")]);
                               ("election_tick", VInt 5)] manager_transport in
  let st' := final_manager example_repr client in
  supported client "labels" = false
  /\ has_difference_for (differences st') "labels" = false
  /\ (forall s, In s (submitted_specs (calls st')) -> spec_without "labels" s)
  /\ submitted_specs (calls st') = [VDict [("election_tick", VInt 5)]].
Proof.
  intros client st'.
  assert (run example_repr client = (Ok tt, Some st')) as Hrun
    by (vm_compute; reflexivity).
  assert (supported client "labels" = false) as Hk by (vm_compute; reflexivity).
  destruct (excluded_fields_never_reported_nor_submitted
              example_repr client (Ok tt) st' "labels" Hrun) as [Hd Hs].
  split; [exact Hk|]. split; [apply Hd; now right|].
  split; [exact (Hs Hk) | vm_compute; reflexivity].
Defined.

(** * Further properties of the code *)

(** ** Joining a swarm *)

(** X1. On a node that already belongs to a swarm, [join] sends nothing but
    the membership check, appends the message "This node is already part of
    a swarm." and leaves the [changed] flag and the differences as they
    were. *)
Theorem join_is_noop_for_a_member client st :
  api_check_if_swarm_node (transport client) (calls st ++ [CheckIfSwarmNode])
  = true ->
  fst (join client st) = Ok tt
  /\ calls (snd (join client st)) = calls st ++ [CheckIfSwarmNode]
  /\ actions (results (snd (join client st))) =
       actions (results st) ++ ["This node is already part of a swarm."]
  /\ changed (results (snd (join client st))) = changed (results st)
  /\ differences (snd (join client st)) = differences st.
Proof.
  intros Hnode. unfold join. run_manager. simpl_state. rewrite Hnode.
  simpl_state. repeat split.
Qed.

Lemma join_is_noop_for_a_member_witness :
  let client := example_client [("state", VStr "join")] false manager_transport in
  let st := new_manager client in
  fst (join client st) = Ok tt
  /\ calls (snd (join client st)) = [CheckIfSwarmNode]
  /\ actions (results (snd (join client st))) =
       ["This node is already part of a swarm."]
  /\ changed (results (snd (join client st))) = false.
Proof.
  intros client st.
  destruct (join_is_noop_for_a_member client st) as (H1 & H2 & H3 & H4 & _).
  - reflexivity.
  - split; [exact H1|]. split; [exact H2|]. split; [exact H3|].
    rewrite H4. reflexivity.
Defined.

(** X2. On a node outside any swarm, [join] reports the change (the action
    "New node is added to swarm cluster", the difference [joined] from false
    to true, [changed] set) and, unless in check mode, sends exactly one
    join request carrying the remote addresses, the join token, the listen
    and advertise addresses, and the data-path address only when it is
    set. *)
Theorem join_adds_the_node client st remote token listen advertise data_path :
  api_check_if_swarm_node (transport client) (calls st ++ [CheckIfSwarmNode])
  = false ->
  getattr (parameters st) "remote_addrs" = Ok remote ->
  getattr (parameters st) "join_token" = Ok token ->
  getattr (parameters st) "listen_addr" = Ok listen ->
  getattr (parameters st) "advertise_addr" = Ok advertise ->
  getattr (parameters st) "data_path_addr" = Ok data_path ->
  let join_arguments :=
    [("remote_addrs", remote); ("join_token", token);
     ("listen_addr", listen); ("advertise_addr", advertise)]
    ++ (if is_None data_path then [] else [("data_path_addr", data_path)]) in
  (check_mode client = false ->
   api_join_swarm (transport client)
     ((calls st ++ [CheckIfSwarmNode]) ++ [JoinSwarm join_arguments]) = None) ->
  fst (join client st) = Ok tt
  /\ calls (snd (join client st)) =
       (calls st ++ [CheckIfSwarmNode])
       ++ (if check_mode client then [] else [JoinSwarm join_arguments])
  /\ actions (results (snd (join client st))) =
       actions (results st) ++ ["New node is added to swarm cluster"]
  /\ changed (results (snd (join client st))) = true
  /\ differences (snd (join client st)) =
       differences st ++
       [{| name := "joined"; parameter := VBool true; active := VBool false |}].
Proof.
  intros Hnode Hr Ht Hl Ha Hd args Hjoin. subst args.
  unfold join, add_if_not_None. run_manager. simpl_state. rewrite Hnode.
  destruct (check_mode client) eqn:Hcheck; simpl_state.
  - rewrite app_nil_r. repeat split.
  - rewrite Hr, Ht, Hl, Ha, Hd. cbn [rbind].
    destruct data_path; cbn [is_None negb Dict.set String.eqb Ascii.eqb Bool.eqb andb];
      simpl_state; cbn [is_None app] in Hjoin; rewrite (Hjoin eq_refl);
      simpl_state; repeat split.
Qed.

Lemma join_adds_the_node_witness :
  let client := example_client
                  [("state", VStr "join");
                   ("remote_addrs", VList [VStr "192.168.1.1:2377"]);
                   ("join_token", VStr "SWMTKN-1-worker");
                   ("advertise_addr", VStr "192.168.1.2")]
                  false fresh_node_transport in
  let st := new_manager client in
  fst (join client st) = Ok tt
  /\ calls (snd (join client st)) =
       [CheckIfSwarmNode;
        JoinSwarm [("remote_addrs", VList [VStr "192.168.1.1:2377"]);
                   ("join_token", VStr "SWMTKN-1-worker");
                   ("listen_addr", VStr "0.0.0.0:2377");
                   ("advertise_addr", VStr "192.168.1.2")]]
  /\ changed (results (snd (join client st))) = true.
Proof.
  intros client st.
  destruct (join_adds_the_node client st
              (VList [VStr "192.168.1.1:2377"]) (VStr "SWMTKN-1-worker")
              (VStr "0.0.0.0:2377") (VStr "192.168.1.2") VNone)
    as (H1 & H2 & _ & H4 & _); try (vm_compute; reflexivity).
  split; [exact H1|]. split; [exact H2 | exact H4].
Defined.

(** X3. When the join request raises an [APIError], [join] fails with "Can
    not join the Swarm Cluster: <error>" and reports nothing: the results
    and the differences are untouched. *)
Theorem join_failure_is_fatal client st remote token listen advertise data_path msg :
  api_check_if_swarm_node (transport client) (calls st ++ [CheckIfSwarmNode])
  = false ->
  check_mode client = false ->
  getattr (parameters st) "remote_addrs" = Ok remote ->
  getattr (parameters st) "join_token" = Ok token ->
  getattr (parameters st) "listen_addr" = Ok listen ->
  getattr (parameters st) "advertise_addr" = Ok advertise ->
  getattr (parameters st) "data_path_addr" = Ok data_path ->
  let join_arguments :=
    [("remote_addrs", remote); ("join_token", token);
     ("listen_addr", listen); ("advertise_addr", advertise)]
    ++ (if is_None data_path then [] else [("data_path_addr", data_path)]) in
  api_join_swarm (transport client)
    ((calls st ++ [CheckIfSwarmNode]) ++ [JoinSwarm join_arguments]) = Some msg ->
  fst (join client st) =
    Raise (Fail ("Can not join the Swarm Cluster: " ++ msg)%string)
  /\ results (snd (join client st)) = results st
  /\ differences (snd (join client st)) = differences st.
Proof.
  intros Hnode Hcheck Hr Ht Hl Ha Hd args Hjoin. subst args.
  unfold join, add_if_not_None. run_manager. simpl_state.
  rewrite Hnode, Hcheck. simpl_state.
  rewrite Hr, Ht, Hl, Ha, Hd. cbn [rbind].
  destruct data_path; cbn [is_None negb Dict.set String.eqb Ascii.eqb Bool.eqb andb];
    simpl_state; cbn [is_None app] in Hjoin; rewrite Hjoin;
    simpl_state; repeat split.
Qed.

Lemma join_failure_is_fatal_witness :
  let client := example_client
                  [("state", VStr "join");
                   ("remote_addrs", VList [VStr "192.168.1.1:2377"]);
                   ("join_token", VStr "SWMTKN-1-worker")]
                  false rejecting_node_transport in
  let st := new_manager client in
  fst (join client st) =
    Raise (Fail "Can not join the Swarm Cluster: permission denied")
  /\ changed (results (snd (join client st))) = false
  /\ actions (results (snd (join client st))) = [].
Proof.
  intros client st.
  destruct (join_failure_is_fatal client st
              (VList [VStr "192.168.1.1:2377"]) (VStr "SWMTKN-1-worker")
              (VStr "0.0.0.0:2377") VNone VNone "permission denied")
    as (H1 & H2 & _); try (vm_compute; reflexivity).
  split; [exact H1|]. rewrite H2. split; reflexivity.
Defined.

(** ** Leaving a swarm *)

(** X4. On a node outside any swarm, [leave] sends nothing but the
    membership check, appends the message "This node is not part of a
    swarm." and leaves the [changed] flag and the differences as they
    were. *)
Theorem leave_is_noop_outside_a_swarm client st :
  api_check_if_swarm_node (transport client) (calls st ++ [CheckIfSwarmNode])
  = false ->
  fst (leave client st) = Ok tt
  /\ calls (snd (leave client st)) = calls st ++ [CheckIfSwarmNode]
  /\ actions (results (snd (leave client st))) =
       actions (results st) ++ ["This node is not part of a swarm."]
  /\ changed (results (snd (leave client st))) = changed (results st)
  /\ differences (snd (leave client st)) = differences st.
Proof.
  intros Hnode. unfold leave. run_manager. simpl_state. rewrite Hnode.
  simpl_state. repeat split.
Qed.

Lemma leave_is_noop_outside_a_swarm_witness :
  let client := example_client [("state", VStr "absent")] false
                  fresh_node_transport in
  let st := new_manager client in
  fst (leave client st) = Ok tt
  /\ calls (snd (leave client st)) = [CheckIfSwarmNode]
  /\ actions (results (snd (leave client st))) =
       ["This node is not part of a swarm."]
  /\ changed (results (snd (leave client st))) = false.
Proof.
  intros client st.
  destruct (leave_is_noop_outside_a_swarm client st) as (H1 & H2 & H3 & H4 & _).
  - reflexivity.
  - split; [exact H1|]. split; [exact H2|]. split; [exact H3|].
    rewrite H4. reflexivity.
Defined.

(** X5. On a member of a swarm, [leave] reports the change (the action "Node
    has left the swarm cluster", the difference [joined] with desired
    "absent" and observed "present", [changed] set) and, unless in check
    mode, sends exactly one leave request carrying the [force] parameter. *)
Theorem leave_leaves_the_swarm client st :
  api_check_if_swarm_node (transport client) (calls st ++ [CheckIfSwarmNode])
  = true ->
  (check_mode client = false ->
   api_leave_swarm (transport client)
     ((calls st ++ [CheckIfSwarmNode]) ++ [LeaveSwarm (force st)]) = None) ->
  fst (leave client st) = Ok tt
  /\ calls (snd (leave client st)) =
       (calls st ++ [CheckIfSwarmNode])
       ++ (if check_mode client then [] else [LeaveSwarm (force st)])
  /\ actions (results (snd (leave client st))) =
       actions (results st) ++ ["Node has left the swarm cluster"]
  /\ changed (results (snd (leave client st))) = true
  /\ differences (snd (leave client st)) =
       differences st ++
       [{| name := "joined"; parameter := VStr "absent";
           active := VStr "present" |}].
Proof.
  intros Hnode Hleave. unfold leave. run_manager. simpl_state. rewrite Hnode.
  destruct (check_mode client) eqn:Hcheck; simpl_state.
  - rewrite app_nil_r. repeat split.
  - rewrite (Hleave eq_refl). simpl_state. repeat split.
Qed.

Lemma leave_leaves_the_swarm_witness :
  let client := example_client [("state", VStr "absent"); ("force", VBool true)]
                  false manager_transport in
  let st := new_manager client in
  fst (leave client st) = Ok tt
  /\ calls (snd (leave client st)) = [CheckIfSwarmNode; LeaveSwarm (VBool true)]
  /\ changed (results (snd (leave client st))) = true.
Proof.
  intros client st.
  destruct (leave_leaves_the_swarm client st) as (H1 & H2 & _ & H4 & _);
    try (vm_compute; reflexivity).
  split; [exact H1|]. split; [exact H2 | exact H4].
Defined.

(** X6. When the leave request raises an [APIError], [leave] fails with
    "This node can not leave the Swarm Cluster: <error>" and reports
    nothing: the results and the differences are untouched. *)
Theorem leave_failure_is_fatal client st msg :
  api_check_if_swarm_node (transport client) (calls st ++ [CheckIfSwarmNode])
  = true ->
  check_mode client = false ->
  api_leave_swarm (transport client)
    ((calls st ++ [CheckIfSwarmNode]) ++ [LeaveSwarm (force st)]) = Some msg ->
  fst (leave client st) =
    Raise (Fail ("This node can not leave the Swarm Cluster: " ++ msg)%string)
  /\ results (snd (leave client st)) = results st
  /\ differences (snd (leave client st)) = differences st.
Proof.
  intros Hnode Hcheck Hleave. unfold leave. run_manager. simpl_state.
  rewrite Hnode, Hcheck. simpl_state. rewrite Hleave. simpl_state.
  repeat split.
Qed.

Lemma leave_failure_is_fatal_witness :
  let client := example_client [("state", VStr "absent")] false
                  rejecting_manager_transport in
  let st := new_manager client in
  fst (leave client st) =
    Raise (Fail "This node can not leave the Swarm Cluster: permission denied")
  /\ changed (results (snd (leave client st))) = false
  /\ actions (results (snd (leave client st))) = [].
Proof.
  intros client st.
  destruct (leave_failure_is_fatal client st "permission denied")
    as (H1 & H2 & _); try (vm_compute; reflexivity).
  split; [exact H1|]. rewrite H2. split; reflexivity.
Defined.

(** ** Removing a node: the other outcomes *)

(** X7. On a node that is not a manager, [remove] fails with "This node is
    not a manager." after the manager check alone: no status check and no
    remove request is sent. *)
Theorem remove_requires_a_manager client st :
  api_check_if_swarm_manager (transport client)
    (calls st ++ [CheckIfSwarmManager]) = false ->
  fst (remove client st) = Raise (Fail "This node is not a manager.")
  /\ calls (snd (remove client st)) = calls st ++ [CheckIfSwarmManager]
  /\ results (snd (remove client st)) = results st
  /\ differences (snd (remove client st)) = differences st.
Proof.
  intros Hm. unfold remove. run_manager. simpl_state. rewrite Hm.
  simpl_state. repeat split.
Qed.

Lemma remove_requires_a_manager_witness :
  let client := example_client [("state", VStr "remove"); ("node_id", VStr "n1")]
                  false fresh_node_transport in
  let st := new_manager client in
  fst (remove client st) = Raise (Fail "This node is not a manager.")
  /\ calls (snd (remove client st)) = [CheckIfSwarmManager].
Proof.
  intros client st.
  destruct (remove_requires_a_manager client st) as (H1 & H2 & _).
  - reflexivity.
  - split; [exact H1 | exact H2].
Defined.

(** The run of [remove] once the [k]-th status check reports the node
    down. *)
Lemma remove_when_down client st k :
  api_check_if_swarm_manager (transport client)
    (calls st ++ [CheckIfSwarmManager]) = true ->
  1 <= k <= 5 ->
  (forall n, 1 <= n < k ->
     api_node_is_down (transport client)
       (calls st ++ CheckIfSwarmManager :: repeat (NodeStatus (node_id st)) n)
     = inr false) ->
  api_node_is_down (transport client)
    (calls st ++ CheckIfSwarmManager :: repeat (NodeStatus (node_id st)) k)
  = inr true ->
  let polls :=
    calls st ++ CheckIfSwarmManager :: repeat (NodeStatus (node_id st)) k in
  let reported s :=
    set_results (set_changed true)
      (set_differences
         (DifferenceTracker_add (differences s) "joined" (VBool false)
            (VBool true))
         (set_results (append_action "Node is removed from swarm cluster.") s)) in
  remove client st =
  if check_mode client then (Ok tt, reported (set_calls polls st))
  else
    match api_remove_node (transport client)
            (polls ++ [RemoveNode (node_id st) (force st)]) with
    | None =>
        (Ok tt,
         reported (set_calls (polls ++ [RemoveNode (node_id st) (force st)]) st))
    | Some msg =>
        (Raise (Fail ("Can not remove the node from the Swarm Cluster: "
                      ++ msg)%string),
         set_calls (polls ++ [RemoveNode (node_id st) (force st)]) st)
    end.
Proof.
  intros Hm Hk Hup Hdown polls reported. subst polls reported.
  unfold remove, check_if_swarm_node_is_down. run_manager.
  simpl_state. rewrite Hm. simpl_state.
  change (calls st ++ [CheckIfSwarmManager])
    with (calls st ++ CheckIfSwarmManager :: repeat (NodeStatus (node_id st)) 0).
  assert (k = 1 \/ k = 2 \/ k = 3 \/ k = 4 \/ k = 5) as Hcases by lia.
  destruct Hcases as [-> | [-> | [-> | [-> | ->]]]];
    repeat (rewrite polls_snoc;
            first [ rewrite Hdown | rewrite Hup by lia ];
            simpl_state);
    destruct (check_mode client); simpl_state; try reflexivity;
    destruct (api_remove_node _ _); reflexivity.
Qed.

(** X8. When the local node is a manager and the target node is reported
    down at the [k]-th of at most five status checks, [remove] stops
    checking there, sends (unless in check mode) exactly one remove request
    for the node with the [force] parameter, and reports the change: the
    action "Node is removed from swarm cluster.", the difference [joined]
    with desired false and observed true, [changed] set. *)
Theorem remove_removes_a_down_node client st k :
  api_check_if_swarm_manager (transport client)
    (calls st ++ [CheckIfSwarmManager]) = true ->
  1 <= k <= 5 ->
  (forall n, 1 <= n < k ->
     api_node_is_down (transport client)
       (calls st ++ CheckIfSwarmManager :: repeat (NodeStatus (node_id st)) n)
     = inr false) ->
  api_node_is_down (transport client)
    (calls st ++ CheckIfSwarmManager :: repeat (NodeStatus (node_id st)) k)
  = inr true ->
  let polls :=
    calls st ++ CheckIfSwarmManager :: repeat (NodeStatus (node_id st)) k in
  (check_mode client = false ->
   api_remove_node (transport client)
     (polls ++ [RemoveNode (node_id st) (force st)]) = None) ->
  fst (remove client st) = Ok tt
  /\ calls (snd (remove client st)) =
       polls ++ (if check_mode client then []
                 else [RemoveNode (node_id st) (force st)])
  /\ actions (results (snd (remove client st))) =
       actions (results st) ++ ["Node is removed from swarm cluster."]
  /\ changed (results (snd (remove client st))) = true
  /\ differences (snd (remove client st)) =
       differences st ++
       [{| name := "joined"; parameter := VBool false; active := VBool true |}].
Proof.
  intros Hm Hk Hup Hdown polls Hremove.
  rewrite (remove_when_down client st k Hm Hk Hup Hdown). fold polls.
  destruct (check_mode client) eqn:Hcheck.
  - simpl_state. rewrite app_nil_r. repeat split.
  - rewrite (Hremove eq_refl). simpl_state. repeat split.
Qed.

Lemma remove_removes_a_down_node_witness :
  let client := example_client [("state", VStr "remove"); ("node_id", VStr "n1")]
                  false down_node_transport in
  let st := new_manager client in
  fst (remove client st) = Ok tt
  /\ calls (snd (remove client st)) =
       [CheckIfSwarmManager; NodeStatus (VStr "n1"); NodeStatus (VStr "n1");
        NodeStatus (VStr "n1"); RemoveNode (VStr "n1") (VBool false)]
  /\ changed (results (snd (remove client st))) = true.
Proof.
  intros client st.
  destruct (remove_removes_a_down_node client st 3) as (H1 & H2 & _ & H4 & _).
  - reflexivity.
  - lia.
  - intros n Hn. assert (n = 1 \/ n = 2) as [-> | ->] by lia; reflexivity.
  - reflexivity.
  - intros _. reflexivity.
  - split; [exact H1|]. split; [exact H2 | exact H4].
Defined.

(** X9. When the remove request raises an [APIError], [remove] fails with
    "Can not remove the node from the Swarm Cluster: <error>" and reports
    nothing: the results and the differences are untouched. *)
Theorem remove_failure_is_fatal client st k msg :
  api_check_if_swarm_manager (transport client)
    (calls st ++ [CheckIfSwarmManager]) = true ->
  1 <= k <= 5 ->
  (forall n, 1 <= n < k ->
     api_node_is_down (transport client)
       (calls st ++ CheckIfSwarmManager :: repeat (NodeStatus (node_id st)) n)
     = inr false) ->
  api_node_is_down (transport client)
    (calls st ++ CheckIfSwarmManager :: repeat (NodeStatus (node_id st)) k)
  = inr true ->
  check_mode client = false ->
  api_remove_node (transport client)
    ((calls st ++ CheckIfSwarmManager :: repeat (NodeStatus (node_id st)) k)
     ++ [RemoveNode (node_id st) (force st)]) = Some msg ->
  fst (remove client st) =
    Raise (Fail ("Can not remove the node from the Swarm Cluster: "
                 ++ msg)%string)
  /\ results (snd (remove client st)) = results st
  /\ differences (snd (remove client st)) = differences st.
Proof.
  intros Hm Hk Hup Hdown Hcheck Hremove.
  rewrite (remove_when_down client st k Hm Hk Hup Hdown).
  cbv zeta. rewrite Hcheck, Hremove. simpl_state. repeat split.
Qed.

Lemma remove_failure_is_fatal_witness :
  let client := example_client [("state", VStr "remove"); ("node_id", VStr "n1")]
                  false rejecting_manager_transport in
  let st := new_manager client in
  fst (remove client st) =
    Raise (Fail "Can not remove the node from the Swarm Cluster: permission denied")
  /\ changed (results (snd (remove client st))) = false
  /\ actions (results (snd (remove client st))) = [].
Proof.
  intros client st.
  destruct (remove_failure_is_fatal client st 1 "permission denied")
    as (H1 & H2 & _).
  - reflexivity.
  - lia.
  - intros n Hn. lia.
  - reflexivity.
  - reflexivity.
  - reflexivity.
  - split; [exact H1|]. rewrite H2. split; reflexivity.
Defined.

(** ** Creating a swarm: the requests and the failures *)

(** Every run of [inspect_swarm] starts with the inspect request. *)
Lemma inspect_swarm_calls_first client st :
  exists rest,
    calls (snd (inspect_swarm client st)) = calls st ++ InspectSwarm :: rest.
Proof.
  unfold inspect_swarm, get_unlock_key, has_swarm_lock_changed. run_manager.
  repeat break_match_goal; simpl_state;
    first [ exists []; reflexivity
          | exists [GetUnlockKey]; rewrite <- app_assoc; reflexivity ].
Qed.



Lemma set_fresh {A} (d : Dict.t A) k v :
  Dict.mem d k = false -> Dict.set d k v = d ++ [(k, v)].
Proof.
  unfold Dict.mem.
  induction d as [|[k0 v0] d IH]; simpl; [reflexivity|].
  destruct (String.eqb k0 k); [discriminate|].
  intros H. now rewrite IH.
Qed.

Lemma mem_app {A} (d d' : Dict.t A) k :
  Dict.mem (d ++ d') k = Dict.mem d k || Dict.mem d' k.
Proof.
  unfold Dict.mem.
  induction d as [|[k0 v0] d IH]; simpl; [reflexivity|].
  destruct (String.eqb k0 k); [reflexivity | exact IH].
Qed.

Lemma mem_optional k' v k :
  String.eqb k' k = false -> Dict.mem (optional k' v) k = false.
Proof.
  intros H. unfold optional, Dict.mem.
  destruct (is_None v); simpl; [reflexivity|]. now rewrite H.
Qed.

Lemma add_if_not_None_optional p k v args :
  getattr p k = Ok v -> Dict.mem args k = false ->
  add_if_not_None p k args = Ok (args ++ optional k v).
Proof.
  intros Hv Hk. unfold add_if_not_None, optional. rewrite Hv. cbn [rbind].
  destruct (is_None v); cbn [negb].
  - now rewrite app_nil_r.
  - now rewrite set_fresh.
Qed.

(** The run of [init_swarm] on the creation path, outside check mode, up to
    the answer to the initialisation request. *)
Lemma init_swarm_sends_init py_repr client st advertise listen spec pool subnet
    data_path_addr data_path_port :
  (py_truthy (force st) = false ->
   api_check_if_swarm_manager (transport client)
     (calls st ++ [CheckIfSwarmManager]) = false) ->
  check_mode client = false ->
  getattr (parameters st) "advertise_addr" = Ok advertise ->
  getattr (parameters st) "listen_addr" = Ok listen ->
  getattr (parameters st) "spec" = Ok spec ->
  getattr (parameters st) "default_addr_pool" = Ok pool ->
  getattr (parameters st) "subnet_size" = Ok subnet ->
  getattr (parameters st) "data_path_addr" = Ok data_path_addr ->
  getattr (parameters st) "data_path_port" = Ok data_path_port ->
  let entry := if py_truthy (force st) then calls st
               else calls st ++ [CheckIfSwarmManager] in
  let init_arguments :=
    [("advertise_addr", advertise); ("listen_addr", listen);
     ("force_new_cluster", force st); ("swarm_spec", spec)]
    ++ optional "default_addr_pool" pool ++ optional "subnet_size" subnet
    ++ optional "data_path_addr" data_path_addr
    ++ optional "data_path_port" data_path_port in
  let sent := entry ++ [InitSwarm init_arguments] in
  (forall msg, api_init_swarm (transport client) sent = Some msg ->
     init_swarm py_repr client st =
     (Raise (Fail ("Can not create a new Swarm Cluster: " ++ msg)%string),
      set_calls sent st))
  /\ (api_init_swarm (transport client) sent = None ->
      api_check_if_swarm_manager (transport client)
        (sent ++ [CheckIfSwarmManager]) = false ->
      init_swarm py_repr client st =
      (Raise (Fail "Swarm not created or other error!"),
       set_calls (sent ++ [CheckIfSwarmManager]) st))
  /\ (api_init_swarm (transport client) sent = None ->
      api_check_if_swarm_manager (transport client)
        (sent ++ [CheckIfSwarmManager]) = true ->
      exists rest,
        calls (snd (init_swarm py_repr client st)) =
        sent ++ CheckIfSwarmManager :: InspectSwarm :: rest).
Proof.
  intros Hm Hcheck Ha Hl Hs Hp Hsub Hda Hdp entry args sent.
  subst sent args entry.
  unfold init_swarm. run_manager. simpl_state.
  rewrite Hcheck. simpl_state.
  destruct (py_truthy (force st)) eqn:Hf; simpl_state;
    [| rewrite (Hm eq_refl) ]; simpl_state;
    rewrite Ha, Hl, Hs;
    rewrite (add_if_not_None_optional _ _ _ _ Hp) by reflexivity;
    rewrite (add_if_not_None_optional _ _ _ _ Hsub)
      by (rewrite mem_app, mem_optional by reflexivity; reflexivity);
    rewrite (add_if_not_None_optional _ _ _ _ Hda)
      by (rewrite !mem_app, !mem_optional by reflexivity; reflexivity);
    rewrite (add_if_not_None_optional _ _ _ _ Hdp)
      by (rewrite !mem_app, !mem_optional by reflexivity; reflexivity);
    rewrite <- !(app_assoc (A := string * value));
    (split; [intros msg ->; reflexivity|]);
    (split; [intros -> ; simpl_state; intros ->; reflexivity|]);
    intros ->; simpl_state; intros ->; simpl_state;
    match goal with
    | |- context [inspect_swarm client ?s] =>
        destruct (inspect_swarm_calls_first client s) as (rest & Hrest);
        destruct (inspect_swarm client s) as [r s1]; simpl_state_in Hrest;
        exists rest; destruct r; simpl_state; rewrite Hrest;
        rewrite <- (app_assoc _ [CheckIfSwarmManager]); reflexivity
    end.
Qed.


(** X10. When the initialisation request raises an [APIError], [init_swarm]
    fails with "Can not create a new Swarm Cluster: <error>": nothing is
    sent after the request, the swarm does not count as created, and the
    results and the differences are untouched. *)
Theorem init_failure_is_fatal py_repr client st advertise listen spec pool subnet
    data_path_addr data_path_port msg :
  (py_truthy (force st) = false ->
   api_check_if_swarm_manager (transport client)
     (calls st ++ [CheckIfSwarmManager]) = false) ->
  check_mode client = false ->
  getattr (parameters st) "advertise_addr" = Ok advertise ->
  getattr (parameters st) "listen_addr" = Ok listen ->
  getattr (parameters st) "spec" = Ok spec ->
  getattr (parameters st) "default_addr_pool" = Ok pool ->
  getattr (parameters st) "subnet_size" = Ok subnet ->
  getattr (parameters st) "data_path_addr" = Ok data_path_addr ->
  getattr (parameters st) "data_path_port" = Ok data_path_port ->
  let entry := if py_truthy (force st) then calls st
               else calls st ++ [CheckIfSwarmManager] in
  let init_arguments :=
    [("advertise_addr", advertise); ("listen_addr", listen);
     ("force_new_cluster", force st); ("swarm_spec", spec)]
    ++ optional "default_addr_pool" pool ++ optional "subnet_size" subnet
    ++ optional "data_path_addr" data_path_addr
    ++ optional "data_path_port" data_path_port in
  api_init_swarm (transport client) (entry ++ [InitSwarm init_arguments])
  = Some msg ->
  fst (init_swarm py_repr client st) =
    Raise (Fail ("Can not create a new Swarm Cluster: " ++ msg)%string)
  /\ calls (snd (init_swarm py_repr client st)) =
       entry ++ [InitSwarm init_arguments]
  /\ created (snd (init_swarm py_repr client st)) = created st
  /\ results (snd (init_swarm py_repr client st)) = results st
  /\ differences (snd (init_swarm py_repr client st)) = differences st.
Proof.
  intros Hm Hcheck Ha Hl Hs Hp Hsub Hda Hdp entry args Hinit.
  destruct (init_swarm_sends_init py_repr client st _ _ _ _ _ _ _
              Hm Hcheck Ha Hl Hs Hp Hsub Hda Hdp) as (Hfail & _).
  rewrite (Hfail msg Hinit). simpl_state. repeat split.
Qed.

Lemma init_failure_is_fatal_witness :
  let client := example_client [] false rejecting_node_transport in
  let st := new_manager client in
  fst (init_swarm example_repr client st) =
    Raise (Fail "Can not create a new Swarm Cluster: permission denied")
  /\ calls (snd (init_swarm example_repr client st)) =
       [CheckIfSwarmManager;
        InitSwarm [("advertise_addr", VNone);
                   ("listen_addr", VStr "0.0.0.0:2377");
                   ("force_new_cluster", VBool false);
                   ("swarm_spec", VDict [])]]
  /\ changed (results (snd (init_swarm example_repr client st))) = false.
Proof.
  intros client st.
  destruct (init_failure_is_fatal example_repr client st
              VNone (VStr "0.0.0.0:2377") (VDict []) VNone VNone VNone VNone
              "permission denied")
    as (H1 & H2 & _ & H4 & _); try (vm_compute; reflexivity).
  split; [exact H1|]. split; [exact H2|]. rewrite H4. reflexivity.
Defined.

(** X11. When the initialisation request was accepted but the node is still
    not a manager afterwards, [init_swarm] (outside check mode) fails with
    "Swarm not created or other error!": no inspection follows, the swarm
    does not count as created, and the results and the differences are
    untouched. *)
Theorem init_unverified_is_fatal py_repr client st advertise listen spec pool
    subnet data_path_addr data_path_port :
  (py_truthy (force st) = false ->
   api_check_if_swarm_manager (transport client)
     (calls st ++ [CheckIfSwarmManager]) = false) ->
  check_mode client = false ->
  getattr (parameters st) "advertise_addr" = Ok advertise ->
  getattr (parameters st) "listen_addr" = Ok listen ->
  getattr (parameters st) "spec" = Ok spec ->
  getattr (parameters st) "default_addr_pool" = Ok pool ->
  getattr (parameters st) "subnet_size" = Ok subnet ->
  getattr (parameters st) "data_path_addr" = Ok data_path_addr ->
  getattr (parameters st) "data_path_port" = Ok data_path_port ->
  let entry := if py_truthy (force st) then calls st
               else calls st ++ [CheckIfSwarmManager] in
  let init_arguments :=
    [("advertise_addr", advertise); ("listen_addr", listen);
     ("force_new_cluster", force st); ("swarm_spec", spec)]
    ++ optional "default_addr_pool" pool ++ optional "subnet_size" subnet
    ++ optional "data_path_addr" data_path_addr
    ++ optional "data_path_port" data_path_port in
  api_init_swarm (transport client) (entry ++ [InitSwarm init_arguments])
  = None ->
  api_check_if_swarm_manager (transport client)
    ((entry ++ [InitSwarm init_arguments]) ++ [CheckIfSwarmManager]) = false ->
  fst (init_swarm py_repr client st) =
    Raise (Fail "Swarm not created or other error!")
  /\ calls (snd (init_swarm py_repr client st)) =
       (entry ++ [InitSwarm init_arguments]) ++ [CheckIfSwarmManager]
  /\ created (snd (init_swarm py_repr client st)) = created st
  /\ results (snd (init_swarm py_repr client st)) = results st
  /\ differences (snd (init_swarm py_repr client st)) = differences st.
Proof.
  intros Hm Hcheck Ha Hl Hs Hp Hsub Hda Hdp entry args Hinit Hnot.
  destruct (init_swarm_sends_init py_repr client st _ _ _ _ _ _ _
              Hm Hcheck Ha Hl Hs Hp Hsub Hda Hdp) as (_ & Hfail & _).
  rewrite (Hfail Hinit Hnot). simpl_state. repeat split.
Qed.

(** X12. Outside check mode, a creation that is accepted and verified sent
    exactly this sequence first: the initialisation request, carrying the
    advertise and listen addresses, the [force] parameter as
    [force_new_cluster], the specification built from the parameters, and
    the address pool, subnet size, data-path address and data-path port
    only when they are set; then the manager check and the inspection. *)
Theorem init_request_arguments py_repr client st advertise listen spec pool
    subnet data_path_addr data_path_port :
  (py_truthy (force st) = false ->
   api_check_if_swarm_manager (transport client)
     (calls st ++ [CheckIfSwarmManager]) = false) ->
  check_mode client = false ->
  getattr (parameters st) "advertise_addr" = Ok advertise ->
  getattr (parameters st) "listen_addr" = Ok listen ->
  getattr (parameters st) "spec" = Ok spec ->
  getattr (parameters st) "default_addr_pool" = Ok pool ->
  getattr (parameters st) "subnet_size" = Ok subnet ->
  getattr (parameters st) "data_path_addr" = Ok data_path_addr ->
  getattr (parameters st) "data_path_port" = Ok data_path_port ->
  let entry := if py_truthy (force st) then calls st
               else calls st ++ [CheckIfSwarmManager] in
  let init_arguments :=
    [("advertise_addr", advertise); ("listen_addr", listen);
     ("force_new_cluster", force st); ("swarm_spec", spec)]
    ++ optional "default_addr_pool" pool ++ optional "subnet_size" subnet
    ++ optional "data_path_addr" data_path_addr
    ++ optional "data_path_port" data_path_port in
  api_init_swarm (transport client) (entry ++ [InitSwarm init_arguments])
  = None ->
  api_check_if_swarm_manager (transport client)
    ((entry ++ [InitSwarm init_arguments]) ++ [CheckIfSwarmManager]) = true ->
  exists rest,
    calls (snd (init_swarm py_repr client st)) =
    (entry ++ [InitSwarm init_arguments])
    ++ CheckIfSwarmManager :: InspectSwarm :: rest.
Proof.
  intros Hm Hcheck Ha Hl Hs Hp Hsub Hda Hdp entry args Hinit Hyes.
  destruct (init_swarm_sends_init py_repr client st _ _ _ _ _ _ _
              Hm Hcheck Ha Hl Hs Hp Hsub Hda Hdp) as (_ & _ & Hok).
  exact (Hok Hinit Hyes).
Qed.

Lemma init_unverified_is_fatal_witness :
  let client := example_client [] false stuck_node_transport in
  let st := new_manager client in
  fst (init_swarm example_repr client st) =
    Raise (Fail "Swarm not created or other error!")
  /\ created (snd (init_swarm example_repr client st)) = false
  /\ changed (results (snd (init_swarm example_repr client st))) = false.
Proof.
  intros client st.
  destruct (init_unverified_is_fatal example_repr client st
              VNone (VStr "0.0.0.0:2377") (VDict []) VNone VNone VNone VNone)
    as (H1 & _ & H3 & H4 & _); try (vm_compute; reflexivity).
  split; [exact H1|]. split; [exact H3|]. rewrite H4. reflexivity.
Defined.

Lemma init_request_arguments_witness :
  let client := example_client
                  [("advertise_addr", VStr "192.168.1.1");
                   ("default_addr_pool", VList [VStr "10.10.0.0/16"]);
                   ("subnet_size", VInt 24);
                   ("election_tick", VInt 5)]
                  false fresh_node_transport in
  let st := new_manager client in
  exists rest,
    calls (snd (init_swarm example_repr client st)) =
    [CheckIfSwarmManager;
     InitSwarm [("advertise_addr", VStr "192.168.1.1");
                ("listen_addr", VStr "0.0.0.0:2377");
                ("force_new_cluster", VBool false);
                ("swarm_spec", VDict [("election_tick", VInt 5)]);
                ("default_addr_pool", VList [VStr "10.10.0.0/16"]);
                ("subnet_size", VInt 24)];
     CheckIfSwarmManager; InspectSwarm] ++ rest.
Proof.
  intros client st.
  destruct (init_request_arguments example_repr client st
              (VStr "192.168.1.1") (VStr "0.0.0.0:2377")
              (VDict [("election_tick", VInt 5)])
              (VList [VStr "10.10.0.0/16"]) (VInt 24) VNone VNone)
    as (rest & Hrest); try (vm_compute; reflexivity).
  exists rest. exact Hrest.
Defined.

(** X13. In check mode on the creation path, [init_swarm] sends no
    initialisation request and does not fail when the node is not a manager;
    when the inspection then raises an [APIError] (the node is outside any
    swarm and nothing was inspected before) it still reports a creation:
    the action is "New Swarm cluster created: None", the facts hold a null
    [JoinTokens] and a null [UnlockKey], and [changed] is set. *)
Theorem init_in_check_mode py_repr client st msg :
  (py_truthy (force st) = false ->
   api_check_if_swarm_manager (transport client)
     (calls st ++ [CheckIfSwarmManager]) = false) ->
  check_mode client = true ->
  swarm_info st = [] ->
  let entry := if py_truthy (force st) then calls st
               else calls st ++ [CheckIfSwarmManager] in
  api_inspect_swarm (transport client)
    ((entry ++ [CheckIfSwarmManager]) ++ [InspectSwarm]) = inl msg ->
  fst (init_swarm py_repr client st) = Ok tt
  /\ calls (snd (init_swarm py_repr client st)) =
       (entry ++ [CheckIfSwarmManager]) ++ [InspectSwarm]
  /\ actions (results (snd (init_swarm py_repr client st))) =
       actions (results st) ++ ["New Swarm cluster created: None"]
  /\ read_swarm_facts (snd (init_swarm py_repr client st)) =
       Some [("JoinTokens", VNone); ("UnlockKey", VNone)]
  /\ changed (results (snd (init_swarm py_repr client st))) = true
  /\ created (snd (init_swarm py_repr client st)) = true.
Proof.
  intros Hm Hcheck Hinfo entry. subst entry.
  unfold init_swarm, inspect_swarm. run_manager. simpl_state.
  rewrite Hcheck. simpl_state.
  destruct (py_truthy (force st)) eqn:Hf; simpl_state;
    [| rewrite (Hm eq_refl) ]; simpl_state; intros Hinspect; clear Hm;
    match goal with
    | |- context [negb (api_check_if_swarm_manager ?t ?l)] =>
        destruct (api_check_if_swarm_manager t l)
    end; simpl_state;
    rewrite Hinspect; simpl_state; rewrite Hinfo;
    repeat split.
Qed.

Lemma init_in_check_mode_witness :
  let client := example_client [] true stuck_node_transport in
  let st := new_manager client in
  fst (init_swarm example_repr client st) = Ok tt
  /\ calls (snd (init_swarm example_repr client st)) =
       [CheckIfSwarmManager; CheckIfSwarmManager; InspectSwarm]
  /\ actions (results (snd (init_swarm example_repr client st))) =
       ["New Swarm cluster created: None"]
  /\ changed (results (snd (init_swarm example_repr client st))) = true.
Proof.
  intros client st.
  destruct (init_in_check_mode example_repr client st
              "This node is not a swarm manager.")
    as (H1 & H2 & H3 & _ & H5 & _); try (vm_compute; reflexivity).
  split; [exact H1|]. split; [exact H2|]. split; [exact H3 | exact H5].
Defined.

(** ** Check mode *)

Ltac quiet_leaf H :=
  simpl_state; rewrite ?forallb_app; cbn [forallb read_only andb];
  rewrite ?H; reflexivity.

Ltac quiet_through Hm :=
  match goal with
  | Hi : ?m ?X = (_, ?s) |- forallb read_only (calls ?s) = true =>
      let Hx := fresh in
      pose proof (Hm X) as Hx; rewrite Hi in Hx; simpl_state_in Hx;
      apply Hx; clear Hx
  end.

Lemma inspect_swarm_read_only client st :
  forallb read_only (calls st) = true ->
  forallb read_only (calls (snd (inspect_swarm client st))) = true.
Proof.
  intros H. unfold inspect_swarm, get_unlock_key, has_swarm_lock_changed.
  run_manager. repeat break_match_goal; quiet_leaf H.
Qed.

Lemma check_if_swarm_node_is_down_read_only client id n st :
  forallb read_only (calls st) = true ->
  forallb read_only
    (calls (snd (check_if_swarm_node_is_down client id n st))) = true.
Proof.
  revert st. induction n as [|n IH]; intros st H; simpl.
  - exact H.
  - run_manager. destruct (api_node_is_down _ _) as [msg|[|]]; simpl_state.
    + quiet_leaf H.
    + quiet_leaf H.
    + apply IH. quiet_leaf H.
Qed.

Lemma __update_swarm_read_only client st :
  check_mode client = true ->
  forallb read_only (calls st) = true ->
  forallb read_only (calls (snd (__update_swarm client st))) = true.
Proof.
  intros Hcheck H.
  pose proof (inspect_swarm_read_only client) as Hinsp.
  unfold __update_swarm, update_swarm_try. run_manager. rewrite Hcheck.
  pose proof (Hinsp st H) as H1.
  destruct (inspect_swarm client st) as [r1 s1] eqn:Hi1. simpl_state_in H1.
  repeat (break_match_goal; simpl_state; try assumption).
  all: try quiet_through Hinsp.
  all: quiet_leaf H1.
Qed.

Lemma init_swarm_read_only py_repr client st :
  check_mode client = true ->
  forallb read_only (calls st) = true ->
  forallb read_only (calls (snd (init_swarm py_repr client st))) = true.
Proof.
  intros Hcheck H.
  pose proof (inspect_swarm_read_only client) as Hinsp.
  pose proof (__update_swarm_read_only client) as Hupd.
  unfold init_swarm. run_manager. rewrite Hcheck. simpl_state.
  repeat (break_match_goal; simpl_state).
  all: try quiet_through Hinsp.
  all: try (apply Hupd; [assumption|]).
  all: quiet_leaf H.
Qed.

Lemma join_read_only client st :
  check_mode client = true ->
  forallb read_only (calls st) = true ->
  forallb read_only (calls (snd (join client st))) = true.
Proof.
  intros Hcheck H. unfold join. run_manager. rewrite Hcheck. simpl_state.
  repeat (break_match_goal; simpl_state); quiet_leaf H.
Qed.

Lemma leave_read_only client st :
  check_mode client = true ->
  forallb read_only (calls st) = true ->
  forallb read_only (calls (snd (leave client st))) = true.
Proof.
  intros Hcheck H. unfold leave. run_manager. rewrite Hcheck. simpl_state.
  repeat (break_match_goal; simpl_state); quiet_leaf H.
Qed.

Lemma remove_read_only client st :
  check_mode client = true ->
  forallb read_only (calls st) = true ->
  forallb read_only (calls (snd (remove client st))) = true.
Proof.
  intros Hcheck H.
  assert (forall id n s2, forallb read_only (calls s2) = true ->
            forallb read_only
              (calls (snd (check_if_swarm_node_is_down client id n s2))) = true)
    as Hpoll by (intros; now apply check_if_swarm_node_is_down_read_only).
  unfold remove. run_manager. rewrite Hcheck. simpl_state.
  repeat (break_match_goal; simpl_state).
  all: try match goal with
       | Hi : check_if_swarm_node_is_down _ ?id ?n ?X = (_, ?s) |- _ =>
           let Hx := fresh in
           pose proof (Hpoll id n X) as Hx; rewrite Hi in Hx;
           simpl_state_in Hx; apply Hx; clear Hx
       end.
  all: quiet_leaf H.
Qed.

(** X14. In check mode an invocation only reads: whatever the state asked
    for and whatever the engine answers, no initialisation, update, join,
    leave or remove-node request is ever sent. *)
Theorem check_mode_sends_no_change py_repr client r st' :
  check_mode client = true ->
  run py_repr client = (r, Some st') ->
  forallb read_only (calls st') = true.
Proof.
  unfold run. intros Hcheck H.
  destruct (SwarmManager_init client _) as [self|] eqn:Hinit; [|discriminate H].
  assert (calls self = []) as Hself.
  { unfold SwarmManager_init in Hinit.
    repeat step_rbind Hinit ipattern:(?) ipattern:(?).
    now injection Hinit as <-. }
  assert (forallb read_only (calls self) = true) as H0 by now rewrite Hself.
  pose proof (init_swarm_read_only py_repr client self Hcheck H0) as H1.
  pose proof (join_read_only client self Hcheck H0) as H2.
  pose proof (leave_read_only client self Hcheck H0) as H3.
  pose proof (remove_read_only client self Hcheck H0) as H4.
  revert H. unfold __call__. run_manager. simpl_state.
  repeat (break_match_goal; simpl_state);
    intros H; injection H as <- <-; simpl_state;
    match goal with
    | Hi : ?m = (_, ?s) |- forallb read_only (calls ?s) = true =>
        first [ rewrite Hi in H1; exact H1 | rewrite Hi in H2; exact H2
              | rewrite Hi in H3; exact H3 | rewrite Hi in H4; exact H4 ]
    | _ => assumption
    end.
Qed.

Lemma check_mode_sends_no_change_witness :
  let client := example_client [("election_tick", VInt 5)] true
                  manager_transport in
  forallb read_only (calls (final_manager example_repr client)) = true
  /\ changed (results (final_manager example_repr client)) = true
  /\ actions (results (final_manager example_repr client)) =
       ["Swarm cluster updated"].
Proof.
  intros client.
  assert (run example_repr client =
          (Ok tt, Some (final_manager example_repr client))) as Hrun
    by (vm_compute; reflexivity).
  split; [|vm_compute; split; reflexivity].
  exact (check_mode_sends_no_change example_repr client (Ok tt) _ eq_refl Hrun).
Defined.

(** ** Building the parameters: what the attributes hold *)

Lemma mem_setattr (r : TaskParameters) a v k :
  Dict.mem r k = true -> Dict.mem (setattr r a v) k = true.
Proof.
  unfold setattr. rewrite !mem_keys. intros H.
  destruct (Dict.mem r a) eqn:Ha.
  - now rewrite keys_set_mem.
  - rewrite keys_set_fresh by assumption.
    apply str_mem_In. apply in_or_app. left. now apply str_mem_In.
Qed.

Lemma get_None_not_key {A} (d : Dict.t A) k :
  str_mem k (Dict.keys d) = false -> Dict.get d k = None.
Proof.
  rewrite <- mem_keys. unfold Dict.mem. now destruct (Dict.get d k).
Qed.

(** Without duplicate names among the module parameters, a declared
    attribute holds the parameter of its name, or its initial value. *)
Lemma copy_params_get params r k :
  str_nodup (Dict.keys params) = true ->
  Dict.mem r k = true ->
  getattr (copy_params params r) k =
  match Dict.get params k with
  | Some v => Ok v
  | None => getattr r k
  end.
Proof.
  unfold copy_params. revert r.
  induction params as [|[k0 v0] ps IH]; intros r Hnd Hk; [reflexivity|].
  cbn [Dict.keys map fst str_nodup] in Hnd.
  apply andb_true_iff in Hnd as [Hk0 Hnd]. apply negb_true_iff in Hk0.
  cbn [fold_left fst snd Dict.get].
  rewrite IH; [|assumption|destruct (Dict.mem r k0); [now apply mem_setattr|assumption]].
  destruct (String.eqb_spec k0 k) as [->|Hne].
  - rewrite (get_None_not_key ps k Hk0). rewrite Hk.
    apply getattr_setattr_same.
  - destruct (Dict.get ps k); [reflexivity|].
    destruct (Dict.mem r k0); [|reflexivity].
    now apply getattr_setattr_other.
Qed.

Lemma collect_params_total self client items params :
  (forall dest source, In (dest, source) items ->
     exists v, getattr self source = Ok v) ->
  exists out, collect_params self client items params = Ok out.
Proof.
  revert params.
  induction items as [|[dest source] rest IH]; intros params H;
    cbn [collect_params]; [eauto|].
  assert (forall params', exists out,
            collect_params self client rest params' = Ok out) as IH'
    by (intros; apply IH; intros d s Hin; apply (H d s); now right).
  destruct (negb (supported client source)); [apply IH'|].
  destruct (H dest source) as (v & ->); [now left|]. cbn [rbind].
  destruct (negb (is_None v)); apply IH'.
Qed.

(** X15. [from_ansible_params] never raises. The object it builds has
    exactly the attributes [TaskParameters.__init__] declares, followed by
    [spec]: module parameters such as [state], [force] or [node_id], which
    are not attributes, are ignored. When no module parameter is named
    twice, every declared attribute holds the module parameter of its name,
    and its initial value ([None]; [False] for [debug]) when there is no
    such parameter. *)
Theorem from_ansible_params_copies_declared_attributes client :
  exists P,
    from_ansible_params client = Ok P
    /\ Dict.keys P = Dict.keys TaskParameters_init ++ ["spec"]
    /\ (str_nodup (Dict.keys (module_params client)) = true ->
        forall k, In k (Dict.keys TaskParameters_init) ->
          getattr P k =
          match Dict.get (module_params client) k with
          | Some v => Ok v
          | None => getattr TaskParameters_init k
          end).
Proof.
  destruct (collect_params_total
              (copy_params (module_params client) TaskParameters_init)
              client assign []) as (params & Hc).
  { intros dest source Hin. apply getattr_keys. rewrite copy_params_keys.
    unfold assign in Hin. simpl in Hin.
    repeat (destruct Hin as [Hin|Hin];
            [injection Hin as <- <-; apply str_mem_In; reflexivity|]).
    contradiction. }
  assert (from_ansible_params client =
          Ok (setattr (copy_params (module_params client) TaskParameters_init)
                "spec" (create_swarm_spec params))) as HP.
  { unfold from_ansible_params, update_parameters. now rewrite Hc. }
  eexists. split; [exact HP|].
  destruct (from_ansible_params_spec _ _ HP) as (Hkeys & Hattr & _).
  split; [exact Hkeys|].
  intros Hnd k Hk. rewrite Hattr.
  - apply copy_params_get; [assumption|].
    rewrite mem_keys. now apply str_mem_In.
  - intros ->. simpl in Hk.
    repeat (destruct Hk as [Hk|Hk]; [discriminate Hk|]). contradiction.
Qed.

Lemma from_ansible_params_copies_declared_attributes_witness :
  let client := example_client [("election_tick", VInt 5)] false
                  manager_transport in
  exists P,
    from_ansible_params client = Ok P
    /\ getattr P "election_tick" = Ok (VInt 5)
    /\ getattr P "name" = Ok VNone
    /\ getattr P "debug" = Ok (VBool false)
    /\ getattr P "state" = Raise (AttributeError "state").
Proof.
  intros client.
  destruct (from_ansible_params_copies_declared_attributes client)
    as (P & HP & Hkeys & Hget).
  assert (str_nodup (Dict.keys (module_params client)) = true) as Hnd
    by (vm_compute; reflexivity).
  exists P. split; [exact HP|].
  rewrite !(Hget Hnd) by (apply str_mem_In; vm_compute; reflexivity).
  split; [vm_compute; reflexivity|]. split; [vm_compute; reflexivity|].
  split; [vm_compute; reflexivity|].
  unfold getattr. rewrite get_None_not_key; [reflexivity|].
  rewrite Hkeys. vm_compute. reflexivity.
Defined.

(** ** The specification [update_parameters] assembles *)

Lemma collect_params_frame self client items params out k :
  collect_params self client items params = Ok out ->
  ~ In k (map fst items) ->
  Dict.get out k = Dict.get params k.
Proof.
  revert params.
  induction items as [|[dest source] rest IH]; intros params H Hk;
    cbn [collect_params] in H.
  - now injection H as <-.
  - cbn [map fst] in Hk.
    assert (dest <> k /\ ~ In k (map fst rest)) as [Hd Hr]
      by (split; intros ?; apply Hk; [now left | now right]).
    destruct (negb (supported client source)); [now apply IH|].
    destruct (getattr self source) as [v|]; cbn [rbind] in H; [|discriminate H].
    destruct (negb (is_None v)); [|now apply IH].
    rewrite (IH _ H Hr). now apply get_set_other.
Qed.

Lemma collect_params_complete self client items params out k source v :
  collect_params self client items params = Ok out ->
  NoDup (map fst items) ->
  In (k, source) items ->
  supported client source = true ->
  getattr self source = Ok v ->
  is_None v = false ->
  Dict.get out k = Some v.
Proof.
  revert params.
  induction items as [|[dest src] rest IH]; intros params H Hnd Hin Hs Hv Hn;
    [contradiction|].
  cbn [collect_params] in H. cbn [map fst] in Hnd.
  apply NoDup_cons_iff in Hnd as [Hfresh Hnd].
  destruct Hin as [Heq|Hin].
  - injection Heq as -> ->. rewrite Hs, Hv in H. cbn [negb rbind] in H.
    rewrite Hn in H. cbn [negb] in H.
    rewrite (collect_params_frame _ _ _ _ _ _ H Hfresh).
    apply get_set_same.
  - destruct (negb (supported client src)); [now apply (IH params)|].
    destruct (getattr self src) as [x|]; cbn [rbind] in H; [|discriminate H].
    destruct (negb (is_None x)); eapply IH; eassumption.
Qed.

Lemma assign_NoDup : NoDup (map fst assign).
Proof.
  unfold assign. cbn [map fst].
  repeat (apply NoDup_cons;
          [cbn [In]; intros H;
           repeat (destruct H as [H|H]; [discriminate H|]); contradiction|]).
  apply NoDup_nil.
Qed.

(** X16. The specification [update_parameters] stores in [spec] is assembled
    from exactly the fields of its table that the capability gate supports
    and that are set: a keyword is passed, with the attribute's value, if and
    only if it is one of the fifteen fields, supported, and not [None]. All
    other attributes are left as they were. *)
Theorem update_parameters_spec_contents self client self' :
  update_parameters self client = Ok self' ->
  exists params,
    getattr self' "spec" = Ok (create_swarm_spec params)
    /\ (forall k v,
          Dict.get params k = Some v <->
          (In (k, k) assign /\ supported client k = true /\
           getattr self k = Ok v /\ is_None v = false))
    /\ (forall k, k <> "spec" -> getattr self' k = getattr self k).
Proof.
  unfold update_parameters. intros H.
  destruct (collect_params self client assign []) as [params|] eqn:Hc;
    cbn [rbind] in H; [|discriminate H].
  injection H as <-. exists params.
  split; [apply getattr_setattr_same|]. split.
  - intros k v. split.
    + intros Hk.
      destruct (collect_params_spec _ _ _ _ _ Hc _ _ Hk)
        as [Hn|(src & Hin & Hs & Hv & Hnone)]; [discriminate Hn|].
      pose proof (assign_same _ _ Hin) as ->. auto.
    + intros (Hin & Hs & Hv & Hn).
      exact (collect_params_complete _ _ _ _ _ _ _ _ Hc assign_NoDup Hin Hs Hv Hn).
  - intros k Hk. apply getattr_setattr_other. congruence.
Qed.

Lemma update_parameters_spec_contents_witness :
  let client := legacy_client [] manager_transport in
  let self := setattr (setattr TaskParameters_init "labels"
                         (VDict [("tier", VStr "db")]))
                "election_tick" (VInt 5) in
  exists self',
    update_parameters self client = Ok self'
    /\ getattr self' "spec" = Ok (VDict [("election_tick", VInt 5)]).
Proof.
  intros client self.
  assert (update_parameters self client =
          Ok (setattr self "spec" (VDict [("election_tick", VInt 5)]))) as H
    by (vm_compute; reflexivity).
  destruct (update_parameters_spec_contents self client _ H)
    as (params & Hspec & _ & _).
  eexists. split; [exact H|]. rewrite Hspec.
  rewrite getattr_setattr_same in Hspec. now injection Hspec as <-.
Defined.

(** ** Backfill: what it keeps and what it overwrites *)

Lemma observed_value_None spec k :
  ~ In k backfilled_fields -> observed_value spec k = None.
Proof.
  intros Hk. unfold observed_value.
  cbv beta iota delta [Dict.get observed_in_section].
  repeat match goal with
         | |- context [String.eqb ?a k] =>
             destruct (String.eqb_spec a k) as [<-|?];
             [exfalso; apply Hk; apply str_mem_In; reflexivity|]
         end.
  reflexivity.
Qed.

(** X17. The backfill never changes an attribute that is set: apart from
    [log_driver], every attribute holding a value other than [None] holds
    the same value afterwards, whatever the inspected document says. *)
Theorem backfill_keeps_set_values self info self' k v :
  update_from_swarm_info self info = Ok self' ->
  k <> "log_driver" ->
  getattr self k = Ok v ->
  is_None v = false ->
  getattr self' k = Ok v.
Proof.
  intros H Hk Hv Hn.
  destruct (update_from_swarm_info_attr _ _ _ H) as (spec & ld & _ & _ & Hattr).
  rewrite Hattr. unfold backfilled. rewrite Hv.
  assert (String.eqb "log_driver" k = false) as ->
    by (apply String.eqb_neq; congruence).
  destruct (observed_value spec k); [|destruct ld; reflexivity].
  destruct v; [discriminate Hn | reflexivity ..].
Qed.

Lemma backfill_keeps_set_values_witness :
  let self := setattr TaskParameters_init "election_tick" (VInt 5) in
  exists self',
    update_from_swarm_info self example_swarm = Ok self'
    /\ getattr self' "election_tick" = Ok (VInt 5)
    /\ getattr self' "heartbeat_tick" = Ok (VInt 1).
Proof.
  intros self.
  assert (exists self', update_from_swarm_info self example_swarm = Ok self')
    as (self' & H) by (eexists; vm_compute; reflexivity).
  exists self'. split; [exact H|]. split.
  - apply (backfill_keeps_set_values self example_swarm self' "election_tick"
             (VInt 5) H); [discriminate | reflexivity | reflexivity].
  - revert H. vm_compute. intros H. injection H as <-. reflexivity.
Defined.

(** X18. The backfill only ever writes the twelve backfilled fields and
    [log_driver]: every other attribute (the connection settings, the rotate
    flags, the signing CA certificate and key, [debug], [spec]) is exactly
    what it was, so a signing CA certificate or key the caller did not give
    stays [None] whatever the swarm reports. *)
Theorem backfill_leaves_other_attributes self info self' k :
  update_from_swarm_info self info = Ok self' ->
  ~ In k backfilled_fields ->
  k <> "log_driver" ->
  getattr self' k = getattr self k.
Proof.
  intros H Hk Hld.
  destruct (update_from_swarm_info_attr _ _ _ H) as (spec & ld & _ & _ & Hattr).
  rewrite Hattr, (observed_value_None spec k Hk).
  assert (String.eqb "log_driver" k = false) as ->
    by (apply String.eqb_neq; congruence).
  destruct ld; reflexivity.
Qed.

Lemma backfill_leaves_other_attributes_witness :
  exists self',
    update_from_swarm_info TaskParameters_init example_swarm = Ok self'
    /\ getattr self' "signing_ca_cert" = Ok VNone
    /\ getattr self' "listen_addr" = Ok VNone.
Proof.
  assert (exists self',
            update_from_swarm_info TaskParameters_init example_swarm = Ok self')
    as (self' & H) by (eexists; vm_compute; reflexivity).
  exists self'. split; [exact H|].
  rewrite !(backfill_leaves_other_attributes _ _ _ _ H);
    try discriminate;
    try (intros Hin; apply str_mem_In in Hin; discriminate Hin).
  split; reflexivity.
Defined.

(** X19. The backfill always takes [log_driver] from the task defaults of
    the inspected specification when they have a [LogDriver] entry,
    overwriting whatever the attribute held; without such an entry the
    attribute is what it was. *)
Theorem backfill_overwrites_log_driver self info self' spec task_defaults :
  update_from_swarm_info self info = Ok self' ->
  Dict.get info "Spec" = Some spec ->
  py_getitem spec "TaskDefaults" = Ok (VDict task_defaults) ->
  getattr self' "log_driver" =
  match Dict.get task_defaults "LogDriver" with
  | Some v => Ok v
  | None => getattr self "log_driver"
  end.
Proof.
  intros H Hspec Htd.
  destruct (update_from_swarm_info_attr _ _ _ H)
    as (spec' & ld & Hs & Hld & Hattr).
  cbn [py_getitem] in Hs. rewrite Hspec in Hs. injection Hs as <-.
  rewrite Hattr.
  rewrite (observed_value_None spec "log_driver")
    by (intros Hin; apply str_mem_In in Hin; discriminate Hin).
  unfold observed_log_driver in Hld. rewrite Htd in Hld.
  cbn [rbind py_contains py_getitem] in Hld. unfold Dict.mem in Hld.
  destruct (Dict.get task_defaults "LogDriver") as [v|];
    cbn [rbind] in Hld; injection Hld as <-; reflexivity.
Qed.

Lemma backfill_overwrites_log_driver_witness :
  let info := [("Spec", VDict [("Name", VStr "default");
                               ("TaskDefaults",
                                VDict [("LogDriver",
                                        VDict [("Name", VStr "json-file")])])])] in
  let self := setattr TaskParameters_init "log_driver" (VStr "mine") in
  exists self',
    update_from_swarm_info self info = Ok self'
    /\ getattr self' "log_driver" = Ok (VDict [("Name", VStr "json-file")]).
Proof.
  intros info self.
  assert (exists self', update_from_swarm_info self info = Ok self')
    as (self' & H) by (eexists; vm_compute; reflexivity).
  exists self'. split; [exact H|].
  exact (backfill_overwrites_log_driver self info self' _ _ H eq_refl eq_refl).
Defined.

(** ** Comparison: what is reported *)

Lemma compare_attributes_complete ks self other client d d' k v w :
  compare_attributes ks self other client d = Ok d' ->
  In k ks ->
  str_mem k not_compared = false ->
  supported client k = true ->
  getattr self k = Ok v ->
  is_None v = false ->
  getattr other k = Ok w ->
  py_eq v w = false ->
  In {| name := k; parameter := v; active := w |} d'.
Proof.
  revert d.
  induction ks as [|k0 ks IH]; intros d H Hin Hskip Hsup Hv Hn Hw Heq;
    [contradiction|].
  cbn [compare_attributes] in H.
  destruct Hin as [->|Hin].
  - rewrite Hskip, Hsup, Hv in H. cbn [negb rbind] in H.
    rewrite Hn, Hw in H. cbn [rbind] in H. rewrite Heq in H. cbn [negb] in H.
    destruct (compare_attributes_spec _ _ _ _ _ _ H) as (added & -> & _).
    unfold DifferenceTracker_add. rewrite <- app_assoc.
    apply in_or_app. right. now left.
  - destruct (str_mem k0 not_compared); [now apply (IH d)|].
    destruct (negb (supported client k0)); [now apply (IH d)|].
    destruct (getattr self k0) as [v0|]; cbn [rbind] in H; [|discriminate H].
    destruct (is_None v0); [now apply (IH d)|].
    destruct (getattr other k0) as [w0|]; cbn [rbind] in H; [|discriminate H].
    destruct (negb (py_eq v0 w0)); eapply IH; eassumption.
Qed.

(** X20. Starting from no differences, [compare_to_active] reports exactly
    this: one entry (desired value, other side's value) for every attribute
    that is compared, supported by the capability gate, set, and different
    from the other side's, and one synthetic entry (true, false) for each
    rotate flag that is true. Nothing else is ever reported. *)
Theorem compare_to_active_reports_exactly self other client d' :
  compare_to_active self other client [] = Ok d' ->
  forall x,
    In x d' <->
    (In (name x) (Dict.keys self)
     /\ str_mem (name x) not_compared = false
     /\ supported client (name x) = true
     /\ getattr self (name x) = Ok (parameter x)
     /\ is_None (parameter x) = false
     /\ getattr other (name x) = Ok (active x)
     /\ py_eq (parameter x) (active x) = false)
    \/ (exists flag,
          getattr self "rotate_worker_token" = Ok flag /\ py_truthy flag = true
          /\ x = {| name := "rotate_worker_token"; parameter := VBool true;
                    active := VBool false |})
    \/ (exists flag,
          getattr self "rotate_manager_token" = Ok flag /\ py_truthy flag = true
          /\ x = {| name := "rotate_manager_token"; parameter := VBool true;
                    active := VBool false |}).
Proof.
  intros H x.
  destruct (compare_to_active_spec _ _ _ _ _ H)
    as (added & rw & rm & Hrw & Hrm & -> & Hadd).
  unfold compare_to_active in H.
  destruct (compare_attributes _ self other client [])
    as [d1|] eqn:Hc; cbn [rbind] in H; [|discriminate H].
  destruct (compare_attributes_spec _ _ _ _ _ _ Hc) as (added' & Hd1 & _).
  rewrite Hrw, Hrm in H. cbn [rbind] in H. injection H as H.
  cbn [app] in *. subst d1.
  assert (added' = added) as ->.
  { unfold rotate_entry, DifferenceTracker_add in H.
    destruct (py_truthy rw), (py_truthy rm); cbn [app] in H;
      rewrite <- ?app_assoc in H; cbn [app] in H;
      rewrite ?app_nil_r in H.
    - now apply app_inv_tail in H.
    - now apply app_inv_tail in H.
    - now apply app_inv_tail in H.
    - exact H. }
  clear H. split.
  - intros Hin. apply in_app_or in Hin as [Hin|Hin]; [left; now apply Hadd|].
    right. apply in_app_or in Hin as [Hin|Hin]; unfold rotate_entry in Hin.
    + left. exists rw. destruct (py_truthy rw); [|contradiction].
      destruct Hin as [<-|[]]. auto.
    + right. exists rm. destruct (py_truthy rm); [|contradiction].
      destruct Hin as [<-|[]]. auto.
  - intros [(Hk & Hskip & Hsup & Hv & Hn & Hw & Heq)
           | [(flag & Hf & Ht & ->) | (flag & Hf & Ht & ->)]].
    + apply in_or_app. left. destruct x as [k v w]. cbn [name parameter active] in *.
      exact (compare_attributes_complete _ _ _ _ _ _ _ _ _ Hc Hk Hskip Hsup
               Hv Hn Hw Heq).
    + apply in_or_app. right. apply in_or_app. left.
      rewrite Hf in Hrw. injection Hrw as <-. unfold rotate_entry.
      rewrite Ht. now left.
    + apply in_or_app. right. apply in_or_app. right.
      rewrite Hf in Hrm. injection Hrm as <-. unfold rotate_entry.
      rewrite Ht. now left.
Qed.

Lemma compare_to_active_reports_exactly_witness :
  let client := example_client [] false manager_transport in
  let self := setattr TaskParameters_init "election_tick" (VInt 5) in
  let other := setattr (setattr TaskParameters_init "election_tick" (VInt 10))
                 "heartbeat_tick" (VInt 1) in
  let entry := {| name := "election_tick"; parameter := VInt 5;
                  active := VInt 10 |} in
  compare_to_active self other client [] = Ok [entry]
  /\ py_eq (VInt 5) (VInt 10) = false
  /\ getattr other "election_tick" = Ok (VInt 10).
Proof.
  intros client self other entry.
  assert (compare_to_active self other client [] = Ok [entry]) as H
    by (vm_compute; reflexivity).
  split; [exact H|].
  destruct (proj1 (compare_to_active_reports_exactly self other client _ H entry)
              (or_introl eq_refl))
    as [(_ & _ & _ & _ & _ & Hw & Heq) | [(f & _ & _ & Hx) | (f & _ & _ & Hx)]];
    [split; [exact Heq | exact Hw] | discriminate Hx | discriminate Hx].
Defined.

(** X21. A signing CA certificate or key given by the caller is reported as
    a difference in every comparison of the update path: the observed side
    is built by the backfill, which never reads the signing CA material, so
    the supported, set field is compared with [None] and always differs. *)
Theorem signing_ca_always_differs self info self' old client d d' k v :
  In k ["signing_ca_cert"; "signing_ca_key"] ->
  supported client k = true ->
  getattr self k = Ok v ->
  is_None v = false ->
  update_from_swarm_info self info = Ok self' ->
  update_from_swarm_info TaskParameters_init info = Ok old ->
  compare_to_active self' old client d = Ok d' ->
  In {| name := k; parameter := v; active := VNone |} d'.
Proof.
  intros Hk Hsup Hv Hn Hself Hold Hcmp.
  assert (~ In k backfilled_fields /\ k <> "log_driver"
          /\ str_mem k not_compared = false
          /\ getattr TaskParameters_init k = Ok VNone) as (Hnb & Hnl & Hskip & Hinit).
  { cbn [In] in Hk. destruct Hk as [<-|[<-|[]]];
      (split; [intros Hin; apply str_mem_In in Hin; discriminate Hin|]);
      (split; [discriminate|]); split; reflexivity. }
  assert (forall s s', update_from_swarm_info s info = Ok s' ->
            getattr s' k = getattr s k) as Hkeep.
  { intros s s' Hs.
    destruct (update_from_swarm_info_attr _ _ _ Hs) as (spec & ld & _ & _ & Hattr).
    rewrite Hattr, (observed_value_None spec k Hnb).
    assert (String.eqb "log_driver" k = false) as ->
      by (apply String.eqb_neq; congruence).
    destruct ld; reflexivity. }
  pose proof (Hkeep _ _ Hself) as Hv'. rewrite Hv in Hv'.
  pose proof (Hkeep _ _ Hold) as Hw. rewrite Hinit in Hw.
  unfold compare_to_active in Hcmp.
  destruct (compare_attributes _ self' old client d) as [d1|] eqn:Hc;
    cbn [rbind] in Hcmp; [|discriminate Hcmp].
  assert (In {| name := k; parameter := v; active := VNone |} d1) as Hin.
  { apply (compare_attributes_complete _ _ _ _ _ _ _ _ _ Hc);
      try assumption.
    - now apply getattr_In_keys with (v := v).
    - destruct v; [discriminate Hn | reflexivity ..]. }
  destruct (getattr self' "rotate_worker_token"); cbn [rbind] in Hcmp;
    [|discriminate Hcmp].
  destruct (getattr self' "rotate_manager_token"); cbn [rbind] in Hcmp;
    [|discriminate Hcmp].
  injection Hcmp as <-. unfold DifferenceTracker_add.
  destruct (py_truthy _), (py_truthy _);
    repeat (apply in_or_app; left); exact Hin.
Qed.

Lemma signing_ca_always_differs_witness :
  let client := example_client [] false manager_transport in
  let self := setattr TaskParameters_init "signing_ca_cert" (VStr "PEM") in
  exists self' old d',
    update_from_swarm_info self example_swarm = Ok self'
    /\ update_from_swarm_info TaskParameters_init example_swarm = Ok old
    /\ compare_to_active self' old client [] = Ok d'
    /\ In {| name := "signing_ca_cert"; parameter := VStr "PEM";
             active := VNone |} d'.
Proof.
  intros client self.
  eexists. eexists. eexists.
  split; [vm_compute; reflexivity|].
  split; [vm_compute; reflexivity|].
  split; [vm_compute; reflexivity|].
  eapply (signing_ca_always_differs self example_swarm _ _ client []).
  - now left.
  - vm_compute; reflexivity.
  - vm_compute; reflexivity.
  - reflexivity.
  - vm_compute; reflexivity.
  - vm_compute; reflexivity.
  - vm_compute; reflexivity.
Defined.

(** ** Inspecting the swarm: failures and the unlock key *)

(** X22. When the inspect request raises an [APIError], [inspect_swarm]
    returns normally and changes nothing but the log: the swarm information,
    the [changed] flag and the facts are those of before the call. *)
Theorem inspect_failure_is_swallowed client st msg :
  api_inspect_swarm (transport client) (calls st ++ [InspectSwarm]) = inl msg ->
  fst (inspect_swarm client st) = Ok tt
  /\ calls (snd (inspect_swarm client st)) = calls st ++ [InspectSwarm]
  /\ swarm_info (snd (inspect_swarm client st)) = swarm_info st
  /\ results (snd (inspect_swarm client st)) = results st.
Proof.
  intros H. unfold inspect_swarm. run_manager. rewrite H. simpl_state.
  repeat split.
Qed.

Lemma inspect_failure_is_swallowed_witness :
  let client := example_client [] false fresh_node_transport in
  let st := new_manager client in
  fst (inspect_swarm client st) = Ok tt
  /\ swarm_info (snd (inspect_swarm client st)) = []
  /\ swarm_facts (results (snd (inspect_swarm client st))) = None.
Proof.
  intros client st.
  destruct (inspect_failure_is_swallowed client st
              "This node is not a swarm manager.") as (H1 & _ & H3 & H4).
  - reflexivity.
  - split; [exact H1|]. rewrite H3, H4. split; reflexivity.
Defined.

(** X23. After a successful inspect the [changed] flag is reset to false,
    the facts are the swarm information itself, and the swarm information
    is the inspected document updated with an unlock key: the dictionary
    the engine returned when the key was requested and the answer is a
    non-empty dictionary, and a null [UnlockKey] in every other case (no
    request, an error, [None], an empty dictionary). *)
Theorem inspect_merges_the_unlock_key client st data autolock :
  api_inspect_swarm (transport client) (calls st ++ [InspectSwarm]) = inr data ->
  getattr (parameters st) "autolock_managers" = Ok autolock ->
  let fetch := py_truthy autolock &&
               (created st ||
                has_difference_for (differences st) "autolock_managers") in
  let unlock_key :=
    if fetch then
      match api_get_unlock_key (transport client)
              ((calls st ++ [InspectSwarm]) ++ [GetUnlockKey]) with
      | inr (Some (kv :: d)) => kv :: d
      | _ => [("UnlockKey", VNone)]
      end
    else [("UnlockKey", VNone)] in
  let st' := snd (inspect_swarm client st) in
  fst (inspect_swarm client st) = Ok tt
  /\ swarm_info st' = Dict.update data unlock_key
  /\ changed (results st') = false
  /\ read_swarm_facts st' = Some (swarm_info st').
Proof.
  intros Hdata Hauto fetch unlock_key st'. subst st' unlock_key.
  unfold inspect_swarm, get_unlock_key, has_swarm_lock_changed. run_manager.
  rewrite Hdata. simpl_state. rewrite Hauto. fold fetch.
  destruct fetch; simpl_state.
  - destruct (api_get_unlock_key (transport client) _) as [msg|[[|kv d]|]];
      simpl_state; repeat split.
  - repeat split.
Qed.

Lemma inspect_merges_the_unlock_key_witness :
  let client := example_client [("autolock_managers", VBool true)] false
                  manager_transport in
  let st := set_created true (new_manager client) in
  fst (inspect_swarm client st) = Ok tt
  /\ Dict.get (swarm_info (snd (inspect_swarm client st))) "UnlockKey"
     = Some (VStr "SWMKEY-1-key")
  /\ changed (results (snd (inspect_swarm client st))) = false.
Proof.
  intros client st.
  destruct (inspect_merges_the_unlock_key client st example_swarm (VBool true))
    as (H1 & H2 & H3 & _); try reflexivity.
  split; [exact H1|]. rewrite H2. split; [reflexivity | exact H3].
Defined.

(** ** Updating a swarm: the failures *)

(** X24. When the inspection at the start of an update raises an [APIError]
    and nothing was inspected before, [__update_swarm] does not fail with a
    message: the error is swallowed by [inspect_swarm], the version lookup
    in the empty swarm information raises [KeyError] for [Version], and
    that exception escapes the method. Nothing else is sent and the results
    are untouched. *)
Theorem update_after_failed_inspect_raises_KeyError client st msg :
  swarm_info st = [] ->
  api_inspect_swarm (transport client) (calls st ++ [InspectSwarm]) = inl msg ->
  fst (__update_swarm client st) = Raise (KeyError "Version")
  /\ calls (snd (__update_swarm client st)) = calls st ++ [InspectSwarm]
  /\ results (snd (__update_swarm client st)) = results st.
Proof.
  intros Hinfo H. unfold __update_swarm, update_swarm_try, inspect_swarm.
  run_manager. rewrite H. simpl_state. rewrite Hinfo. cbn. repeat split.
Qed.

Lemma update_after_failed_inspect_raises_KeyError_witness :
  let client := example_client [] false fresh_node_transport in
  let st := new_manager client in
  fst (__update_swarm client st) = Raise (KeyError "Version")
  /\ calls (snd (__update_swarm client st)) = [InspectSwarm].
Proof.
  intros client st.
  destruct (update_after_failed_inspect_raises_KeyError client st
              "This node is not a swarm manager.") as (H1 & H2 & _);
    try reflexivity.
  split; [exact H1 | exact H2].
Defined.





(** ** The diff of an invocation *)

Ltac diff_leaf :=
  simpl_state;
  cbn [diff results set_changed append_action set_swarm_facts];
  try reflexivity; try assumption.

Ltac diff_through Hm :=
  match goal with
  | Hi : ?m ?X = (_, ?s) |- diff (results ?s) = _ =>
      let Hx := fresh in
      pose proof (Hm X) as Hx; rewrite Hi in Hx; simpl_state_in Hx;
      rewrite Hx; clear Hx
  end.

Lemma inspect_swarm_diff client st :
  diff (results (snd (inspect_swarm client st))) = diff (results st).
Proof. now destruct (inspect_swarm_frame client st) as (_&_&_&_&_&_&_&H). Qed.

Lemma check_if_swarm_node_is_down_diff client id n st :
  diff (results (snd (check_if_swarm_node_is_down client id n st)))
  = diff (results st).
Proof.
  destruct (check_if_swarm_node_is_down_frame client id n st)
    as (_ & _ & H & _). now rewrite H.
Qed.

Lemma __update_swarm_diff client st :
  diff (results (snd (__update_swarm client st))) = diff (results st).
Proof.
  pose proof (inspect_swarm_diff client) as Hinsp.
  unfold __update_swarm, update_swarm_try. run_manager.
  pose proof (Hinsp st) as H1.
  destruct (inspect_swarm client st) as [r1 s1] eqn:Hi1. simpl_state_in H1.
  repeat (break_match_goal; diff_leaf).
  all: try diff_through Hinsp.
  all: diff_leaf.
Qed.

Lemma init_swarm_diff py_repr client st :
  diff (results (snd (init_swarm py_repr client st))) = diff (results st).
Proof.
  pose proof (inspect_swarm_diff client) as Hinsp.
  pose proof (__update_swarm_diff client) as Hupd.
  unfold init_swarm. run_manager. simpl_state.
  repeat (break_match_goal; diff_leaf).
  all: try diff_through Hinsp.
  all: try rewrite Hupd.
  all: diff_leaf.
Qed.

Lemma join_diff client st :
  diff (results (snd (join client st))) = diff (results st).
Proof.
  unfold join. run_manager. simpl_state.
  repeat (break_match_goal; diff_leaf).
Qed.

Lemma leave_diff client st :
  diff (results (snd (leave client st))) = diff (results st).
Proof.
  unfold leave. run_manager. simpl_state.
  repeat (break_match_goal; diff_leaf).
Qed.

Lemma remove_diff client st :
  diff (results (snd (remove client st))) = diff (results st).
Proof.
  pose proof (check_if_swarm_node_is_down_diff client) as Hpoll.
  unfold remove. run_manager. simpl_state.
  repeat (break_match_goal; diff_leaf).
  all: match goal with
       | Hi : check_if_swarm_node_is_down _ ?id ?n ?X = (_, ?s) |- _ =>
           let Hx := fresh in
           pose proof (Hpoll id n X) as Hx; rewrite Hi in Hx;
           simpl_state_in Hx; rewrite Hx; clear Hx
       end.
  all: diff_leaf.
Qed.

(** X26. The [diff] entry of the results is written by [__call__] alone,
    after the requested operation completed: when the operation raises, the
    entry is what it was; when it completes, the entry is the before/after
    snapshot of the final differences if diff output was requested or the
    [debug] attribute of the parameters is true, and untouched otherwise. *)
Theorem call_reports_the_diff py_repr client st :
  let r := fst (__call__ py_repr client st) in
  let st' := snd (__call__ py_repr client st) in
  (r <> Ok tt -> diff (results st') = diff (results st))
  /\ (r = Ok tt ->
      (module_diff client = true ->
       diff (results st') = Some (get_before_after (differences st')))
      /\ (module_diff client = false ->
          exists debug,
            getattr (parameters st') "debug" = Ok debug
            /\ diff (results st') =
               if py_truthy debug
               then Some (get_before_after (differences st'))
               else diff (results st))).
Proof.
  pose proof (init_swarm_diff py_repr client st) as H1.
  pose proof (join_diff client st) as H2.
  pose proof (leave_diff client st) as H3.
  pose proof (remove_diff client st) as H4.
  unfold __call__. run_manager. simpl_state.
  repeat (break_match_goal; simpl_state).
  all: try match goal with
       | Hf : py_truthy (VBool true) = false |- _ => discriminate Hf
       end.
  all: cbn [diff results set_diff].
  all: repeat match goal with
         | Hi : ?m = (_, ?s) |- _ =>
             first [ rewrite Hi in H1 | rewrite Hi in H2
                   | rewrite Hi in H3 | rewrite Hi in H4 ];
             clear Hi
         end.
  all: simpl_state_in H1; simpl_state_in H2; simpl_state_in H3;
       simpl_state_in H4.
  all: split; [intros Hr; try (now exfalso; apply Hr); try assumption
              | intros Hr; try discriminate Hr].
  all: split; intros Hd; try discriminate Hd; try reflexivity.
  all: eexists; split; [eassumption|].
  all: match goal with
       | Ht : py_truthy _ = _ |- _ => rewrite Ht
       end; try reflexivity; assumption.
Qed.

(** ** Updating a swarm: the two outcomes *)

(** X27. When the comparison that follows the first inspection finds no
    difference, [__update_swarm] returns normally after that inspection
    alone: no update request is sent and the swarm is not inspected again;
    the action "No modification" is appended and [changed] is false.  The
    parameters of the manager are left backfilled from the swarm. *)
Theorem update_without_differences client st st1 version p old d :
  inspect_swarm client st = (Ok tt, st1) ->
  (let? v := py_getitem (VDict (swarm_info st1)) "Version" in
   py_getitem v "Index") = Ok version ->
  update_from_swarm_info (parameters st) (swarm_info st1) = Ok p ->
  update_from_swarm_info TaskParameters_init (swarm_info st1) = Ok old ->
  compare_to_active p old client (differences st) = Ok d ->
  DifferenceTracker_empty d = true ->
  let st' := snd (__update_swarm client st) in
  fst (__update_swarm client st) = Ok tt
  /\ calls st' = calls st1
  /\ actions (results st') = actions (results st) ++ ["No modification"]
  /\ changed (results st') = false
  /\ read_swarm_facts st' = read_swarm_facts st1
  /\ differences st' = d
  /\ parameters st' = p.
Proof.
  intros Hi Hv Hp Hold Hd He st'. subst st'.
  destruct (inspect_swarm_frame client st) as (Fd & Fp & _ & _ & _ & _ & Fa & _).
  rewrite Hi in Fd, Fp, Fa. simpl_state_in Fd. simpl_state_in Fp.
  simpl_state_in Fa.
  unfold __update_swarm, update_swarm_try. run_manager.
  rewrite Hi. simpl_state. rewrite Hv. simpl_state.
  rewrite Fp, Hp. simpl_state. rewrite Hold. simpl_state.
  rewrite Fd, Hd. simpl_state. rewrite He. simpl_state.
  cbn [actions changed results set_results append_action set_changed].
  rewrite Fa. repeat split.
Qed.

Lemma update_without_differences_witness :
  let client := example_client [] false manager_transport in
  let st := new_manager client in
  fst (__update_swarm client st) = Ok tt
  /\ calls (snd (__update_swarm client st)) = [InspectSwarm]
  /\ actions (results (snd (__update_swarm client st))) = ["No modification"]
  /\ changed (results (snd (__update_swarm client st))) = false.
Proof.
  intros client st.
  assert (exists p old,
            update_from_swarm_info (parameters st)
              (swarm_info (snd (inspect_swarm client st))) = Ok p
            /\ update_from_swarm_info TaskParameters_init
                 (swarm_info (snd (inspect_swarm client st))) = Ok old
            /\ compare_to_active p old client (differences st) = Ok [])
    as (p & old & Hp & Hold & Hd)
    by (do 2 eexists; repeat (split; [vm_compute; reflexivity|]);
        vm_compute; reflexivity).
  destruct (update_without_differences client st
              (snd (inspect_swarm client st)) (VInt 11) p old [])
    as (H1 & H2 & H3 & H4 & _);
    try assumption; try (vm_compute; reflexivity).
  split; [exact H1|]. split; [rewrite H2; vm_compute; reflexivity|].
  split; [exact H3 | exact H4].
Defined.

Lemma inspect_swarm_sends client st :
  exists rest,
    calls (snd (inspect_swarm client st)) = calls st ++ InspectSwarm :: rest
    /\ forallb read_only rest = true.
Proof.
  unfold inspect_swarm, get_unlock_key, has_swarm_lock_changed. run_manager.
  repeat break_match_goal; simpl_state; rewrite <- ?app_assoc;
    eexists; split; reflexivity.
Qed.

Lemma inspect_swarm_returns client st v :
  getattr (parameters st) "autolock_managers" = Ok v ->
  fst (inspect_swarm client st) = Ok tt.
Proof.
  intros H. unfold inspect_swarm, get_unlock_key, has_swarm_lock_changed.
  run_manager.
  destruct (api_inspect_swarm _ _) as [msg|data]; simpl_state;
    [reflexivity|].
  rewrite H. repeat break_match_goal; simpl_state; reflexivity.
Qed.

(** X28. When the comparison finds a difference, [__update_swarm] submits
    (unless in check mode) exactly one update request: it carries the
    version index read by the first inspection, the specification of a
    fresh [from_ansible_params] object on which [update_parameters] was
    called again (so nothing backfilled from the swarm), and the rotate
    flags of the parameters.  When the request is accepted, or in check
    mode, the swarm is inspected again, the action "Swarm cluster updated"
    is appended and [changed] is true. *)
Theorem update_submits_the_fresh_spec client st st1 version p old d fresh
    update_parameters_ spec rw rm autolock :
  inspect_swarm client st = (Ok tt, st1) ->
  (let? v := py_getitem (VDict (swarm_info st1)) "Version" in
   py_getitem v "Index") = Ok version ->
  update_from_swarm_info (parameters st) (swarm_info st1) = Ok p ->
  update_from_swarm_info TaskParameters_init (swarm_info st1) = Ok old ->
  compare_to_active p old client (differences st) = Ok d ->
  DifferenceTracker_empty d = false ->
  from_ansible_params client = Ok fresh ->
  update_parameters fresh client = Ok update_parameters_ ->
  getattr update_parameters_ "spec" = Ok spec ->
  getattr p "rotate_worker_token" = Ok rw ->
  getattr p "rotate_manager_token" = Ok rm ->
  getattr p "autolock_managers" = Ok autolock ->
  let sent :=
    calls st1 ++ (if check_mode client then []
                  else [UpdateSwarm version spec rw rm]) in
  (check_mode client = false ->
   api_update_swarm (transport client) sent = None) ->
  let st' := snd (__update_swarm client st) in
  fst (__update_swarm client st) = Ok tt
  /\ (exists rest, calls st' = sent ++ InspectSwarm :: rest
                   /\ forallb read_only rest = true)
  /\ actions (results st') = actions (results st) ++ ["Swarm cluster updated"]
  /\ changed (results st') = true
  /\ differences st' = d
  /\ parameters st' = p.
Proof.
  intros Hi Hv Hp Hold Hd He Hf Hu Hs Hrw Hrm Hal sent Hok st'.
  subst st' sent.
  destruct (inspect_swarm_frame client st) as (Fd & Fp & _ & _ & _ & _ & Fa & _).
  rewrite Hi in Fd, Fp, Fa. simpl_state_in Fd. simpl_state_in Fp.
  simpl_state_in Fa.
  unfold __update_swarm, update_swarm_try. run_manager.
  rewrite Hi. simpl_state. rewrite Hv. simpl_state.
  rewrite Fp, Hp. simpl_state. rewrite Hold. simpl_state.
  rewrite Fd, Hd. simpl_state. rewrite He. simpl_state.
  rewrite Hf. simpl_state. rewrite Hu. simpl_state.
  destruct (check_mode client); simpl_state.
  - match goal with
    | |- context [inspect_swarm client ?X] =>
        destruct (inspect_swarm_frame client X) as (Gd & Gp & _ & _ & _ & _ & Ga & _);
        destruct (inspect_swarm_sends client X) as (rest & Gc & Gr);
        pose proof (inspect_swarm_returns client X autolock Hal) as Gf;
        destruct (inspect_swarm client X) as [r2 s2]
    end.
    simpl_state_in Gd. simpl_state_in Gp. simpl_state_in Ga. simpl_state_in Gc.
    simpl_state_in Gf. subst r2. simpl_state.
    cbn [actions changed results set_results append_action set_changed] in *.
    rewrite Ga, Fa, Gd, Gp. rewrite app_nil_r.
    repeat split. exists rest. now split.
  - rewrite Hs. simpl_state. rewrite Hrw. simpl_state. rewrite Hrm. simpl_state.
    rewrite (Hok eq_refl). simpl_state.
    match goal with
    | |- context [inspect_swarm client ?X] =>
        destruct (inspect_swarm_frame client X) as (Gd & Gp & _ & _ & _ & _ & Ga & _);
        destruct (inspect_swarm_sends client X) as (rest & Gc & Gr);
        pose proof (inspect_swarm_returns client X autolock Hal) as Gf;
        destruct (inspect_swarm client X) as [r2 s2]
    end.
    simpl_state_in Gd. simpl_state_in Gp. simpl_state_in Ga. simpl_state_in Gc.
    simpl_state_in Gf. subst r2. simpl_state.
    cbn [actions changed results set_results append_action set_changed] in *.
    rewrite Ga, Fa, Gd, Gp.
    repeat split. exists rest. now split.
Qed.

Lemma update_submits_the_fresh_spec_witness :
  let client := example_client [("name", VStr "prod")] false
                  manager_transport in
  let st := new_manager client in
  fst (__update_swarm client st) = Ok tt
  /\ (exists rest,
        calls (snd (__update_swarm client st)) =
        [InspectSwarm;
         UpdateSwarm (VInt 11) (VDict [("name", VStr "prod")]) (VBool false)
           (VBool false)]
        ++ InspectSwarm :: rest)
  /\ actions (results (snd (__update_swarm client st))) =
       ["Swarm cluster updated"]
  /\ changed (results (snd (__update_swarm client st))) = true.
Proof.
  intros client st.
  assert (exists p old d fresh update_parameters_,
            update_from_swarm_info (parameters st)
              (swarm_info (snd (inspect_swarm client st))) = Ok p
            /\ update_from_swarm_info TaskParameters_init
                 (swarm_info (snd (inspect_swarm client st))) = Ok old
            /\ compare_to_active p old client (differences st) = Ok d
            /\ DifferenceTracker_empty d = false
            /\ from_ansible_params client = Ok fresh
            /\ update_parameters fresh client = Ok update_parameters_
            /\ getattr update_parameters_ "spec" =
                 Ok (VDict [("name", VStr "prod")])
            /\ getattr p "rotate_worker_token" = Ok (VBool false)
            /\ getattr p "rotate_manager_token" = Ok (VBool false)
            /\ getattr p "autolock_managers" = Ok (VBool false))
    as (p & old & d & fresh & up & Hp & Hold & Hd & He & Hf & Hu & Hs & Hrw
        & Hrm & Hal)
    by (do 5 eexists; repeat (split; [vm_compute; reflexivity|]);
        vm_compute; reflexivity).
  destruct (update_submits_the_fresh_spec client st
              (snd (inspect_swarm client st)) (VInt 11) p old d fresh up
              (VDict [("name", VStr "prod")]) (VBool false) (VBool false)
              (VBool false))
    as (H1 & (rest & H2 & _) & H3 & H4 & _);
    try assumption; try (vm_compute; reflexivity).
  split; [exact H1|]. split; [exists rest; exact H2|].
  split; [exact H3 | exact H4].
Defined.

Lemma update_from_swarm_info_keeps_rotate_flags self info self' k :
  update_from_swarm_info self info = Ok self' ->
  In k ["rotate_worker_token"; "rotate_manager_token"] ->
  getattr self' k = getattr self k.
Proof.
  intros H Hk.
  destruct (update_from_swarm_info_attr _ _ _ H) as (spec & ld & _ & _ & Hattr).
  rewrite Hattr.
  destruct Hk as [<-|[<-|[]]];
    (rewrite observed_value_None;
     [destruct ld; reflexivity
     |intros Hin; apply str_mem_In in Hin; discriminate Hin]).
Qed.

Lemma compare_to_active_rotate self other client d d' k flag :
  compare_to_active self other client d = Ok d' ->
  In k ["rotate_worker_token"; "rotate_manager_token"] ->
  getattr self k = Ok flag ->
  py_truthy flag = true ->
  In {| name := k; parameter := VBool true; active := VBool false |} d'.
Proof.
  intros H Hk Hflag Ht.
  destruct (compare_to_active_spec _ _ _ _ _ H)
    as (added & rw & rm & Hrw & Hrm & -> & _).
  rewrite !in_app_iff. right. right.
  destruct Hk as [<-|[<-|[]]].
  - left. rewrite Hrw in Hflag. injection Hflag as ->.
    unfold rotate_entry. rewrite Ht. now left.
  - right. rewrite Hrm in Hflag. injection Hflag as ->.
    unfold rotate_entry. rewrite Ht. now left.
Qed.

Ltac rotate_difference Hk Hflag Ht Fp :=
  match goal with
  | Hu : update_from_swarm_info (parameters _) _ = Ok ?p,
    Hc : compare_to_active ?p _ _ _ = Ok _ |- _ =>
      let Hkeep := fresh "Hkeep" in
      pose proof (update_from_swarm_info_keeps_rotate_flags _ _ _ _ Hu Hk)
        as Hkeep;
      rewrite Fp, Hflag in Hkeep;
      pose proof (compare_to_active_rotate _ _ _ _ _ _ _ Hc Hk Hkeep Ht)
  end.

(** X29. A rotate flag makes every update a change.  When
    [rotate_worker_token] or [rotate_manager_token] is true in the
    parameters and [__update_swarm] returns normally, it did not take the
    "No modification" exit, whatever the swarm looks like: the synthetic
    difference (true, false) for the flag is recorded, the action "Swarm
    cluster updated" is appended, [changed] is true and, unless in check
    mode, an update request was sent. *)
Theorem rotate_flag_always_updates client st k flag :
  In k ["rotate_worker_token"; "rotate_manager_token"] ->
  getattr (parameters st) k = Ok flag ->
  py_truthy flag = true ->
  fst (__update_swarm client st) = Ok tt ->
  let st' := snd (__update_swarm client st) in
  changed (results st') = true
  /\ actions (results st') = actions (results st) ++ ["Swarm cluster updated"]
  /\ In {| name := k; parameter := VBool true; active := VBool false |}
        (differences st')
  /\ (check_mode client = false ->
      exists log version spec rw rm rest,
        calls st' = log ++ UpdateSwarm version spec rw rm :: rest).
Proof.
  intros Hk Hflag Ht.
  destruct (inspect_swarm_frame client st) as (Fd & Fp & _ & _ & _ & _ & Fa & _).
  unfold __update_swarm, update_swarm_try. run_manager.
  destruct (inspect_swarm client st) as [r1 s1].
  simpl_state_in Fd. simpl_state_in Fp. simpl_state_in Fa.
  repeat (break_match_goal; simpl_state).
  all: try (intros Hok; discriminate Hok).
  all: intros Hok.
  all: rotate_difference Hk Hflag Ht Fp.
  - match goal with
    | He : DifferenceTracker_empty ?d = true |- _ =>
        match goal with
        | Hin : In _ d |- _ => destruct d; [destruct Hin | discriminate He]
        end
    end.
  - match goal with
    | Hi : inspect_swarm client ?X = (_, ?s) |- _ =>
        destruct (inspect_swarm_frame client X)
          as (Gd & _ & _ & _ & _ & _ & Ga & _);
        destruct (inspect_swarm_calls_first client X) as (rest & Gc);
        rewrite Hi in Gd, Ga, Gc
    end.
    simpl_state_in Gd. simpl_state_in Ga. simpl_state_in Gc.
    cbn [changed actions results set_results append_action set_changed] in *.
    rewrite Ga, Fa, Gd.
    split; [reflexivity|]. split; [reflexivity|]. split; [assumption|].
    intros _. rewrite Gc, <- app_assoc.
    do 6 eexists. reflexivity.
  - match goal with
    | Hi : inspect_swarm client ?X = (_, ?s) |- _ =>
        destruct (inspect_swarm_frame client X)
          as (Gd & _ & _ & _ & _ & _ & Ga & _);
        rewrite Hi in Gd, Ga
    end.
    simpl_state_in Gd. simpl_state_in Ga.
    cbn [changed actions results set_results append_action set_changed] in *.
    rewrite Ga, Fa, Gd.
    split; [reflexivity|]. split; [reflexivity|]. split; [assumption|].
    intros Hcm.
    match goal with
    | Hb : negb (check_mode client) = false |- _ =>
        rewrite Hcm in Hb; discriminate Hb
    end.
Qed.

Lemma rotate_flag_always_updates_witness :
  let client := example_client [("rotate_worker_token", VBool true)] false
                  manager_transport in
  let st := new_manager client in
  changed (results (snd (__update_swarm client st))) = true
  /\ actions (results (snd (__update_swarm client st))) =
       ["Swarm cluster updated"].
Proof.
  intros client st.
  destruct (rotate_flag_always_updates client st "rotate_worker_token"
              (VBool true))
    as (H1 & H2 & _);
    [now left | vm_compute; reflexivity | reflexivity
    | vm_compute; reflexivity |].
  split; [exact H1 | exact H2].
Defined.

Lemma read_only_not_init rest args :
  forallb read_only rest = true -> ~ In (InitSwarm args) rest.
Proof.
  intros H Hin. rewrite forallb_forall in H. apply H in Hin. discriminate Hin.
Qed.

Lemma __update_swarm_sends client st :
  exists sent,
    calls (snd (__update_swarm client st)) = calls st ++ sent
    /\ (forall args, ~ In (InitSwarm args) sent)
    /\ created (snd (__update_swarm client st)) = created st.
Proof.
  unfold __update_swarm, update_swarm_try. run_manager.
  destruct (inspect_swarm_sends client st) as (rest1 & Hc1 & Hr1).
  destruct (inspect_swarm_frame client st) as (_ & _ & Hcr1 & _).
  destruct (inspect_swarm client st) as [r1 s1].
  simpl_state_in Hc1. simpl_state_in Hcr1.
  repeat (break_match_goal; simpl_state).
  all: try match goal with
       | Hi : inspect_swarm ?c ?X = (_, ?s) |- _ =>
           let rest := fresh "rest" in
           let Hc := fresh "Hc" in let Hr := fresh "Hr" in
           let Hcr := fresh "Hcr" in
           destruct (inspect_swarm_sends c X) as (rest & Hc & Hr);
           destruct (inspect_swarm_frame c X) as (_ & _ & Hcr & _);
           rewrite Hi in Hc, Hcr; simpl_state_in Hc; simpl_state_in Hcr;
           rewrite Hc, Hcr
       end.
  all: cbn [calls created set_results]; rewrite Hc1, Hcr1, <- ?app_assoc.
  all: eexists; split; [reflexivity|]; split; [|reflexivity].
  all: intros args Hin; cbn [app] in Hin.
  all: repeat match goal with
         | H : In _ (_ :: _) |- _ => destruct H as [H|H]; [discriminate H|]
         | H : In _ (_ ++ _) |- _ => apply in_app_or in H as [H|H]
         | H : In (InitSwarm _) ?r, Hr : forallb read_only ?r = true |- _ =>
             exact (read_only_not_init _ _ Hr H)
         | H : In _ [] |- _ => destruct H
         end.
Qed.

(** X30. Without [force], [init_swarm] on a node that already is a manager
    is the update and nothing else: after the manager check it behaves
    exactly as [__update_swarm], so no initialisation request is sent and
    the swarm does not count as created. *)
Theorem present_on_a_manager_only_updates py_repr client st :
  py_truthy (force st) = false ->
  api_check_if_swarm_manager (transport client)
    (calls st ++ [CheckIfSwarmManager]) = true ->
  let st' := snd (init_swarm py_repr client st) in
  init_swarm py_repr client st =
    __update_swarm client (set_calls (calls st ++ [CheckIfSwarmManager]) st)
  /\ (exists sent,
        calls st' = calls st ++ CheckIfSwarmManager :: sent
        /\ forall args, ~ In (InitSwarm args) sent)
  /\ created st' = created st.
Proof.
  intros Hforce Hm st'. subst st'.
  assert (init_swarm py_repr client st =
          __update_swarm client
            (set_calls (calls st ++ [CheckIfSwarmManager]) st)) as ->.
  { unfold init_swarm. run_manager. rewrite Hforce. simpl_state.
    rewrite Hm. reflexivity. }
  split; [reflexivity|].
  destruct (__update_swarm_sends client
              (set_calls (calls st ++ [CheckIfSwarmManager]) st))
    as (sent & Hc & Hn & Hcr).
  simpl_state_in Hc. simpl_state_in Hcr. rewrite <- app_assoc in Hc.
  split; [exists sent; split; [exact Hc | exact Hn] | exact Hcr].
Qed.

Lemma present_on_a_manager_only_updates_witness :
  let client := example_client [("name", VStr "prod")] false
                  manager_transport in
  let st := new_manager client in
  calls (snd (init_swarm example_repr client st)) =
    [CheckIfSwarmManager; InspectSwarm;
     UpdateSwarm (VInt 11) (VDict [("name", VStr "prod")]) (VBool false)
       (VBool false);
     InspectSwarm]
  /\ created (snd (init_swarm example_repr client st)) = false.
Proof.
  intros client st.
  destruct (present_on_a_manager_only_updates example_repr client st)
    as (H1 & _ & H3); [reflexivity | reflexivity |].
  split; [rewrite H1; vm_compute; reflexivity | exact H3].
Defined.
